(** * VaultNote worker: users, notes and the routes that guard them

    A shallow embedding of [worker/entities.ts] (the [UserEntity] and
    [NoteEntity] classes) and of the route module that registers
    [/api/auth/register], [/api/auth/login], [/api/notes] and
    [/api/user/password], together with the properties the design
    document states about them.

    Conventions.
    - A JavaScript string is the [string] of its UTF-8 text, which is how
      the literals below are written.  Strings are compared for equality;
      the [length] property, which counts UTF-16 code units and not bytes,
      is a field of the [Runtime], like the other string functions.
    - The persistent store is threaded explicitly: a handler is a function
      from the store to a reply and the store it leaves behind.
    - What the JavaScript runtime supplies is taken as given: the string
      functions [toLowerCase], [length] and [createHash] (SHA-256 rendered
      in hexadecimal) are fields of a [Runtime] the routes are
      parameterised by, and the values of [crypto.randomUUID()] and
      [new Date().toISOString()] are arguments of the handler that reads
      them.
    - [./core-utils] (the [IndexedEntity] base class and the reply helpers)
      is not part of the sources at hand.  Its operations are modelled
      from the design document, each marked as such; its type guard
      [isStr] is a field of the [Runtime]. *)

From Stdlib Require Import Ascii String Sorted.
From stdpp Require Import gmap strings list.

Set Warnings "-register-all".
Open Scope string_scope.
Open Scope list_scope.

(** ** JSON values of a request body *)

Inductive JsValue : Type :=
| JUndefined
| JNull
| JBool (b : bool)
| JNum (n : Z)
| JStr (s : string)
| JArr (items : list JsValue)
| JObj (fields : list (string * JsValue)).

(** The [typeof] operator. *)
Definition typeof (v : JsValue) : string :=
  match v with
  | JUndefined => "undefined"
  | JBool _ => "boolean"
  | JNum _ => "number"
  | JStr _ => "string"
  | JNull | JArr _ | JObj _ => "object"
  end.

(** A parsed request body, [Record<string, unknown>]. *)
Abbreviation Body := (gmap string JsValue).

(** Reading a property: an absent one reads as [undefined]. *)
Definition prop (body : Body) (k : string) : JsValue :=
  default JUndefined (body !! k).

(** ** Records ([shared/types.ts], [worker/entities.ts]) *)

Module UserRecord.
Record t : Type := mk {
  id : string;
  username : string;
  passwordHash : string;
  noteIds : list string
}.
End UserRecord.

Module Note.
Record t : Type := mk {
  id : string;
  title : string;
  content : string;
  userId : string;
  createdAt : string;
  updatedAt : string
}.
End Note.

(** [UserEntity.initialState] and [NoteEntity.initialState]. *)
Definition UserEntity_initialState : UserRecord.t := UserRecord.mk "" "" "" [].
Definition NoteEntity_initialState : Note.t := Note.mk "" "Yeni Not" "" "" "" "".

(** [Partial<Note>], the argument of [patch]. *)
Module PartialNote.
Record t : Type := mk {
  id : option string;
  title : option string;
  content : option string;
  userId : option string;
  createdAt : option string;
  updatedAt : option string
}.
End PartialNote.

(** [{ ...s, ...p }] on notes: a field present in [p] replaces the one
    of [s]. *)
Definition merge (s : Note.t) (p : PartialNote.t) : Note.t :=
  {| Note.id := default (Note.id s) (PartialNote.id p);
     Note.title := default (Note.title s) (PartialNote.title p);
     Note.content := default (Note.content s) (PartialNote.content p);
     Note.userId := default (Note.userId s) (PartialNote.userId p);
     Note.createdAt := default (Note.createdAt s) (PartialNote.createdAt p);
     Note.updatedAt := default (Note.updatedAt s) (PartialNote.updatedAt p) |}.

(** ** The entity store *)

Inductive Exn : Type :=
| AlreadyExists
| NotFound
| TypeError.

Inductive Result (A : Type) : Type :=
| Ok (a : A)
| Err (e : Exn).
Arguments Ok {A} a.
Arguments Err {A} e.

(** Modelled from the spec: the storage behind [IndexedEntity] (section
    4.2): the records of one type by key, and the type's index of known
    keys. *)
Record Store (S : Type) : Type := mkStore {
  docs : gmap string S;
  index : gset string
}.
Arguments mkStore {S} docs index.
Arguments docs {S} s.
Arguments index {S} s.

Section Entity.
Context {S : Type}.
(** [keyOf]: the base implementation, [state => state.id]. *)
Variable keyOf : S -> string.

(** Modelled from the spec: [exists] of [IndexedEntity] (section 4.2),
    true iff a record of that key has been created and not deleted. *)
Definition exists_ (st : Store S) (k : string) : bool :=
  bool_decide (is_Some (docs st !! k)).

(** Modelled from the spec: [getState] (section 4.2): the current stored
    value, and the [NotFound] failure for an absent key, written [None]
    here and raised by [settled] in every handler that awaits it. *)
Definition getState (st : Store S) (k : string) : option S :=
  docs st !! k.

(** Modelled from the spec: the static [create] (section 4.2): fails with
    [AlreadyExists] on a key that is present, and otherwise stores the
    value under its key and registers the key in the index. *)
Definition create (st : Store S) (v : S) : Result (Store S) :=
  if exists_ st (keyOf v) then Err AlreadyExists
  else Ok (mkStore (<[keyOf v := v]> (docs st)) ({[keyOf v]} ∪ index st)).

(** Modelled from the spec: [mutate] (section 4.2): reads the current
    value, applies the transform and writes the result back. *)
Definition mutate (st : Store S) (k : string) (f : S -> S) : Result (Store S) :=
  match getState st k with
  | Some v => Ok (mkStore (<[k := f v]> (docs st)) (index st))
  | None => Err NotFound
  end.

(** Modelled from the spec: the static [delete] (section 4.2): removes the
    record and its index entry; an absent key is no error. *)
Definition delete_ (st : Store S) (k : string) : Store S :=
  mkStore (delete k (docs st)) (index st ∖ {[k]}).

End Entity.

(** The one storage partition: the users and the notes. *)
Record Env : Type := mkEnv {
  users : Store UserRecord.t;
  notes : Store Note.t
}.

Definition set_users (env : Env) (us : Store UserRecord.t) : Env :=
  mkEnv us (notes env).
Definition set_notes (env : Env) (ns : Store Note.t) : Env :=
  mkEnv (users env) ns.

(** ** Handlers as store transformers that may throw *)

Definition M (A : Type) : Type := Env -> Result A * Env.

Definition ret {A : Type} (a : A) : M A := fun env => (Ok a, env).

Definition throw {A : Type} (e : Exn) : M A := fun env => (Err e, env).

Definition bind {A B : Type} (m : M A) (k : A -> M B) : M B :=
  fun env =>
    match m env with
    | (Ok a, env') => k a env'
    | (Err e, env') => (Err e, env')
    end.

Notation "'do' x <- m ; k" := (bind m (fun x => k))
  (at level 10, x name, m at level 100, k at level 200).
Notation "'run' m ; k" := (bind m (fun _ => k))
  (at level 10, m at level 100, k at level 200).

(** [await entity.getState()]: the stored value, or the [NotFound]
    failure thrown. *)
Definition settled {A : Type} (o : option A) : M A :=
  match o with
  | Some a => ret a
  | None => throw NotFound
  end.

(** *** [UserEntity] *)

(** [new Set(xs)] as the list of its elements in insertion order, which is
    the order [[...set]] spreads them in. *)
Definition set_add (acc : list string) (x : string) : list string :=
  if bool_decide (x ∈ acc) then acc else acc ++ [x].

Definition new_Set (xs : list string) : list string :=
  foldl set_add [] xs.

(** The transform of [addNoteId]:
    [s => ({ ...s, noteIds: [...new Set([...(s.noteIds || []), noteId])] })]. *)
Definition addNoteId_tr (noteId : string) (s : UserRecord.t) : UserRecord.t :=
  {| UserRecord.id := UserRecord.id s;
     UserRecord.username := UserRecord.username s;
     UserRecord.passwordHash := UserRecord.passwordHash s;
     UserRecord.noteIds := new_Set (UserRecord.noteIds s ++ [noteId]) |}.

(** The transform of [removeNoteId]:
    [s => ({ ...s, noteIds: (s.noteIds || []).filter(id => id !== noteId) })]. *)
Definition removeNoteId_tr (noteId : string) (s : UserRecord.t) : UserRecord.t :=
  {| UserRecord.id := UserRecord.id s;
     UserRecord.username := UserRecord.username s;
     UserRecord.passwordHash := UserRecord.passwordHash s;
     UserRecord.noteIds := filter (fun id => id <> noteId) (UserRecord.noteIds s) |}.

(** The transform of [updatePasswordHash]:
    [s => ({ ...s, passwordHash: newHash })]. *)
Definition updatePasswordHash_tr (newHash : string) (s : UserRecord.t) : UserRecord.t :=
  {| UserRecord.id := UserRecord.id s;
     UserRecord.username := UserRecord.username s;
     UserRecord.passwordHash := newHash;
     UserRecord.noteIds := UserRecord.noteIds s |}.

Definition user_exists (k : string) : M bool :=
  fun env => (Ok (exists_ (users env) k), env).

Definition user_getState (k : string) : M UserRecord.t :=
  fun env => settled (getState (users env) k) env.

Definition user_mutate (k : string) (f : UserRecord.t -> UserRecord.t) : M unit :=
  fun env =>
    match mutate (users env) k f with
    | Ok us => (Ok tt, set_users env us)
    | Err e => (Err e, env)
    end.

Definition user_create (v : UserRecord.t) : M unit :=
  fun env =>
    match create UserRecord.id (users env) v with
    | Ok us => (Ok tt, set_users env us)
    | Err e => (Err e, env)
    end.

(** [ensureState] then [this._state.passwordHash]. *)
Definition getPasswordHash (k : string) : M string :=
  do s <- user_getState k; ret (UserRecord.passwordHash s).

Definition updatePasswordHash (k newHash : string) : M unit :=
  user_mutate k (updatePasswordHash_tr newHash).

Definition addNoteId (k noteId : string) : M unit :=
  user_mutate k (addNoteId_tr noteId).

Definition removeNoteId (k noteId : string) : M unit :=
  user_mutate k (removeNoteId_tr noteId).

(** *** [NoteEntity] *)

Definition note_exists (k : string) : M bool :=
  fun env => (Ok (exists_ (notes env) k), env).

Definition note_getState (k : string) : M Note.t :=
  fun env => settled (getState (notes env) k) env.

Definition note_create (v : Note.t) : M unit :=
  fun env =>
    match create Note.id (notes env) v with
    | Ok ns => (Ok tt, set_notes env ns)
    | Err e => (Err e, env)
    end.

(** Modelled from the spec: [patch] (section 4.2) shallow-merges the given
    fields into the current value: [mutate(s => ({ ...s, ...p }))]. *)
Definition note_patch (k : string) (p : PartialNote.t) : M unit :=
  fun env =>
    match mutate (notes env) k (fun s => merge s p) with
    | Ok ns => (Ok tt, set_notes env ns)
    | Err e => (Err e, env)
    end.

Definition note_delete (k : string) : M unit :=
  fun env => (Ok tt, set_notes env (delete_ (notes env) k)).

(** ** Replies *)

(** The payloads the routes answer with: [{ success: true }],
    [{ username, notes }] and a note. *)
Inductive Data : Type :=
| DSuccess
| DLogin (username : string) (notes : list Note.t)
| DNote (note : Note.t).

(** A reply: the HTTP status and the [ApiResponse] of [shared/types.ts]. *)
Record Response : Type := mkResponse {
  status : nat;
  success : bool;
  data : option Data;
  error : option string
}.

(** Modelled from the spec: the reply helper [ok] of [./core-utils]
    (section 6: the success column). *)
Definition ok (d : Data) : Response := mkResponse 200 true (Some d) None.

(** Modelled from the spec: the reply helper [bad] of [./core-utils]
    (section 6: status 400 with a message). *)
Definition bad (msg : string) : Response := mkResponse 400 false None (Some msg).

(** Modelled from the spec: the reply helper [notFound] of [./core-utils]
    (section 6: status 404 with a message). *)
Definition notFound (msg : string) : Response := mkResponse 404 false None (Some msg).

(** [c.json({ success: false, error: 'Yetkisiz işlem.' }, 403)]. *)
Definition forbidden : Response := mkResponse 403 false None (Some "Yetkisiz işlem.").

(** After [isStr(v)] has answered true, [v] is read as the string it is. *)
Definition narrowed (v : JsValue) : M string :=
  match v with
  | JStr s => ret s
  | _ => throw TypeError
  end.

(** [Promise.all(promises)]: the values the promises settle with, in
    order, or the rejection of one that fails.  The promises the routes
    pass only read the store, so running them one after the other is all
    there is to their interleaving. *)
Fixpoint Promise_all {A : Type} (promises : list (M A)) : M (list A) :=
  match promises with
  | [] => ret []
  | promise :: rest =>
      do value <- promise;
      do values <- Promise_all rest;
      ret (value :: values)
  end.

(** [Boolean(note)]: a note is an object, and an object is truthy. *)
Definition Boolean_ (note : Note.t) : bool := true.

(** [notes.filter(Boolean)]. *)
Definition filter_Boolean (notes : list Note.t) : list Note.t :=
  List.filter Boolean_ notes.

(** What [authenticateUser] leaves in the context for the handler. *)
Record Ctx : Type := mkCtx {
  userEntity : string;
  userId : string;
  body : Body
}.

(** What the handlers take from outside this module: the runtime's
    [String.prototype.toLowerCase] and the [length] of a string (the
    number of its UTF-16 code units), the helper [createHash] (SHA-256 of
    the text in hexadecimal, computed by [crypto.subtle]), and the type
    guard [isStr] of [./core-utils]. *)
Record Runtime : Type := mkRuntime {
  toLowerCase : string -> string;
  String_length : string -> nat;
  createHash : string -> string;
  isStr : JsValue -> bool
}.

Section Routes.

Variable rt : Runtime.

(** The middleware [authenticateUser]. *)
Definition authenticateUser (body : Body) (next : Ctx -> M Response) : M Response :=
  let username := prop body "username" in
  let password := prop body "password" in
  if negb (isStr rt username) || negb (isStr rt password)
  then ret (bad "Kimlik bilgileri gereklidir.")
  else
    do u <- narrowed username;
    do p <- narrowed password;
    let userId := toLowerCase rt u in
    do found <- user_exists userId;
    if negb found
    then ret (notFound "Kullanıcı bulunamadı veya şifre yanlış.")
    else
      do storedHash <- getPasswordHash userId;
      let providedHash := createHash rt p in
      if bool_decide (storedHash <> providedHash)
      then ret (bad "Kullanıcı bulunamadı veya şifre yanlış.")
      else next (mkCtx userId userId body).

(** [POST /api/auth/register]. *)
Definition register (body : Body) : M Response :=
  let username := prop body "username" in
  let password := prop body "password" in
  if negb (isStr rt username) || negb (isStr rt password)
  then ret (bad "Kullanıcı adı ve şifre gereklidir.")
  else
    do u <- narrowed username;
    do p <- narrowed password;
    if (String_length rt u <? 3)%nat
    then ret (bad "Kullanıcı adı en az 3 karakter olmalıdır.")
    else if (String_length rt p <? 6)%nat
    then ret (bad "Şifre en az 6 karakter olmalıdır.")
    else
      let userId := toLowerCase rt u in
      do taken <- user_exists userId;
      if taken
      then ret (bad "Bu kullanıcı adı zaten alınmış.")
      else
        let passwordHash := createHash rt p in
        run user_create (UserRecord.mk userId u passwordHash []);
        ret (ok DSuccess).

(** [POST /api/auth/login]. *)
Definition login (body : Body) : M Response :=
  let username := prop body "username" in
  let password := prop body "password" in
  if negb (isStr rt username) || negb (isStr rt password)
  then ret (bad "Kullanıcı adı ve şifre gereklidir.")
  else
    do u <- narrowed username;
    do p <- narrowed password;
    let userId := toLowerCase rt u in
    do found <- user_exists userId;
    if negb found
    then ret (notFound "Kullanıcı bulunamadı veya şifre yanlış.")
    else
      do storedHash <- getPasswordHash userId;
      let providedHash := createHash rt p in
      if bool_decide (storedHash <> providedHash)
      then ret (bad "Kullanıcı bulunamadı veya şifre yanlış.")
      else
        do userState <- user_getState userId;
        let notePromises := map note_getState (UserRecord.noteIds userState) in
        do notes <- Promise_all notePromises;
        ret (ok (DLogin (UserRecord.username userState) (filter_Boolean notes))).

(** [POST /api/notes], after the middleware; [noteId] is the value of
    [crypto.randomUUID()] and [now] that of [new Date().toISOString()]. *)
Definition createNote (noteId now : string) (c : Ctx) : M Response :=
  let user := userEntity c in
  let userId := userId c in
  let newNote :=
    Note.mk noteId "İsimsiz Not" "Yeni notunuzu buraya yazın..." userId now now in
  run note_create newNote;
  run addNoteId user noteId;
  ret (ok (DNote newNote)).

(** [typeof v === 'string' && { field: v }], spread into the patch. *)
Definition provided (v : JsValue) : option string :=
  match v with
  | JStr s => Some s
  | _ => None
  end.

(** [PUT /api/notes/:noteId], after the middleware. *)
Definition updateNote (noteId now : string) (c : Ctx) : M Response :=
  let userId := userId c in
  let title := prop (body c) "title" in
  let content := prop (body c) "content" in
  do found <- note_exists noteId;
  if negb found
  then ret (notFound "Not bulunamadı.")
  else
    do noteState <- note_getState noteId;
    if bool_decide (Note.userId noteState <> userId)
    then ret forbidden
    else
      run note_patch noteId
            (PartialNote.mk None (provided title) (provided content) None None (Some now));
      do updated <- note_getState noteId;
      ret (ok (DNote updated)).

(** [DELETE /api/notes/:noteId], after the middleware. *)
Definition deleteNote (noteId : string) (c : Ctx) : M Response :=
  let user := userEntity c in
  let userId := userId c in
  do found <- note_exists noteId;
  if negb found
  then ret (notFound "Not bulunamadı.")
  else
    do noteState <- note_getState noteId;
    if bool_decide (Note.userId noteState <> userId)
    then ret forbidden
    else
      run note_delete noteId;
      run removeNoteId user noteId;
      ret (ok DSuccess).

(** [PUT /api/user/password], after the middleware. *)
Definition changePassword (c : Ctx) : M Response :=
  let user := userEntity c in
  let newPassword := prop (body c) "newPassword" in
  if negb (isStr rt newPassword)
  then ret (bad "Yeni şifre en az 6 karakter olmalıdır.")
  else
    do np <- narrowed newPassword;
    if (String_length rt np <? 6)%nat
    then ret (bad "Yeni şifre en az 6 karakter olmalıdır.")
    else
      let newPasswordHash := createHash rt np in
      run updatePasswordHash user newPasswordHash;
      ret (ok DSuccess).

(** The routes as mounted: [noteRoutes.use('*', authenticateUser)] and
    [userManagementRoutes.use('*', authenticateUser)]. *)
Definition post_notes (noteId now : string) (body : Body) : M Response :=
  authenticateUser body (createNote noteId now).

Definition put_note (noteId now : string) (body : Body) : M Response :=
  authenticateUser body (updateNote noteId now).

Definition delete_note (noteId : string) (body : Body) : M Response :=
  authenticateUser body (deleteNote noteId).

Definition put_password (body : Body) : M Response :=
  authenticateUser body changePassword.

(** ** Vocabulary of the statements *)

(** The credentials of [body] are well-formed: two strings that pass the
    guard. *)
Definition credentials_of (body : Body) (u p : string) : Prop :=
  prop body "username" = JStr u /\ prop body "password" = JStr p /\
  isStr rt (JStr u) = true /\ isStr rt (JStr p) = true.

(** The credentials of [body] are correct for the user record [rec]: the
    lowercased username is its key and the password's digest is the
    stored one. *)
Definition authentic (env : Env) (body : Body) (u p : string) (rec : UserRecord.t) : Prop :=
  credentials_of body u p /\
  docs (users env) !! toLowerCase rt u = Some rec /\
  UserRecord.passwordHash rec = createHash rt p.

(** The store after the registration of [u] with password [p] has gone
    through: the new record under its key, and the key in the index. *)
Definition registered (env : Env) (u p : string) : Env :=
  mkEnv
    (mkStore
       (<[toLowerCase rt u :=
            UserRecord.mk (toLowerCase rt u) u (createHash rt p) []]> (docs (users env)))
       ({[toLowerCase rt u]} ∪ index (users env)))
    (notes env).

End Routes.

(** The note [updateNote] writes over [old] for the request body [body]
    at the time [now]. *)
Definition touched (old : Note.t) (body : Body) (now : string) : Note.t :=
  merge old (PartialNote.mk None (provided (prop body "title"))
               (provided (prop body "content")) None None (Some now)).

(** The store a handler leaves behind, and what it answers. *)
Definition after {A : Type} (m : M A) (env : Env) : Env := snd (m env).
Definition reply {A : Type} (m : M A) (env : Env) : Result A := fst (m env).

(** Every note is stored under its own id, and every user under its own
    id with a duplicate-free [noteIds]: what [create] establishes and the
    routes keep. *)
Definition keyed (env : Env) : Prop :=
  (forall k n, docs (notes env) !! k = Some n -> Note.id n = k) /\
  (forall k s, docs (users env) !! k = Some s ->
     UserRecord.id s = k /\ NoDup (UserRecord.noteIds s)).

(** A sequence of authenticated note creations, each with the id and the
    time generated for it and the body of its request. *)
Definition create_notes (rt : Runtime) (reqs : list (string * string * Body))
    (env : Env) : Env :=
  foldl (fun e req => after (post_notes rt req.1.1 req.1.2 req.2) e) env reqs.

(** The ids [crypto.randomUUID()] gave to a sequence of creations. *)
Definition generated_ids (reqs : list (string * string * Body)) : list string :=
  map (fun req => req.1.1) reqs.

(** The request [req] carries correct credentials of the user stored
    under [k] with the digest [h]. *)
Definition sent_by (rt : Runtime) (k h : string) (req : string * string * Body) : Prop :=
  exists u p, credentials_of rt req.2 u p /\ toLowerCase rt u = k /\ createHash rt p = h.

(** A computation keeps the store well keyed. *)
Definition preserves {A : Type} (m : M A) : Prop :=
  forall env, keyed env -> keyed (after m env).

(** ** Instances for worked examples

    The results below hold for every [Runtime]; the examples run the
    routes on this one. *)

Definition lower_ascii (a : ascii) : ascii :=
  let n := nat_of_ascii a in
  if (65 <=? n)%nat && (n <=? 90)%nat then ascii_of_nat (n + 32) else a.

Fixpoint lower (s : string) : string :=
  match s with
  | EmptyString => EmptyString
  | String a s' => String (lower_ascii a) (lower s')
  end.

(** The [length] of the JavaScript string whose UTF-8 text is given: a
    byte that continues a sequence adds no code unit, the first byte of a
    sequence of four adds two (a surrogate pair), any other first byte
    adds one. *)
Definition code_units (a : ascii) : nat :=
  let n := nat_of_ascii a in
  if (n <? 128)%nat then 1
  else if (n <? 192)%nat then 0
  else if (n <? 240)%nat then 1
  else 2.

Fixpoint utf16_length (s : string) : nat :=
  match s with
  | EmptyString => 0
  | String a s' => code_units a + utf16_length s'
  end.

(** A stand-in for the digest in the examples. *)
Definition digest (s : string) : string := String.append "sha256:" s.

Definition isString (v : JsValue) : bool :=
  bool_decide (typeof v = "string").

Definition js : Runtime := mkRuntime lower utf16_length digest isString.

Definition empty_env : Env := mkEnv (mkStore ∅ ∅) (mkStore ∅ ∅).

Definition credentials (u p : string) : Body :=
  <["username" := JStr u]> (<["password" := JStr p]> ∅).

(** The store after [register("Alice", "secret1")]. *)
Definition env_alice : Env :=
  after (register js (credentials "Alice" "secret1")) empty_env.

(** ... and after Alice has created the note ["n1"]. *)
Definition env_n1 : Env :=
  after (post_notes js "n1" "2025-09-28T07:30:08.000Z" (credentials "ALICE" "secret1"))
        env_alice.

(** The store [env_n1] with the record of ["n1"] gone and the id still in
    Alice's list: what a deletion leaves when it stops between its two
    writes. *)
Definition env_dangling : Env := set_notes env_n1 (delete_ (notes env_n1) "n1").

(** ... and after Bob has registered too. *)
Definition env_bob : Env :=
  after (register js (credentials "bob" "hunter22")) env_n1.

(** ** The requests the module serves, and the writes they make *)

(** A request to one of the six routes [userRoutes] registers, with the id
    and the time the runtime generates while it is served. *)
Inductive Request : Type :=
| PostRegister (body : Body)
| PostLogin (body : Body)
| PostNotes (noteId now : string) (body : Body)
| PutNote (noteId now : string) (body : Body)
| DeleteNote (noteId : string) (body : Body)
| PutPassword (body : Body).

(** The handler [userRoutes] mounts for a request. *)
Definition handle (rt : Runtime) (req : Request) : M Response :=
  match req with
  | PostRegister body => register rt body
  | PostLogin body => login rt body
  | PostNotes noteId now body => post_notes rt noteId now body
  | PutNote noteId now body => put_note rt noteId now body
  | DeleteNote noteId body => delete_note rt noteId body
  | PutPassword body => put_password rt body
  end.

(** Requests served one after the other. *)
Definition serve (rt : Runtime) (reqs : list Request) (env : Env) : Env :=
  foldl (fun e req => after (handle rt req) e) env reqs.

(** The store after user [k], whose record is [rec], has created the note
    [noteId] at the time [now]. *)
Definition created (env : Env) (k noteId now : string) (rec : UserRecord.t) : Env :=
  mkEnv
    (mkStore (<[k := addNoteId_tr noteId rec]> (docs (users env))) (index (users env)))
    (mkStore
       (<[noteId := Note.mk noteId "İsimsiz Not" "Yeni notunuzu buraya yazın..." k now now]>
          (docs (notes env)))
       ({[noteId]} ∪ index (notes env))).

(** The store after the note [noteId] has been overwritten by [new]. *)
Definition updated (env : Env) (noteId : string) (new : Note.t) : Env :=
  set_notes env (mkStore (<[noteId := new]> (docs (notes env))) (index (notes env))).

(** The store after user [k], whose record is [rec], has deleted the note
    [noteId]. *)
Definition deleted (env : Env) (k noteId : string) (rec : UserRecord.t) : Env :=
  mkEnv
    (mkStore (<[k := removeNoteId_tr noteId rec]> (docs (users env))) (index (users env)))
    (delete_ (notes env) noteId).

(** The store after the digest of user [k], whose record is [rec], has
    been replaced by [h]. *)
Definition rehashed (env : Env) (k h : string) (rec : UserRecord.t) : Env :=
  set_users env
    (mkStore (<[k := updatePasswordHash_tr h rec]> (docs (users env))) (index (users env))).

(** A reply that is not a success: a refusal, or an exception. *)
Definition unsuccessful (res : Result Response) : Prop :=
  forall r, res = Ok r -> success r = false.

(** The users' lists and the notes agree: every id a user lists is the key
    of a note of that user, and every note is listed by its owner. *)
Definition linked (env : Env) : Prop :=
  (forall k s id, docs (users env) !! k = Some s -> id ∈ UserRecord.noteIds s ->
     exists n, docs (notes env) !! id = Some n /\ Note.userId n = k) /\
  (forall id n, docs (notes env) !! id = Some n ->
     exists s, docs (users env) !! Note.userId n = Some s /\ id ∈ UserRecord.noteIds s).

(** The body a request carries. *)
Definition request_body (req : Request) : Body :=
  match req with
  | PostRegister body | PostLogin body | PostNotes _ _ body
  | PutNote _ _ body | DeleteNote _ body | PutPassword body => body
  end.

(** A request that stores a note under [noteId] when it goes through: a
    creation for which [crypto.randomUUID()] gave that id. *)
Definition creates (noteId : string) (req : Request) : bool :=
  match req with
  | PostNotes id _ _ => bool_decide (id = noteId)
  | _ => false
  end.

(** A request to the password route. *)
Definition is_password_change (req : Request) : bool :=
  match req with
  | PutPassword _ => true
  | _ => false
  end.

(** ** The client's store ([pages/HomePage.tsx]) *)

(** [AppState] without its [actions]. *)
Module AppState.
Record t : Type := mk {
  isAuthenticated : bool;
  username : option string;
  password : option string;
  notes : list Note.t;
  activeNoteId : option string;
  isLoading : bool;
  isNotesLoading : bool;
  isSaving : bool
}.
End AppState.

(** [x || null] for [x : string | undefined]: the empty string is falsy. *)
Definition or_null (x : option string) : option string :=
  match x with
  | Some s => if bool_decide (s = "") then None else Some s
  | None => None
  end.

(** [Array.prototype.sort] with a comparator: the sort is stable, so for
    a comparator that orders the elements the result is the one below,
    where an element goes before the first one it does not sort after.
    For a comparator that is no ordering the language leaves the order to
    the implementation, and the list below is one of the orders it may
    give: a rearrangement of the elements in any case. *)
Fixpoint sort_insert {A : Type} (cmp : A -> A -> Z) (x : A) (l : list A) : list A :=
  match l with
  | [] => [x]
  | y :: l' => if (0 <? cmp x y)%Z then y :: sort_insert cmp x l' else x :: l
  end.

Definition Array_sort {A : Type} (cmp : A -> A -> Z) (l : list A) : list A :=
  foldr (sort_insert cmp) [] l.

Module Client.

(** The state [create<AppState>] starts from. *)
Definition initial : AppState.t :=
  AppState.mk false None None [] None false true false.

(** The comparator of [login]; [getTime s] is [new Date(s).getTime()],
    with [None] for the [NaN] of a text that is no date.  A difference
    with [NaN] is [NaN], which [sort] reads as [+0]. *)
Definition newest_first (getTime : string -> option Z) (a b : Note.t) : Z :=
  match getTime (Note.updatedAt b), getTime (Note.updatedAt a) with
  | Some tb, Some ta => (tb - ta)%Z
  | _, _ => 0%Z
  end.

Definition login (getTime : string -> option Z) (username password : string)
    (notes : list Note.t) (isMobile : bool) (st : AppState.t) : AppState.t :=
  let sortedNotes := Array_sort (newest_first getTime) notes in
  AppState.mk true (Some username) (Some password) sortedNotes
    (if isMobile then None else or_null (Note.id <$> head sortedNotes))
    false true (AppState.isSaving st).

Definition logout (st : AppState.t) : AppState.t :=
  AppState.mk false None None [] None
    (AppState.isLoading st) (AppState.isNotesLoading st) (AppState.isSaving st).

Definition setActiveNoteId (noteId : option string) (st : AppState.t) : AppState.t :=
  AppState.mk (AppState.isAuthenticated st) (AppState.username st) (AppState.password st)
    (AppState.notes st) noteId
    (AppState.isLoading st) (AppState.isNotesLoading st) (AppState.isSaving st).

Definition addNote (note : Note.t) (st : AppState.t) : AppState.t :=
  AppState.mk (AppState.isAuthenticated st) (AppState.username st) (AppState.password st)
    (note :: AppState.notes st) (Some (Note.id note))
    (AppState.isLoading st) (AppState.isNotesLoading st) (AppState.isSaving st).

(** [now] is the value of [new Date().toISOString()]. *)
Definition updateNote (now noteId title content : string) (st : AppState.t) : AppState.t :=
  match find (fun n => bool_decide (Note.id n = noteId)) (AppState.notes st) with
  | None => st
  | Some noteToUpdate =>
      let updatedNote :=
        Note.mk (Note.id noteToUpdate) title content (Note.userId noteToUpdate)
                (Note.createdAt noteToUpdate) now in
      let otherNotes := filter (fun n => Note.id n <> noteId) (AppState.notes st) in
      AppState.mk (AppState.isAuthenticated st) (AppState.username st)
        (AppState.password st) (updatedNote :: otherNotes) (AppState.activeNoteId st)
        (AppState.isLoading st) (AppState.isNotesLoading st) (AppState.isSaving st)
  end.

Definition deleteNote (noteId : string) (st : AppState.t) : AppState.t :=
  let remainingNotes := filter (fun n => Note.id n <> noteId) (AppState.notes st) in
  let newActiveId :=
    if bool_decide (AppState.activeNoteId st = Some noteId)
    then or_null (Note.id <$> head remainingNotes)
    else AppState.activeNoteId st in
  AppState.mk (AppState.isAuthenticated st) (AppState.username st) (AppState.password st)
    remainingNotes newActiveId
    (AppState.isLoading st) (AppState.isNotesLoading st) (AppState.isSaving st).

Definition setLoading (loading : bool) (st : AppState.t) : AppState.t :=
  AppState.mk (AppState.isAuthenticated st) (AppState.username st) (AppState.password st)
    (AppState.notes st) (AppState.activeNoteId st)
    loading (AppState.isNotesLoading st) (AppState.isSaving st).

Definition setSaving (saving : bool) (st : AppState.t) : AppState.t :=
  AppState.mk (AppState.isAuthenticated st) (AppState.username st) (AppState.password st)
    (AppState.notes st) (AppState.activeNoteId st)
    (AppState.isLoading st) (AppState.isNotesLoading st) saving.

Definition finishNotesLoading (st : AppState.t) : AppState.t :=
  AppState.mk (AppState.isAuthenticated st) (AppState.username st) (AppState.password st)
    (AppState.notes st) (AppState.activeNoteId st)
    (AppState.isLoading st) false (AppState.isSaving st).

Definition updatePassword (newPassword : string) (st : AppState.t) : AppState.t :=
  AppState.mk (AppState.isAuthenticated st) (AppState.username st) (Some newPassword)
    (AppState.notes st) (AppState.activeNoteId st)
    (AppState.isLoading st) (AppState.isNotesLoading st) (AppState.isSaving st).

(** The actions of the store. *)
Inductive Action : Type :=
| Login (username password : string) (notes : list Note.t) (isMobile : bool)
| Logout
| SetActiveNoteId (noteId : option string)
| AddNote (note : Note.t)
| UpdateNote (now noteId title content : string)
| DeleteNote (noteId : string)
| SetLoading (loading : bool)
| SetSaving (saving : bool)
| FinishNotesLoading
| UpdatePassword (newPassword : string).

Definition act (getTime : string -> option Z) (a : Action) (st : AppState.t) : AppState.t :=
  match a with
  | Login username password notes isMobile =>
      login getTime username password notes isMobile st
  | Logout => logout st
  | SetActiveNoteId noteId => setActiveNoteId noteId st
  | AddNote note => addNote note st
  | UpdateNote now noteId title content => updateNote now noteId title content st
  | DeleteNote noteId => deleteNote noteId st
  | SetLoading loading => setLoading loading st
  | SetSaving saving => setSaving saving st
  | FinishNotesLoading => finishNotesLoading st
  | UpdatePassword newPassword => updatePassword newPassword st
  end.

End Client.

(** The active id, when there is one, is the id of a note in the list:
    the editor then has a note to show. *)
Definition active_listed (st : AppState.t) : Prop :=
  forall id, AppState.activeNoteId st = Some id ->
    exists n, n ∈ AppState.notes st /\ Note.id n = id.

(** An action that cannot by itself make the active id dangle: every one
    but a selection of an id that is not in the list. *)
Definition selects_listed (a : Client.Action) (st : AppState.t) : Prop :=
  match a with
  | Client.SetActiveNoteId (Some id) => exists n, n ∈ AppState.notes st /\ Note.id n = id
  | _ => True
  end.

(** The [updatedAt] of a note is a date. *)
Definition dated (getTime : string -> option Z) (n : Note.t) : Prop :=
  is_Some (getTime (Note.updatedAt n)).

(** Newest first: both notes are dated, and [a] not before [b]. *)
Definition not_older (getTime : string -> option Z) (a b : Note.t) : Prop :=
  match getTime (Note.updatedAt a), getTime (Note.updatedAt b) with
  | Some ta, Some tb => (tb <= ta)%Z
  | _, _ => False
  end.

(** What [handlePasswordChange] of the password dialog does before it
    waits for the server: an error toast, nothing at all, or the request
    to [PUT /api/user/password] with the body it sends. *)
Inductive Submission : Type :=
| Toast (message : string)
| Nothing
| Send (body : Body).

(** The checks of [handlePasswordChange] and the body it sends,
    [{ username, password: currentPassword, newPassword }]; [username] and
    [currentPassword] are read from the store. *)
Definition handlePasswordChange (rt : Runtime) (newPassword confirmPassword : string)
    (st : AppState.t) : Submission :=
  if bool_decide (newPassword <> confirmPassword)
  then Toast "Şifreler eşleşmiyor."
  else if (String_length rt newPassword <? 6)%nat
  then Toast "Yeni şifre en az 6 karakter olmalıdır."
  else
    match or_null (AppState.username st), or_null (AppState.password st) with
    | Some username, Some currentPassword =>
        Send (<["username" := JStr username]>
                (<["password" := JStr currentPassword]>
                   (<["newPassword" := JStr newPassword]> ∅)))
    | _, _ => Nothing
    end.

(** Every user is stored under the lowercased form of its username, and
    the username passes the guard: what registration establishes. *)
Definition named (rt : Runtime) (env : Env) : Prop :=
  forall k s, docs (users env) !! k = Some s ->
    toLowerCase rt (UserRecord.username s) = k /\
    isStr rt (JStr (UserRecord.username s)) = true.

(** Fixtures of the examples for the requests and the client. *)
Definition history_n1 : list Request :=
  [PostRegister (credentials "Alice" "secret1");
   PostNotes "n1" "2025-09-28T07:30:08.000Z" (credentials "ALICE" "secret1")].

(** Requests served after Alice has deleted ["n1"]: a login, and a
    creation with another id. *)
Definition later_n1 : list Request :=
  [PostLogin (credentials "ALICE" "secret1");
   PostNotes "n2" "2025-09-28T07:40:00.000Z" (credentials "alice" "secret1")].

(** Three creations by Alice, under three casings of her name. *)
Definition three_creations : list (string * string * Body) :=
  [("n1", "2025-09-28T07:30:08.000Z", credentials "alice" "secret1");
   ("n2", "2025-09-28T07:31:08.000Z", credentials "ALICE" "secret1");
   ("n3", "2025-09-28T07:32:08.000Z", credentials "Alice" "secret1")].

Definition note_n1 : Note.t :=
  Note.mk "n1" "İsimsiz Not" "Yeni notunuzu buraya yazın..." "alice"
          "2025-09-28T07:30:08.000Z" "2025-09-28T07:30:08.000Z".

Definition note_n2 : Note.t :=
  Note.mk "n2" "Shopping" "milk" "alice"
          "2025-09-28T07:30:08.000Z" "2025-09-28T07:31:08.000Z".

(** A stand-in for [new Date(s).getTime()] in the examples: for a text of
    the 24 characters of [toISOString] the number its digits spell, which
    orders such timestamps as their instants are ordered, and no number
    for any other text. *)
Definition digit (a : ascii) : option Z :=
  let n := nat_of_ascii a in
  if (48 <=? n)%nat && (n <=? 57)%nat then Some (Z.of_nat (n - 48)) else None.

Fixpoint digits (acc : Z) (s : string) : Z :=
  match s with
  | EmptyString => acc
  | String a s' => digits (match digit a with Some d => 10 * acc + d | None => acc end)%Z s'
  end.

Definition clock (s : string) : option Z :=
  if (String.length s =? 24)%nat then Some (digits 0 s) else None.

Definition client_n1 : AppState.t :=
  Client.login clock "Alice" "secret1" [note_n1] false Client.initial.

(** * Properties *)

(** ** [new Set]: the ids of a user never repeat *)

Lemma set_add_NoDup (acc : list string) (x : string) :
  NoDup acc -> NoDup (set_add acc x).
Proof.
  intros Hacc. unfold set_add. case_bool_decide as Hx; [exact Hacc|].
  apply NoDup_app. split; [exact Hacc|]. split.
  - intros y Hy Hy'. apply list_elem_of_singleton in Hy'. subst y. exact (Hx Hy).
  - apply NoDup_singleton.
Qed.

Lemma set_add_elem (acc : list string) (x y : string) :
  y ∈ set_add acc x <-> y ∈ acc \/ y = x.
Proof.
  unfold set_add. case_bool_decide as Hx.
  - split; [auto|]. intros [Hy | ->]; assumption.
  - rewrite elem_of_app, list_elem_of_singleton. reflexivity.
Qed.

Lemma foldl_set_add_NoDup (xs acc : list string) :
  NoDup acc -> NoDup (foldl set_add acc xs).
Proof.
  revert acc. induction xs as [|x xs IH]; intros acc Hacc; simpl.
  - exact Hacc.
  - apply IH, set_add_NoDup, Hacc.
Qed.

Lemma foldl_set_add_elem (xs acc : list string) (y : string) :
  y ∈ foldl set_add acc xs <-> y ∈ acc \/ y ∈ xs.
Proof.
  revert acc. induction xs as [|x xs IH]; intros acc; simpl.
  - rewrite elem_of_nil. tauto.
  - rewrite IH, set_add_elem, elem_of_cons. tauto.
Qed.

Lemma foldl_set_add_fresh (xs acc : list string) :
  NoDup (acc ++ xs) -> foldl set_add acc xs = acc ++ xs.
Proof.
  revert acc. induction xs as [|x xs IH]; intros acc Hnd; simpl.
  - symmetry. apply app_nil_r.
  - assert (Hx : x ∉ acc).
    { apply NoDup_app in Hnd as (_ & Hdisj & _). intros Hin.
      apply (Hdisj x Hin). left. }
    unfold set_add at 2. rewrite bool_decide_eq_false_2 by exact Hx.
    rewrite IH; rewrite <- app_assoc; [reflexivity | exact Hnd].
Qed.

Lemma new_Set_NoDup (xs : list string) : NoDup (new_Set xs).
Proof. apply foldl_set_add_NoDup, NoDup_nil_2. Qed.

Lemma new_Set_elem (xs : list string) (y : string) : y ∈ new_Set xs <-> y ∈ xs.
Proof. unfold new_Set. rewrite foldl_set_add_elem, elem_of_nil. tauto. Qed.

Lemma new_Set_fresh (xs : list string) : NoDup xs -> new_Set xs = xs.
Proof. intros Hnd. apply (foldl_set_add_fresh xs []), Hnd. Qed.

Lemma new_Set_snoc (l : list string) (x : string) :
  new_Set (l ++ [x]) = set_add (new_Set l) x.
Proof. unfold new_Set. rewrite foldl_app. reflexivity. Qed.

Lemma new_Set_snoc_present (l : list string) (x : string) :
  NoDup l -> x ∈ l -> new_Set (l ++ [x]) = l.
Proof.
  intros Hnd Hx. rewrite new_Set_snoc, (new_Set_fresh l Hnd).
  unfold set_add. rewrite bool_decide_eq_true_2; [reflexivity | exact Hx].
Qed.

Lemma new_Set_snoc_absent (l : list string) (x : string) :
  NoDup l -> x ∉ l -> new_Set (l ++ [x]) = l ++ [x].
Proof.
  intros Hnd Hx. rewrite new_Set_snoc, (new_Set_fresh l Hnd).
  unfold set_add. rewrite bool_decide_eq_false_2; [reflexivity | exact Hx].
Qed.

Lemma filter_ne_NoDup (x : string) (l : list string) :
  NoDup l -> NoDup (filter (fun id => id <> x) l).
Proof. apply NoDup_filter. Qed.

Lemma filter_ne_elem (x y : string) (l : list string) :
  y ∈ filter (fun id => id <> x) l <-> y ∈ l /\ y <> x.
Proof. rewrite list_elem_of_filter. tauto. Qed.

Lemma user_mutate_found (env : Env) (k : string) (f : UserRecord.t -> UserRecord.t)
    (s : UserRecord.t) :
  docs (users env) !! k = Some s ->
  user_mutate k f env
  = (Ok tt, set_users env (mkStore (<[k := f s]> (docs (users env))) (index (users env)))).
Proof. intros Hs. unfold user_mutate, mutate, getState. rewrite Hs. reflexivity. Qed.

(** ** The middleware *)

Section RouteFacts.

Variable rt : Runtime.

Lemma exists_true {S : Type} (st : Store S) (k : string) (v : S) :
  docs st !! k = Some v -> exists_ st k = true.
Proof. intros H. unfold exists_. apply bool_decide_eq_true_2. rewrite H. eauto. Qed.

Lemma exists_false {S : Type} (st : Store S) (k : string) :
  docs st !! k = None -> exists_ st k = false.
Proof.
  intros H. unfold exists_. apply bool_decide_eq_false_2. rewrite H.
  intros [v Hv]. discriminate.
Qed.

Lemma exists_spec {S : Type} (st : Store S) (k : string) :
  exists_ st k = true <-> is_Some (docs st !! k).
Proof. unfold exists_. apply bool_decide_eq_true. Qed.

(** Correct credentials let the request through to the handler, with the
    lowercased username as the identity. *)
Lemma authenticateUser_authentic env body u p rec (next : Ctx -> M Response) :
  authentic rt env body u p rec ->
  authenticateUser rt body next env
  = next (mkCtx (toLowerCase rt u) (toLowerCase rt u) body) env.
Proof.
  intros ((Hu & Hp & Hiu & Hip) & Hrec & Hhash).
  unfold authenticateUser. rewrite Hu, Hp, Hiu, Hip. simpl.
  unfold bind, ret, user_exists, getPasswordHash, bind, user_getState, getState, settled.
  simpl. rewrite (exists_true _ _ _ Hrec). simpl. rewrite Hrec. simpl.
  rewrite bool_decide_eq_false_2; [reflexivity|]. intros Hne. exact (Hne Hhash).
Qed.

Lemma authenticateUser_no_user env body u p (next : Ctx -> M Response) :
  credentials_of rt body u p ->
  docs (users env) !! toLowerCase rt u = None ->
  authenticateUser rt body next env
  = (Ok (notFound "Kullanıcı bulunamadı veya şifre yanlış."), env).
Proof.
  intros (Hu & Hp & Hiu & Hip) Hnone.
  unfold authenticateUser. rewrite Hu, Hp, Hiu, Hip. simpl.
  unfold bind, ret, user_exists. simpl. rewrite (exists_false _ _ Hnone). reflexivity.
Qed.

Lemma authenticateUser_wrong_password env body u p rec (next : Ctx -> M Response) :
  credentials_of rt body u p ->
  docs (users env) !! toLowerCase rt u = Some rec ->
  UserRecord.passwordHash rec <> createHash rt p ->
  authenticateUser rt body next env
  = (Ok (bad "Kullanıcı bulunamadı veya şifre yanlış."), env).
Proof.
  intros (Hu & Hp & Hiu & Hip) Hrec Hhash.
  unfold authenticateUser. rewrite Hu, Hp, Hiu, Hip. simpl.
  unfold bind, ret, user_exists, getPasswordHash, bind, user_getState, getState, settled.
  simpl. rewrite (exists_true _ _ _ Hrec). simpl. rewrite Hrec. simpl.
  rewrite bool_decide_eq_true_2; [reflexivity | exact Hhash].
Qed.

(** A reply that reports success can only come from the handler, and the
    credentials were correct. *)
Lemma authenticateUser_success env env' body r (next : Ctx -> M Response) :
  authenticateUser rt body next env = (Ok r, env') ->
  success r = true ->
  exists u p rec,
    authentic rt env body u p rec /\
    next (mkCtx (toLowerCase rt u) (toLowerCase rt u) body) env = (Ok r, env').
Proof.
  unfold authenticateUser. intros Hrun Hok.
  destruct (isStr rt (prop body "username")) eqn:Hiu; simpl in Hrun;
    [| inversion Hrun; subst; discriminate].
  destruct (isStr rt (prop body "password")) eqn:Hip; simpl in Hrun;
    [| inversion Hrun; subst; discriminate].
  unfold bind in Hrun.
  destruct (prop body "username") as [| | | | u | |] eqn:Hu; simpl in Hrun; try discriminate.
  destruct (prop body "password") as [| | | | p | |] eqn:Hp; simpl in Hrun; try discriminate.
  unfold user_exists, getPasswordHash, bind, user_getState, getState, settled in Hrun.
  simpl in Hrun.
  destruct (exists_ (users env) (toLowerCase rt u)) eqn:Hex; simpl in Hrun;
    [| inversion Hrun; subst; discriminate].
  destruct (docs (users env) !! toLowerCase rt u) as [rec|] eqn:Hrec; simpl in Hrun;
    [| discriminate].
  case_bool_decide as Hhash; [inversion Hrun; subst; discriminate|].
  exists u, p, rec. split; [|exact Hrun].
  repeat split; try assumption.
  all: destruct (decide (UserRecord.passwordHash rec = createHash rt p)) as [He|Hne];
    [exact He | contradiction].
Qed.

(** ** Login *)

Lemma filter_Boolean_all (l : list Note.t) : filter_Boolean l = l.
Proof.
  unfold filter_Boolean. induction l as [|n l IH]; [reflexivity|].
  cbn. f_equal. exact IH.
Qed.

(** The promises of [login] settle with the notes of the ids, all of them
    or none: one id without a record rejects the whole. *)
Lemma Promise_all_getState env (ids : list string) :
  Promise_all (map note_getState ids) env
  = (match mapM (getState (notes env)) ids with
     | Some ns => Ok ns
     | None => Err NotFound
     end, env).
Proof.
  induction ids as [|id ids IH]; [reflexivity|].
  cbn. unfold bind at 1. unfold note_getState at 1, settled.
  destruct (getState (notes env) id) as [n|]; cbn; [|reflexivity].
  unfold bind. rewrite IH.
  destruct (mapM (getState (notes env)) ids); reflexivity.
Qed.

Lemma mapM_all_resolve {A B : Type} (f : A -> option B) (l : list A) :
  (forall a, a ∈ l -> is_Some (f a)) -> mapM f l = Some (omap f l).
Proof.
  induction l as [|a l IH]; intros Hall; [reflexivity|].
  destruct (Hall a) as [b Hb]; [left|].
  cbn. rewrite Hb. cbn. rewrite IH; [reflexivity|].
  intros a' Ha'. apply Hall. right. exact Ha'.
Qed.

Lemma mapM_dangling {A B : Type} (f : A -> option B) (l : list A) (a : A) :
  a ∈ l -> f a = None -> mapM f l = None.
Proof.
  intros Ha Hnone. apply mapM_None, Exists_exists. exists a. auto.
Qed.

Lemma login_authentic env body u p rec :
  authentic rt env body u p rec ->
  login rt body env
  = (match mapM (getState (notes env)) (UserRecord.noteIds rec) with
     | Some ns => Ok (ok (DLogin (UserRecord.username rec) ns))
     | None => Err NotFound
     end, env).
Proof.
  intros ((Hu & Hp & Hiu & Hip) & Hrec & Hhash).
  unfold login. rewrite Hu, Hp, Hiu, Hip. simpl.
  unfold bind, ret, user_exists, getPasswordHash, bind, user_getState, getState, settled.
  simpl. rewrite (exists_true _ _ _ Hrec). simpl. rewrite Hrec. simpl.
  rewrite bool_decide_eq_false_2 by (intros Hne; exact (Hne Hhash)).
  simpl. rewrite Hrec. simpl.
  rewrite Promise_all_getState. unfold getState.
  destruct (mapM _ (UserRecord.noteIds rec)) as [ns|];
    [rewrite filter_Boolean_all|]; reflexivity.
Qed.

(** With every id of the user resolving to a record, login answers with
    those records in the order of the ids. *)
Lemma login_resolved env body u p rec :
  authentic rt env body u p rec ->
  (forall id, id ∈ UserRecord.noteIds rec -> is_Some (docs (notes env) !! id)) ->
  login rt body env
  = (Ok (ok (DLogin (UserRecord.username rec)
                    (omap (getState (notes env)) (UserRecord.noteIds rec)))), env).
Proof.
  intros Hauth Hall. rewrite (login_authentic _ _ _ _ _ Hauth).
  rewrite (mapM_all_resolve (getState (notes env))); [reflexivity | exact Hall].
Qed.

Lemma login_no_user env body u p :
  credentials_of rt body u p ->
  docs (users env) !! toLowerCase rt u = None ->
  login rt body env = (Ok (notFound "Kullanıcı bulunamadı veya şifre yanlış."), env).
Proof.
  intros (Hu & Hp & Hiu & Hip) Hnone.
  unfold login. rewrite Hu, Hp, Hiu, Hip. simpl.
  unfold bind, ret, user_exists. simpl. rewrite (exists_false _ _ Hnone). reflexivity.
Qed.

Lemma login_wrong_password env body u p rec :
  credentials_of rt body u p ->
  docs (users env) !! toLowerCase rt u = Some rec ->
  UserRecord.passwordHash rec <> createHash rt p ->
  login rt body env = (Ok (bad "Kullanıcı bulunamadı veya şifre yanlış."), env).
Proof.
  intros (Hu & Hp & Hiu & Hip) Hrec Hhash.
  unfold login. rewrite Hu, Hp, Hiu, Hip. simpl.
  unfold bind, ret, user_exists, getPasswordHash, bind, user_getState, getState, settled.
  simpl. rewrite (exists_true _ _ _ Hrec). simpl. rewrite Hrec. simpl.
  rewrite bool_decide_eq_true_2; [reflexivity | exact Hhash].
Qed.

(** C1: with correct credentials and every id of [noteIds] resolving to a
    note record, login answers with the display name and exactly those
    records, in the order of the ids, and leaves the store as it was.  An
    id with no record is not dropped: [getState] fails on it,
    [Promise.all] rejects and the handler ends in [NotFound] with no
    reply, [filter(Boolean)] never seeing an entry to remove. *)
Theorem C1_login_resolves_or_fails env body u p rec :
  authentic rt env body u p rec ->
  ((forall id, id ∈ UserRecord.noteIds rec -> is_Some (docs (notes env) !! id)) ->
   exists ns,
     login rt body env = (Ok (ok (DLogin (UserRecord.username rec) ns)), env) /\
     Forall2 (fun id n => docs (notes env) !! id = Some n) (UserRecord.noteIds rec) ns /\
     (forall n, n ∈ ns <->
        exists k, k ∈ UserRecord.noteIds rec /\ docs (notes env) !! k = Some n)) /\
  (forall id, id ∈ UserRecord.noteIds rec -> docs (notes env) !! id = None ->
     login rt body env = (Err NotFound, env)).
Proof.
  intros Hauth. split.
  - intros Hall. eexists. split; [apply (login_resolved _ _ _ _ _ Hauth Hall)|].
    split; [|intros n; apply list_elem_of_omap].
    apply mapM_Some_1, mapM_all_resolve. exact Hall.
  - intros id Hid Hnone. rewrite (login_authentic _ _ _ _ _ Hauth).
    rewrite (mapM_dangling (getState (notes env)) _ id Hid Hnone). reflexivity.
Qed.

(** The two refusals carry one message but not one status: 404 for an
    unknown user, 400 for a wrong password. *)
Lemma refusal_statuses :
  status (notFound "Kullanıcı bulunamadı veya şifre yanlış.") = 404 /\
  status (bad "Kullanıcı bulunamadı veya şifre yanlış.") = 400.
Proof. split; reflexivity. Qed.

(** C2: the message for a username that resolves to no user is the same
    as the one for a user whose stored digest differs from the digest of
    the password given, in the login route and in the middleware of the
    authenticated routes alike; neither reply carries data, and the store
    is left as it was. *)
Theorem C2_unknown_user_and_wrong_password_same_message
    env1 env2 body1 body2 u1 p1 u2 p2 rec (next : Ctx -> M Response) :
  credentials_of rt body1 u1 p1 ->
  docs (users env1) !! toLowerCase rt u1 = None ->
  credentials_of rt body2 u2 p2 ->
  docs (users env2) !! toLowerCase rt u2 = Some rec ->
  UserRecord.passwordHash rec <> createHash rt p2 ->
  exists l1 l2 a1 a2,
    login rt body1 env1 = (Ok l1, env1) /\
    login rt body2 env2 = (Ok l2, env2) /\
    authenticateUser rt body1 next env1 = (Ok a1, env1) /\
    authenticateUser rt body2 next env2 = (Ok a2, env2) /\
    error l1 = error l2 /\ error a1 = error a2 /\ error l1 = error a1 /\
    error l1 = Some "Kullanıcı bulunamadı veya şifre yanlış." /\
    success l1 = false /\ success l2 = false /\
    success a1 = false /\ success a2 = false /\
    data l1 = None /\ data l2 = None /\ data a1 = None /\ data a2 = None.
Proof.
  intros Hc1 Hnone Hc2 Hrec Hhash.
  exists (notFound "Kullanıcı bulunamadı veya şifre yanlış."),
         (bad "Kullanıcı bulunamadı veya şifre yanlış."),
         (notFound "Kullanıcı bulunamadı veya şifre yanlış."),
         (bad "Kullanıcı bulunamadı veya şifre yanlış.").
  split; [exact (login_no_user _ _ _ _ Hc1 Hnone)|].
  split; [exact (login_wrong_password _ _ _ _ _ Hc2 Hrec Hhash)|].
  split; [exact (authenticateUser_no_user _ _ _ _ _ Hc1 Hnone)|].
  split; [exact (authenticateUser_wrong_password _ _ _ _ _ _ Hc2 Hrec Hhash)|].
  repeat split; reflexivity.
Qed.

(** ** Registration *)

Lemma register_short_username env body u p :
  credentials_of rt body u p ->
  (String_length rt u < 3)%nat ->
  register rt body env = (Ok (bad "Kullanıcı adı en az 3 karakter olmalıdır."), env).
Proof.
  intros (Hu & Hp & Hiu & Hip) Hlen.
  unfold register. rewrite Hu, Hp, Hiu, Hip. simpl. unfold bind. simpl.
  apply Nat.ltb_lt in Hlen. rewrite Hlen. reflexivity.
Qed.

Lemma register_short_password env body u p :
  credentials_of rt body u p ->
  (3 <= String_length rt u)%nat ->
  (String_length rt p < 6)%nat ->
  register rt body env = (Ok (bad "Şifre en az 6 karakter olmalıdır."), env).
Proof.
  intros (Hu & Hp & Hiu & Hip) Hlen Hlen'.
  unfold register. rewrite Hu, Hp, Hiu, Hip. simpl. unfold bind. simpl.
  apply Nat.ltb_ge in Hlen. apply Nat.ltb_lt in Hlen'. rewrite Hlen, Hlen'. reflexivity.
Qed.

Lemma register_taken env body u p :
  credentials_of rt body u p ->
  (3 <= String_length rt u)%nat ->
  (6 <= String_length rt p)%nat ->
  is_Some (docs (users env) !! toLowerCase rt u) ->
  register rt body env = (Ok (bad "Bu kullanıcı adı zaten alınmış."), env).
Proof.
  intros (Hu & Hp & Hiu & Hip) Hlen Hlen' [rec Hrec].
  unfold register. rewrite Hu, Hp, Hiu, Hip. simpl. unfold bind. simpl.
  apply Nat.ltb_ge in Hlen, Hlen'. rewrite Hlen, Hlen'.
  unfold user_exists. rewrite (exists_true _ _ _ Hrec). reflexivity.
Qed.

Lemma register_fresh env body u p :
  credentials_of rt body u p ->
  (3 <= String_length rt u)%nat ->
  (6 <= String_length rt p)%nat ->
  docs (users env) !! toLowerCase rt u = None ->
  register rt body env = (Ok (ok DSuccess), registered rt env u p).
Proof.
  intros (Hu & Hp & Hiu & Hip) Hlen Hlen' Hnone.
  unfold register. rewrite Hu, Hp, Hiu, Hip. simpl. unfold bind. simpl.
  apply Nat.ltb_ge in Hlen, Hlen'. rewrite Hlen, Hlen'.
  unfold user_exists, user_create, create. simpl.
  rewrite (exists_false _ _ Hnone). simpl. rewrite (exists_false _ _ Hnone). reflexivity.
Qed.



(** ** Creating a note *)

Lemma createNote_fresh env c noteId now rec :
  docs (users env) !! userEntity c = Some rec ->
  docs (notes env) !! noteId = None ->
  createNote noteId now c env
  = (Ok (ok (DNote (Note.mk noteId "İsimsiz Not" "Yeni notunuzu buraya yazın..."
                            (userId c) now now))),
     mkEnv
       (mkStore (<[userEntity c := addNoteId_tr noteId rec]> (docs (users env)))
                (index (users env)))
       (mkStore (<[noteId := Note.mk noteId "İsimsiz Not" "Yeni notunuzu buraya yazın..."
                                     (userId c) now now]> (docs (notes env)))
                ({[noteId]} ∪ index (notes env)))).
Proof.
  intros Hrec Hfresh.
  unfold createNote, bind, note_create, create, addNoteId, user_mutate, mutate, getState.
  cbn [Note.id]. rewrite (exists_false _ _ Hfresh). cbn. rewrite Hrec. reflexivity.
Qed.

(** Were [crypto.randomUUID()] to return the id of a stored note, [create]
    would fail and nothing would be written. *)
Lemma createNote_collision env c noteId now n :
  docs (notes env) !! noteId = Some n ->
  createNote noteId now c env = (Err AlreadyExists, env).
Proof.
  intros Hn.
  unfold createNote, bind, note_create, create.
  cbn [Note.id]. rewrite (exists_true _ _ _ Hn). reflexivity.
Qed.

(** C5: an authenticated note creation with a fresh id answers with the
    new note: that id, the title "İsimsiz Not", the placeholder content,
    the lowercased username as owner and the current time as both
    [createdAt] and [updatedAt].  The note is stored under its id, the id
    is in the owner's [noteIds] (appended at the end of a list without
    repeats that lacked it), and no other note or user changes. *)
Theorem C5_create_note env body u p rec noteId now :
  authentic rt env body u p rec ->
  docs (notes env) !! noteId = None ->
  exists n env',
    post_notes rt noteId now body env = (Ok (ok (DNote n)), env') /\
    n = Note.mk noteId "İsimsiz Not" "Yeni notunuzu buraya yazın..."
                (toLowerCase rt u) now now /\
    Note.createdAt n = Note.updatedAt n /\
    docs (notes env') !! noteId = Some n /\
    (forall k, k <> noteId -> docs (notes env') !! k = docs (notes env) !! k) /\
    docs (users env') !! toLowerCase rt u = Some (addNoteId_tr noteId rec) /\
    (forall k, k <> toLowerCase rt u -> docs (users env') !! k = docs (users env) !! k) /\
    noteId ∈ UserRecord.noteIds (addNoteId_tr noteId rec) /\
    (NoDup (UserRecord.noteIds rec) -> noteId ∉ UserRecord.noteIds rec ->
     UserRecord.noteIds (addNoteId_tr noteId rec) = UserRecord.noteIds rec ++ [noteId]).
Proof.
  intros Hauth Hfresh.
  pose proof Hauth as (_ & Hrec & _).
  eexists. eexists. split.
  { unfold post_notes. rewrite (authenticateUser_authentic _ _ _ _ _ _ Hauth).
    apply (createNote_fresh _ _ _ _ rec); [exact Hrec | exact Hfresh]. }
  cbn [userId userEntity notes users docs].
  split; [reflexivity|]. split; [reflexivity|].
  split; [apply lookup_insert_eq|].
  split; [intros k Hk; apply lookup_insert_ne; congruence|].
  split; [apply lookup_insert_eq|].
  split; [intros k Hk; apply lookup_insert_ne; congruence|].
  split.
  - cbn. apply new_Set_elem, elem_of_app. right. apply list_elem_of_singleton. reflexivity.
  - intros Hnd Hnotin. cbn. apply new_Set_snoc_absent; assumption.
Qed.

(** ** Updating and deleting a note *)

Lemma updateNote_missing env c noteId now :
  docs (notes env) !! noteId = None ->
  updateNote noteId now c env = (Ok (notFound "Not bulunamadı."), env).
Proof.
  intros Hnone. unfold updateNote, bind, note_exists.
  rewrite (exists_false _ _ Hnone). reflexivity.
Qed.

Lemma updateNote_foreign env c noteId now n :
  docs (notes env) !! noteId = Some n ->
  Note.userId n <> userId c ->
  updateNote noteId now c env = (Ok forbidden, env).
Proof.
  intros Hn Hne. unfold updateNote, bind, note_exists, note_getState, getState, settled.
  rewrite (exists_true _ _ _ Hn). cbn. rewrite Hn. cbn.
  rewrite bool_decide_eq_true_2; [reflexivity | exact Hne].
Qed.

Lemma updateNote_owner env c noteId now n :
  docs (notes env) !! noteId = Some n ->
  Note.userId n = userId c ->
  updateNote noteId now c env
  = (Ok (ok (DNote (touched n (body c) now))),
     set_notes env (mkStore (<[noteId := touched n (body c) now]> (docs (notes env)))
                            (index (notes env)))).
Proof.
  intros Hn Hown.
  unfold updateNote, bind, note_exists, note_getState, note_patch, mutate, getState, settled.
  rewrite (exists_true _ _ _ Hn). cbn. rewrite Hn. cbn.
  rewrite bool_decide_eq_false_2 by (intros Hne; exact (Hne Hown)).
  rewrite Hn. cbn. rewrite lookup_insert_eq. reflexivity.
Qed.

Lemma deleteNote_missing env c noteId :
  docs (notes env) !! noteId = None ->
  deleteNote noteId c env = (Ok (notFound "Not bulunamadı."), env).
Proof.
  intros Hnone. unfold deleteNote, bind, note_exists.
  rewrite (exists_false _ _ Hnone). reflexivity.
Qed.

Lemma deleteNote_foreign env c noteId n :
  docs (notes env) !! noteId = Some n ->
  Note.userId n <> userId c ->
  deleteNote noteId c env = (Ok forbidden, env).
Proof.
  intros Hn Hne. unfold deleteNote, bind, note_exists, note_getState, getState, settled.
  rewrite (exists_true _ _ _ Hn). cbn. rewrite Hn. cbn.
  rewrite bool_decide_eq_true_2; [reflexivity | exact Hne].
Qed.

Lemma deleteNote_owner env c noteId n rec :
  docs (notes env) !! noteId = Some n ->
  Note.userId n = userId c ->
  docs (users env) !! userEntity c = Some rec ->
  deleteNote noteId c env
  = (Ok (ok DSuccess),
     mkEnv
       (mkStore (<[userEntity c := removeNoteId_tr noteId rec]> (docs (users env)))
                (index (users env)))
       (delete_ (notes env) noteId)).
Proof.
  intros Hn Hown Hrec.
  unfold deleteNote, bind, note_exists, note_getState, note_delete, removeNoteId,
    user_mutate, mutate, getState, settled.
  rewrite (exists_true _ _ _ Hn). cbn. rewrite Hn. cbn.
  rewrite bool_decide_eq_false_2 by (intros Hne; exact (Hne Hown)).
  cbn. rewrite Hrec. reflexivity.
Qed.

(** A successful reply of [updateNote] comes from the owner's branch. *)
Lemma updateNote_success env env' c noteId now r :
  updateNote noteId now c env = (Ok r, env') ->
  success r = true ->
  exists n, docs (notes env) !! noteId = Some n /\ Note.userId n = userId c.
Proof.
  intros Hrun Hok.
  destruct (docs (notes env) !! noteId) as [n|] eqn:Hn.
  - exists n. split; [reflexivity|].
    destruct (decide (Note.userId n = userId c)) as [He | Hne]; [exact He|].
    rewrite (updateNote_foreign _ _ _ _ _ Hn Hne) in Hrun.
    inversion Hrun; subst. discriminate.
  - rewrite (updateNote_missing _ _ _ _ Hn) in Hrun. inversion Hrun; subst. discriminate.
Qed.

Lemma deleteNote_success env env' c noteId r :
  deleteNote noteId c env = (Ok r, env') ->
  success r = true ->
  exists n, docs (notes env) !! noteId = Some n /\ Note.userId n = userId c.
Proof.
  intros Hrun Hok.
  destruct (docs (notes env) !! noteId) as [n|] eqn:Hn.
  - exists n. split; [reflexivity|].
    destruct (decide (Note.userId n = userId c)) as [He | Hne]; [exact He|].
    rewrite (deleteNote_foreign _ _ _ _ Hn Hne) in Hrun.
    inversion Hrun; subst. discriminate.
  - rewrite (deleteNote_missing _ _ _ Hn) in Hrun. inversion Hrun; subst. discriminate.
Qed.

(** With correct credentials the owner's update goes through. *)
Lemma put_note_owner env body u p rec noteId now n :
  authentic rt env body u p rec ->
  docs (notes env) !! noteId = Some n ->
  Note.userId n = toLowerCase rt u ->
  put_note rt noteId now body env
  = (Ok (ok (DNote (touched n body now))),
     set_notes env (mkStore (<[noteId := touched n body now]> (docs (notes env)))
                            (index (notes env)))).
Proof.
  intros Hauth Hn Hown. unfold put_note.
  rewrite (authenticateUser_authentic _ _ _ _ _ _ Hauth).
  exact (updateNote_owner env (mkCtx (toLowerCase rt u) (toLowerCase rt u) body)
           noteId now n Hn Hown).
Qed.

(** ... and so does the owner's deletion. *)
Lemma delete_note_owner env body u p rec noteId n :
  authentic rt env body u p rec ->
  docs (notes env) !! noteId = Some n ->
  Note.userId n = toLowerCase rt u ->
  delete_note rt noteId body env
  = (Ok (ok DSuccess),
     mkEnv
       (mkStore (<[toLowerCase rt u := removeNoteId_tr noteId rec]> (docs (users env)))
                (index (users env)))
       (delete_ (notes env) noteId)).
Proof.
  intros Hauth Hn Hown. unfold delete_note.
  rewrite (authenticateUser_authentic _ _ _ _ _ _ Hauth).
  pose proof Hauth as (_ & Hrec & _).
  exact (deleteNote_owner env (mkCtx (toLowerCase rt u) (toLowerCase rt u) body)
           noteId n rec Hn Hown Hrec).
Qed.

Lemma provided_not_string (v : JsValue) : typeof v <> "string" -> provided v = None.
Proof. destruct v; intros H; try reflexivity. exfalso. apply H. reflexivity. Qed.

Lemma touched_fields (old : Note.t) (body : Body) (now : string) :
  Note.id (touched old body now) = Note.id old /\
  Note.userId (touched old body now) = Note.userId old /\
  Note.createdAt (touched old body now) = Note.createdAt old /\
  Note.title (touched old body now)
    = default (Note.title old) (provided (prop body "title")) /\
  Note.content (touched old body now)
    = default (Note.content old) (provided (prop body "content")) /\
  Note.updatedAt (touched old body now) = now.
Proof. repeat split; reflexivity. Qed.

(** C6, as amended: a note update that answers success returns and
    stores the note with its [id], [userId] and [createdAt] as they were;
    the title is the one given when the body has a string [title] and the
    previous one when it has none, and likewise the content; [updatedAt]
    is the clock reading of the request, whatever the body holds and
    whatever the stored value was, the handler comparing the two nowhere.
    No other note and no user changes. *)
Theorem C6_update_frame env env' body noteId now r :
  put_note rt noteId now body env = (Ok r, env') ->
  success r = true ->
  exists old new,
    docs (notes env) !! noteId = Some old /\
    r = ok (DNote new) /\
    docs (notes env') !! noteId = Some new /\
    Note.createdAt new = Note.createdAt old /\
    Note.id new = Note.id old /\
    Note.userId new = Note.userId old /\
    (prop body "title" = JUndefined -> Note.title new = Note.title old) /\
    (forall t, prop body "title" = JStr t -> Note.title new = t) /\
    (Note.title new <> Note.title old -> prop body "title" = JStr (Note.title new)) /\
    (prop body "content" = JUndefined -> Note.content new = Note.content old) /\
    (forall t, prop body "content" = JStr t -> Note.content new = t) /\
    (Note.content new <> Note.content old ->
       prop body "content" = JStr (Note.content new)) /\
    Note.updatedAt new = now /\
    (forall k, k <> noteId -> docs (notes env') !! k = docs (notes env) !! k) /\
    users env' = users env.
Proof.
  intros Hrun Hok. unfold put_note in Hrun.
  destruct (authenticateUser_success _ _ _ _ _ Hrun Hok) as (u & p & rec & Hauth & Hnext).
  destruct (updateNote_success _ _ _ _ _ _ Hnext Hok) as (old & Hold & Hown).
  rewrite (updateNote_owner _ _ _ _ _ Hold Hown) in Hnext.
  inversion Hnext; subst r env'; clear Hnext.
  exists old, (touched old body now).
  split; [exact Hold|]. split; [reflexivity|].
  split; [apply lookup_insert_eq|].
  split; [reflexivity|]. split; [reflexivity|]. split; [reflexivity|].
  split; [intros Ht; cbn; rewrite Ht; reflexivity|].
  split; [intros t Ht; cbn; rewrite Ht; reflexivity|].
  split.
  { cbn. destruct (prop body "title"); cbn; intros Hne; try contradiction. reflexivity. }
  split; [intros Ht; cbn; rewrite Ht; reflexivity|].
  split; [intros t Ht; cbn; rewrite Ht; reflexivity|].
  split.
  { cbn. destruct (prop body "content"); cbn; intros Hne; try contradiction. reflexivity. }
  split; [reflexivity|].
  split; [intros k Hk; apply lookup_insert_ne; congruence | reflexivity].
Qed.

(** C7: for a request with correct credentials, updating or deleting a
    note id with no record answers 404 "Not bulunamadı.", and updating or
    deleting a note whose [userId] is not the lowercased username answers
    403, whatever the [noteIds] of the user hold; in both cases the store,
    and so the note, is left as it was. *)
Theorem C7_missing_or_foreign_note env body u p rec noteId now :
  authentic rt env body u p rec ->
  (docs (notes env) !! noteId = None ->
     put_note rt noteId now body env = (Ok (notFound "Not bulunamadı."), env) /\
     delete_note rt noteId body env = (Ok (notFound "Not bulunamadı."), env) /\
     status (notFound "Not bulunamadı.") = 404) /\
  (forall n, docs (notes env) !! noteId = Some n ->
     Note.userId n <> toLowerCase rt u ->
     put_note rt noteId now body env = (Ok forbidden, env) /\
     delete_note rt noteId body env = (Ok forbidden, env) /\
     status forbidden = 403 /\
     docs (notes (after (put_note rt noteId now body) env)) !! noteId = Some n /\
     docs (notes (after (delete_note rt noteId body) env)) !! noteId = Some n).
Proof.
  intros Hauth. unfold put_note, delete_note, after.
  rewrite !(authenticateUser_authentic _ _ _ _ _ _ Hauth). split.
  - intros Hnone. rewrite (updateNote_missing _ _ _ _ Hnone), (deleteNote_missing _ _ _ Hnone).
    repeat split; reflexivity.
  - intros n Hn Hne.
    rewrite (updateNote_foreign _ _ _ _ n Hn) by exact Hne.
    rewrite (deleteNote_foreign _ _ _ n Hn) by exact Hne.
    repeat split; try reflexivity; exact Hn.
Qed.

(** C10: in an authenticated update of one's own note, a [title] or
    [content] of the body that is not a string (a number, [null], an
    object, ...) is passed over: the reply is a success, the field keeps
    its previous value, a field given as a string is taken, [updatedAt]
    becomes the current time and nothing else of the note changes. *)
Theorem C10_non_string_fields_ignored env body u p rec noteId now old :
  authentic rt env body u p rec ->
  docs (notes env) !! noteId = Some old ->
  Note.userId old = toLowerCase rt u ->
  exists new env',
    put_note rt noteId now body env = (Ok (ok (DNote new)), env') /\
    status (ok (DNote new)) = 200 /\
    docs (notes env') !! noteId = Some new /\
    (typeof (prop body "title") <> "string" -> Note.title new = Note.title old) /\
    (typeof (prop body "content") <> "string" -> Note.content new = Note.content old) /\
    (forall t, prop body "title" = JStr t -> Note.title new = t) /\
    (forall t, prop body "content" = JStr t -> Note.content new = t) /\
    Note.updatedAt new = now /\
    Note.id new = Note.id old /\
    Note.userId new = Note.userId old /\
    Note.createdAt new = Note.createdAt old /\
    (forall k, k <> noteId -> docs (notes env') !! k = docs (notes env) !! k) /\
    users env' = users env.
Proof.
  intros Hauth Hold Hown. eexists. eexists.
  split; [apply (put_note_owner _ _ _ _ _ _ _ _ Hauth Hold Hown)|].
  split; [reflexivity|].
  split; [apply lookup_insert_eq|].
  split; [intros Ht; cbn; rewrite (provided_not_string _ Ht); reflexivity|].
  split; [intros Ht; cbn; rewrite (provided_not_string _ Ht); reflexivity|].
  split; [intros t Ht; cbn; rewrite Ht; reflexivity|].
  split; [intros t Ht; cbn; rewrite Ht; reflexivity|].
  split; [reflexivity|]. split; [reflexivity|]. split; [reflexivity|].
  split; [reflexivity|].
  split; [intros k Hk; apply lookup_insert_ne; congruence | reflexivity].
Qed.

(** C8: a note deletion that answers success was asked by the owner of a
    stored note; it answers [{ success: true }], leaves no record under
    the note id, and leaves the owner with the [noteIds] of before less
    every occurrence of that id.  The owner's credentials are still
    correct afterwards.  Whenever a later login of the owner answers with
    notes, they are the records of the remaining ids, in order; where
    every note is stored under its own id, none of them has the deleted
    id and the deleted note is not among them.  And where the users' lists
    and the notes agreed before the deletion, that login does answer. *)
Theorem C8_delete_note env env' body noteId r :
  delete_note rt noteId body env = (Ok r, env') ->
  success r = true ->
  r = ok DSuccess /\
  docs (notes env') !! noteId = None /\
  (forall k, k <> noteId -> docs (notes env') !! k = docs (notes env) !! k) /\
  exists old u p rec,
    docs (notes env) !! noteId = Some old /\
    authentic rt env body u p rec /\
    Note.userId old = toLowerCase rt u /\
    docs (users env') !! toLowerCase rt u = Some (removeNoteId_tr noteId rec) /\
    (noteId ∉ UserRecord.noteIds (removeNoteId_tr noteId rec)) /\
    (forall k, k ∈ UserRecord.noteIds (removeNoteId_tr noteId rec) <->
               k ∈ UserRecord.noteIds rec /\ k <> noteId) /\
    authentic rt env' body u p (removeNoteId_tr noteId rec) /\
    (forall body2 u2 p2 rec2,
       authentic rt env' body2 u2 p2 rec2 ->
       toLowerCase rt u2 = toLowerCase rt u ->
       (forall name ns,
          reply (login rt body2) env' = Ok (ok (DLogin name ns)) ->
          name = UserRecord.username rec /\
          Forall2 (fun k n => docs (notes env) !! k = Some n)
                  (UserRecord.noteIds (removeNoteId_tr noteId rec)) ns /\
          (keyed env -> (old ∉ ns) /\ forall n, n ∈ ns -> Note.id n <> noteId)) /\
       (linked env ->
        exists ns,
          login rt body2 env' = (Ok (ok (DLogin (UserRecord.username rec) ns)), env'))).
Proof.
  intros Hrun Hok. unfold delete_note in Hrun.
  destruct (authenticateUser_success _ _ _ _ _ Hrun Hok) as (u & p & rec & Hauth & Hnext).
  destruct (deleteNote_success _ _ _ _ _ Hnext Hok) as (old & Hold & Hown).
  pose proof Hauth as (Hcred & Hrec & Hhash).
  rewrite (deleteNote_owner _ _ _ _ rec Hold Hown Hrec) in Hnext.
  inversion Hnext; subst r env'; clear Hnext. cbn in Hown.
  split; [reflexivity|].
  split; [apply lookup_delete_eq|].
  split; [intros k Hk; apply lookup_delete_ne; congruence|].
  exists old, u, p, rec.
  split; [exact Hold|]. split; [exact Hauth|]. split; [exact Hown|].
  split; [apply lookup_insert_eq|].
  split; [cbn; rewrite filter_ne_elem; intros [_ Hne]; apply Hne; reflexivity|].
  split; [intros k; cbn; apply filter_ne_elem|].
  split.
  { split; [exact Hcred|]. split; [apply lookup_insert_eq | exact Hhash]. }
  intros body2 u2 p2 rec2 Hauth2 Hsame.
  assert (Hrec2 : rec2 = removeNoteId_tr noteId rec).
  { destruct Hauth2 as (_ & Hl & _). rewrite Hsame in Hl. cbn in Hl.
    rewrite lookup_insert_eq in Hl. congruence. }
  subst rec2. split.
  - intros name ns Hlogin. unfold reply in Hlogin.
    rewrite (login_authentic _ _ _ _ _ Hauth2) in Hlogin. cbn [fst notes] in Hlogin.
    destruct (mapM _ _) as [ns'|] eqn:Hall; [|discriminate].
    injection Hlogin as Hname Hns. subst ns'.
    apply mapM_Some_1 in Hall.
    assert (Hrecords : Forall2 (fun k n => docs (notes env) !! k = Some n)
                         (UserRecord.noteIds (removeNoteId_tr noteId rec)) ns).
    { eapply Forall2_impl; [exact Hall|]. intros k n Hk. unfold getState in Hk. cbn in Hk.
      apply lookup_delete_Some in Hk as [_ Hk]. exact Hk. }
    split; [symmetry; exact Hname|]. split; [exact Hrecords|].
    intros [Hkeyed _].
    assert (Hids : forall n, n ∈ ns -> Note.id n <> noteId).
    { intros n Hn. apply list_elem_of_lookup in Hn as [i Hi].
      destruct (Forall2_lookup_r _ _ _ _ _ Hrecords Hi) as (k & Hk & Hlook).
      rewrite (Hkeyed _ _ Hlook).
      apply list_elem_of_lookup_2 in Hk. cbn in Hk. apply filter_ne_elem in Hk as [_ Hne].
      exact Hne. }
    split; [|exact Hids].
    intros Hold_in. apply (Hids _ Hold_in). apply (Hkeyed _ _ Hold).
  - intros [Hlist _]. eexists. apply (login_resolved _ _ _ _ _ Hauth2).
    intros id Hid. cbn in Hid. apply filter_ne_elem in Hid as [Hid Hne].
    destruct (Hlist _ _ _ Hrec Hid) as (n & Hn & _).
    exists n. cbn. rewrite lookup_delete_ne by congruence. exact Hn.
Qed.

(** ** Changing the password *)

Lemma changePassword_refused_type env c :
  isStr rt (prop (body c) "newPassword") = false ->
  changePassword rt c env = (Ok (bad "Yeni şifre en az 6 karakter olmalıdır."), env).
Proof. intros H. unfold changePassword. rewrite H. reflexivity. Qed.

Lemma changePassword_refused_short env c np :
  prop (body c) "newPassword" = JStr np ->
  (String_length rt np < 6)%nat ->
  changePassword rt c env = (Ok (bad "Yeni şifre en az 6 karakter olmalıdır."), env).
Proof.
  intros Hnp Hlen. unfold changePassword. rewrite Hnp.
  destruct (isStr rt (JStr np)); [|reflexivity].
  unfold negb, bind, narrowed, ret.
  apply Nat.ltb_lt in Hlen. rewrite Hlen. reflexivity.
Qed.

Lemma changePassword_done env c np rec :
  prop (body c) "newPassword" = JStr np ->
  isStr rt (JStr np) = true ->
  (6 <= String_length rt np)%nat ->
  docs (users env) !! userEntity c = Some rec ->
  changePassword rt c env
  = (Ok (ok DSuccess),
     set_users env
       (mkStore (<[userEntity c := updatePasswordHash_tr (createHash rt np) rec]>
                   (docs (users env)))
                (index (users env)))).
Proof.
  intros Hnp Hinp Hlen Hrec. unfold changePassword. rewrite Hnp, Hinp.
  unfold negb, bind, narrowed, ret. apply Nat.ltb_ge in Hlen. rewrite Hlen.
  unfold updatePasswordHash. rewrite (user_mutate_found _ _ _ _ Hrec). reflexivity.
Qed.



End RouteFacts.

(** * The store stays well keyed

    Every route keeps each record under its own id and the [noteIds] of
    each user free of repeats; the empty store is so to begin with. *)

Section Keyed.

Variable rt : Runtime.

Lemma preserves_ret {A : Type} (a : A) : preserves (ret a).
Proof. intros env Henv. exact Henv. Qed.

Lemma preserves_throw {A : Type} (e : Exn) : preserves (@throw A e).
Proof. intros env Henv. exact Henv. Qed.

Lemma preserves_bind {A B : Type} (m : M A) (k : A -> M B) :
  preserves m -> (forall a, preserves (k a)) -> preserves (bind m k).
Proof.
  intros Hm Hk env Henv. specialize (Hm env Henv).
  unfold after, bind in *. destruct (m env) as [[a | e] env1]; cbn in *.
  - apply (Hk a env1 Hm).
  - exact Hm.
Qed.

Lemma preserves_read {A : Type} (f : Env -> Result A) :
  preserves (fun env => (f env, env)).
Proof. intros env Henv. exact Henv. Qed.

Lemma preserves_settled {A : Type} (f : Env -> option A) :
  preserves (fun env => settled (f env) env).
Proof. intros env Henv. unfold after. destruct (f env); exact Henv. Qed.

Lemma preserves_narrowed (v : JsValue) : preserves (narrowed v).
Proof. destruct v; first [apply preserves_ret | apply preserves_throw]. Qed.

Lemma preserves_user_create (v : UserRecord.t) :
  NoDup (UserRecord.noteIds v) -> preserves (user_create v).
Proof.
  intros Hv env [Hnotes Husers]. unfold after, user_create, create.
  destruct (exists_ (users env) (UserRecord.id v)); cbn; [split; assumption|].
  split; [exact Hnotes|]. intros k s Hks.
  unfold set_users in Hks. cbn [users docs] in Hks.
  apply lookup_insert_Some in Hks as [[<- <-] | [_ Hks]]; [auto | eauto].
Qed.

Lemma preserves_note_create (v : Note.t) : preserves (note_create v).
Proof.
  intros env [Hnotes Husers]. unfold after, note_create, create.
  destruct (exists_ (notes env) (Note.id v)); cbn; [split; assumption|].
  split; [|exact Husers]. intros k n Hkn.
  unfold set_notes in Hkn. cbn [notes docs] in Hkn.
  apply lookup_insert_Some in Hkn as [[<- <-] | [_ Hkn]]; [reflexivity | eauto].
Qed.

Lemma preserves_user_mutate (k : string) (f : UserRecord.t -> UserRecord.t) :
  (forall s, UserRecord.id (f s) = UserRecord.id s) ->
  (forall s, NoDup (UserRecord.noteIds s) -> NoDup (UserRecord.noteIds (f s))) ->
  preserves (user_mutate k f).
Proof.
  intros Hid Hnd env [Hnotes Husers]. unfold after, user_mutate, mutate, getState.
  destruct (docs (users env) !! k) as [s0|] eqn:Hk; cbn; [|split; assumption].
  split; [exact Hnotes|]. intros k' s Hks.
  unfold set_users in Hks. cbn [users docs] in Hks.
  apply lookup_insert_Some in Hks as [[<- <-] | [_ Hks]]; [|eauto].
  destruct (Husers _ _ Hk) as [Hid0 Hnd0]. split; [rewrite Hid; exact Hid0 | auto].
Qed.

Lemma preserves_note_patch (k : string) (p : PartialNote.t) :
  PartialNote.id p = None -> preserves (note_patch k p).
Proof.
  intros Hp env [Hnotes Husers]. unfold after, note_patch, mutate, getState.
  destruct (docs (notes env) !! k) as [n0|] eqn:Hk; cbn; [|split; assumption].
  split; [|exact Husers]. intros k' n Hkn.
  unfold set_notes, delete_ in Hkn. cbn [notes docs] in Hkn.
  apply lookup_insert_Some in Hkn as [[<- <-] | [_ Hkn]]; [|eauto].
  cbn. rewrite Hp. cbn. eauto.
Qed.

Lemma preserves_note_delete (k : string) : preserves (note_delete k).
Proof.
  intros env [Hnotes Husers]. unfold after, note_delete. cbn.
  split; [|exact Husers]. intros k' n Hkn.
  unfold set_notes, delete_ in Hkn. cbn [notes docs] in Hkn.
  apply lookup_delete_Some in Hkn as [_ Hkn]. eauto.
Qed.

Lemma preserves_user_exists (k : string) : preserves (user_exists k).
Proof. intros env Henv. exact Henv. Qed.

Lemma preserves_note_exists (k : string) : preserves (note_exists k).
Proof. intros env Henv. exact Henv. Qed.

Lemma preserves_user_getState (k : string) : preserves (user_getState k).
Proof. apply (preserves_settled (fun env => getState (users env) k)). Qed.

Lemma preserves_note_getState (k : string) : preserves (note_getState k).
Proof. apply (preserves_settled (fun env => getState (notes env) k)). Qed.

Lemma preserves_getPasswordHash (k : string) : preserves (getPasswordHash k).
Proof.
  unfold getPasswordHash. apply preserves_bind; [|intros s; apply preserves_ret].
  apply preserves_user_getState.
Qed.

Lemma preserves_addNoteId (k noteId : string) : preserves (addNoteId k noteId).
Proof.
  apply preserves_user_mutate; [reflexivity|]. intros s _. apply new_Set_NoDup.
Qed.

Lemma preserves_removeNoteId (k noteId : string) : preserves (removeNoteId k noteId).
Proof.
  apply preserves_user_mutate; [reflexivity|]. intros s Hs. apply filter_ne_NoDup, Hs.
Qed.

Lemma preserves_updatePasswordHash (k newHash : string) :
  preserves (updatePasswordHash k newHash).
Proof. apply preserves_user_mutate; [reflexivity|]. intros s Hs. exact Hs. Qed.

Ltac preserve :=
  repeat match goal with
  | |- preserves (ret _) => apply preserves_ret
  | |- preserves (throw _) => apply preserves_throw
  | |- preserves (narrowed _) => apply preserves_narrowed
  | |- preserves (user_exists _) => apply preserves_user_exists
  | |- preserves (note_exists _) => apply preserves_note_exists
  | |- preserves (user_getState _) => apply preserves_user_getState
  | |- preserves (note_getState _) => apply preserves_note_getState
  | |- preserves (getPasswordHash _) => apply preserves_getPasswordHash
  | |- preserves (note_create _) => apply preserves_note_create
  | |- preserves (note_delete _) => apply preserves_note_delete
  | |- preserves (addNoteId _ _) => apply preserves_addNoteId
  | |- preserves (removeNoteId _ _) => apply preserves_removeNoteId
  | |- preserves (updatePasswordHash _ _) => apply preserves_updatePasswordHash
  | |- preserves (bind _ _) => apply preserves_bind; [|intros ?]
  | |- preserves (if ?b then _ else _) => destruct b
  end.

Lemma preserves_authenticateUser (body : Body) (next : Ctx -> M Response) :
  (forall c, preserves (next c)) -> preserves (authenticateUser rt body next).
Proof. intros Hnext. unfold authenticateUser. cbv zeta. preserve. apply Hnext. Qed.

Lemma preserves_register (body : Body) : preserves (register rt body).
Proof.
  unfold register. cbv zeta. preserve.
  apply preserves_user_create. apply NoDup_nil_2.
Qed.

Lemma preserves_Promise_all {A : Type} (promises : list (M A)) :
  Forall preserves promises -> preserves (Promise_all promises).
Proof.
  induction 1 as [|promise rest Hpromise _ IH]; cbn; [apply preserves_ret|].
  apply preserves_bind; [exact Hpromise|]. intros value.
  apply preserves_bind; [exact IH|]. intros values. apply preserves_ret.
Qed.

Lemma preserves_login (body : Body) : preserves (login rt body).
Proof.
  unfold login. cbv zeta. preserve.
  apply preserves_Promise_all, Forall_fmap, Forall_true.
  intros id. apply preserves_note_getState.
Qed.

Lemma preserves_createNote (noteId now : string) (c : Ctx) :
  preserves (createNote noteId now c).
Proof. unfold createNote. cbv zeta. preserve. Qed.

Lemma preserves_updateNote (noteId now : string) (c : Ctx) :
  preserves (updateNote noteId now c).
Proof.
  unfold updateNote. cbv zeta. preserve.
  apply preserves_note_patch. reflexivity.
Qed.

Lemma preserves_deleteNote (noteId : string) (c : Ctx) :
  preserves (deleteNote noteId c).
Proof. unfold deleteNote. cbv zeta. preserve. Qed.

Lemma preserves_changePassword (c : Ctx) : preserves (changePassword rt c).
Proof. unfold changePassword. cbv zeta. preserve. Qed.

Lemma keyed_empty : keyed empty_env.
Proof. split; intros k x Hk; cbn in Hk; rewrite lookup_empty in Hk; discriminate. Qed.

(** Whatever the requests, the store stays well keyed. *)
Theorem routes_keep_keyed (body : Body) (noteId now : string) :
  preserves (register rt body) /\
  preserves (login rt body) /\
  preserves (post_notes rt noteId now body) /\
  preserves (put_note rt noteId now body) /\
  preserves (delete_note rt noteId body) /\
  preserves (put_password rt body).
Proof.
  split; [apply preserves_register|].
  split; [apply preserves_login|].
  split; [apply preserves_authenticateUser; intros c; apply preserves_createNote|].
  split; [apply preserves_authenticateUser; intros c; apply preserves_updateNote|].
  split; [apply preserves_authenticateUser; intros c; apply preserves_deleteNote|].
  apply preserves_authenticateUser; intros c; apply preserves_changePassword.
Qed.

End Keyed.

Lemma create_notes_keyed (rt : Runtime) (reqs : list (string * string * Body)) (env : Env) :
  keyed env -> keyed (create_notes rt reqs env).
Proof.
  revert env. induction reqs as [|req reqs IH]; intros env Henv; [exact Henv|].
  cbn. apply IH.
  destruct (routes_keep_keyed rt req.2 req.1.1 req.1.2) as (_ & _ & Hpost & _).
  apply Hpost, Henv.
Qed.

(** Creations by one user with fresh, pairwise distinct ids all go
    through, and append the ids to the user's list in the order of the
    requests. *)
Lemma create_notes_distinct (rt : Runtime) (reqs : list (string * string * Body)) :
  forall env k rec,
    docs (users env) !! k = Some rec ->
    NoDup (UserRecord.noteIds rec ++ generated_ids reqs) ->
    (forall req, req ∈ reqs ->
       docs (notes env) !! req.1.1 = None /\ sent_by rt k (UserRecord.passwordHash rec) req) ->
    exists rec',
      docs (users (create_notes rt reqs env)) !! k = Some rec' /\
      UserRecord.noteIds rec' = UserRecord.noteIds rec ++ generated_ids reqs.
Proof.
  induction reqs as [|req reqs IH]; intros env k rec Hrec Hnd Hreqs.
  - exists rec. split; [exact Hrec|]. cbn. symmetry. apply app_nil_r.
  - destruct (Hreqs req) as (Hfresh & u & p & Hc & Hk & Hh); [left|].
    assert (Hauth : authentic rt env req.2 u p rec).
    { split; [exact Hc|]. split; [rewrite Hk; exact Hrec | symmetry; exact Hh]. }
    assert (Hnd0 : NoDup (UserRecord.noteIds rec) /\ req.1.1 ∉ UserRecord.noteIds rec).
    { apply NoDup_app in Hnd as (Hnd0 & Hdisj & _). split; [exact Hnd0|].
      intros Hin. apply (Hdisj _ Hin). left. }
    destruct Hnd0 as [Hnd0 Hnew].
    assert (Hstep : after (post_notes rt req.1.1 req.1.2 req.2) env
                    = created env k req.1.1 req.1.2 rec).
    { unfold after, post_notes.
      rewrite (authenticateUser_authentic rt _ _ _ _ _ _ Hauth).
      rewrite (createNote_fresh env (mkCtx (toLowerCase rt u) (toLowerCase rt u) req.2)
                 req.1.1 req.1.2 rec); [|rewrite Hk; exact Hrec | exact Hfresh].
      cbn [snd userEntity userId]. rewrite Hk. reflexivity. }
    change (create_notes rt (req :: reqs) env)
      with (create_notes rt reqs (after (post_notes rt req.1.1 req.1.2 req.2) env)).
    rewrite Hstep.
    destruct (IH (created env k req.1.1 req.1.2 rec) k (addNoteId_tr req.1.1 rec))
      as (rec' & Hrec' & Hids).
    + cbn. apply lookup_insert_eq.
    + cbn. rewrite (new_Set_snoc_absent _ _ Hnd0 Hnew), <- app_assoc. exact Hnd.
    + intros req' Hreq'. destruct (Hreqs req') as [Hfresh' Hsent]; [right; exact Hreq'|].
      split; [|exact Hsent].
      cbn. rewrite lookup_insert_ne; [exact Hfresh'|].
      intros He. apply NoDup_app in Hnd as (_ & _ & Hnd).
      cbn in Hnd. apply NoDup_cons in Hnd as [Hnotin _]. apply Hnotin.
      rewrite He. apply list_elem_of_fmap. exists req'. auto.
    + exists rec'. split; [exact Hrec'|]. rewrite Hids. cbn.
      rewrite (new_Set_snoc_absent _ _ Hnd0 Hnew), <- app_assoc. reflexivity.
Qed.

(** C4: the [noteIds] of a user never hold a duplicate.  [addNoteId]
    leaves a duplicate-free list whatever it started from
    ([removeNoteId] keeps it so as well); adding an id that is already
    there changes neither the set of the elements nor, on a
    duplicate-free list, the list itself (so not its size).  On the store, [addNoteId] applies that
    transform to the record of the user.  For the route: after any
    sequence of note-creation requests on a well-keyed store no user has a
    repeated id; N creations by a user, with N distinct ids that are new
    to the store and to the user's list, all go through and leave the
    list as it was followed by the N ids, so N entries longer (N entries
    for a user who had none); and a creation whose id already has a note
    is refused with nothing written, so a repeated id adds no entry. *)
Theorem C4_noteIds_never_duplicate :
  (forall x s, NoDup (UserRecord.noteIds (addNoteId_tr x s))) /\
  (forall x s, NoDup (UserRecord.noteIds s) ->
     NoDup (UserRecord.noteIds (removeNoteId_tr x s))) /\
  (forall x s, x ∈ UserRecord.noteIds s ->
     forall y, y ∈ UserRecord.noteIds (addNoteId_tr x s) <-> y ∈ UserRecord.noteIds s) /\
  (forall x s, x ∈ UserRecord.noteIds s ->
     (list_to_set (UserRecord.noteIds (addNoteId_tr x s)) : gset string)
     = list_to_set (UserRecord.noteIds s)) /\
  (forall x s, NoDup (UserRecord.noteIds s) -> x ∈ UserRecord.noteIds s ->
     UserRecord.noteIds (addNoteId_tr x s) = UserRecord.noteIds s /\
     length (UserRecord.noteIds (addNoteId_tr x s)) = length (UserRecord.noteIds s)) /\
  (forall env k x s, docs (users env) !! k = Some s ->
     reply (addNoteId k x) env = Ok tt /\
     docs (users (after (addNoteId k x) env)) !! k = Some (addNoteId_tr x s)) /\
  (forall rt reqs env k s, keyed env ->
     docs (users (create_notes rt reqs env)) !! k = Some s ->
     NoDup (UserRecord.noteIds s)) /\
  (forall rt reqs env k rec,
     docs (users env) !! k = Some rec ->
     NoDup (UserRecord.noteIds rec ++ generated_ids reqs) ->
     (forall req, req ∈ reqs ->
        docs (notes env) !! req.1.1 = None /\
        sent_by rt k (UserRecord.passwordHash rec) req) ->
     exists rec',
       docs (users (create_notes rt reqs env)) !! k = Some rec' /\
       UserRecord.noteIds rec' = UserRecord.noteIds rec ++ generated_ids reqs /\
       length (UserRecord.noteIds rec') = length (UserRecord.noteIds rec) + length reqs /\
       (UserRecord.noteIds rec = [] -> length (UserRecord.noteIds rec') = length reqs) /\
       NoDup (UserRecord.noteIds rec')) /\
  (forall rt env body u p rec noteId now n,
     authentic rt env body u p rec ->
     docs (notes env) !! noteId = Some n ->
     post_notes rt noteId now body env = (Err AlreadyExists, env)).
Proof.
  repeat apply conj.
  - intros x s. simpl. apply new_Set_NoDup.
  - intros x s Hs. simpl. apply filter_ne_NoDup, Hs.
  - intros x s Hx y. simpl.
    rewrite new_Set_elem, elem_of_app, list_elem_of_singleton.
    split; [intros [Hy | ->]; assumption | auto].
  - intros x s Hx. apply set_eq. intros y. rewrite !elem_of_list_to_set. simpl.
    rewrite new_Set_elem, elem_of_app, list_elem_of_singleton.
    split; [intros [Hy | ->]; assumption | auto].
  - intros x s Hs Hx. simpl. rewrite (new_Set_snoc_present _ _ Hs Hx). split; reflexivity.
  - intros env k x s Hk. unfold reply, after, addNoteId.
    rewrite (user_mutate_found _ _ _ _ Hk). simpl. split; [reflexivity|].
    apply lookup_insert_eq.
  - intros rt reqs env k s Henv Hk.
    destruct (create_notes_keyed rt reqs env Henv) as [_ Husers].
    apply (Husers k s Hk).
  - intros rt reqs env k rec Hrec Hnd Hreqs.
    destruct (create_notes_distinct rt reqs env k rec Hrec Hnd Hreqs) as (rec' & Hrec' & Hids).
    exists rec'. split; [exact Hrec'|]. split; [exact Hids|].
    rewrite Hids, length_app. unfold generated_ids. rewrite length_map.
    split; [reflexivity|]. split; [intros ->; reflexivity | exact Hnd].
  - intros rt env body u p rec noteId now n Hauth Hn. unfold post_notes.
    rewrite (authenticateUser_authentic rt _ _ _ _ _ _ Hauth).
    apply (createNote_collision _ _ _ _ n Hn).
Qed.

(** * The routes at work

    The scenario of the design document, run on the runtime [js]: Alice
    registers, logs in under another casing, creates a note, renames it,
    deletes it. *)

Example scenario_register :
  reply (register js (credentials "Alice" "secret1")) empty_env = Ok (ok DSuccess).
Proof. vm_compute. reflexivity. Qed.

Example scenario_login :
  reply (login js (credentials "ALICE" "secret1")) env_alice = Ok (ok (DLogin "Alice" [])).
Proof. vm_compute. reflexivity. Qed.

Example scenario_create :
  reply (post_notes js "n1" "2025-09-28T07:30:08.000Z" (credentials "ALICE" "secret1"))
        env_alice
  = Ok (ok (DNote (Note.mk "n1" "İsimsiz Not" "Yeni notunuzu buraya yazın..." "alice"
                           "2025-09-28T07:30:08.000Z" "2025-09-28T07:30:08.000Z"))).
Proof. vm_compute. reflexivity. Qed.

Example scenario_update :
  reply (put_note js "n1" "2025-09-28T07:31:08.000Z"
           (<["title" := JStr "Shopping"]> (credentials "ALICE" "secret1"))) env_n1
  = Ok (ok (DNote (Note.mk "n1" "Shopping" "Yeni notunuzu buraya yazın..." "alice"
                           "2025-09-28T07:30:08.000Z" "2025-09-28T07:31:08.000Z"))).
Proof. vm_compute. reflexivity. Qed.

Example scenario_delete_then_login :
  reply (delete_note js "n1" (credentials "ALICE" "secret1")) env_n1 = Ok (ok DSuccess) /\
  reply (login js (credentials "ALICE" "secret1"))
        (after (delete_note js "n1" (credentials "ALICE" "secret1")) env_n1)
  = Ok (ok (DLogin "Alice" [])).
Proof. split; vm_compute; reflexivity. Qed.

(** An id of [noteIds] with no note record behind it fails the login. *)
Example login_with_dangling_id :
  reply (login js (credentials "alice" "secret1")) env_dangling = Err NotFound.
Proof. vm_compute. reflexivity. Qed.

(** Lengths are counted in code units: the default title has 11 of them
    in 12 bytes, and a username of two letters is too short whatever its
    bytes. *)
Example length_of_default_title :
  String_length js "İsimsiz Not" = 11 /\ String.length "İsimsiz Not" = 12.
Proof. split; vm_compute; reflexivity. Qed.

Example register_two_letters :
  register js (credentials "şö" "secret1") empty_env
  = (Ok (bad "Kullanıcı adı en az 3 karakter olmalıdır."), empty_env).
Proof. vm_compute. reflexivity. Qed.

Example change_to_five_letters :
  put_password js (<["newPassword" := JStr "şifre"]> (credentials "alice" "secret1")) env_alice
  = (Ok (bad "Yeni şifre en az 6 karakter olmalıdır."), env_alice).
Proof. vm_compute. reflexivity. Qed.

(** [new Set] keeps the first occurrence of each element. *)
Example new_Set_order : new_Set ["b"; "a"; "b"; "c"; "a"] = ["b"; "a"; "c"].
Proof. reflexivity. Qed.

(** ** Instances of the theorems *)

Lemma alice_authentic :
  authentic js env_n1 (credentials "ALICE" "secret1") "ALICE" "secret1"
    (UserRecord.mk "alice" "Alice" (digest "secret1") ["n1"]).
Proof. repeat split; vm_compute; reflexivity. Defined.

Lemma alice_dangling :
  authentic js env_dangling (credentials "ALICE" "secret1") "ALICE" "secret1"
    (UserRecord.mk "alice" "Alice" (digest "secret1") ["n1"]).
Proof. repeat split; vm_compute; reflexivity. Defined.

Lemma C1_witness :
  authentic js env_dangling (credentials "ALICE" "secret1") "ALICE" "secret1"
    (UserRecord.mk "alice" "Alice" (digest "secret1") ["n1"]) /\
  docs (notes env_dangling) !! "n1" = None /\
  login js (credentials "ALICE" "secret1") env_dangling = (Err NotFound, env_dangling) /\
  exists ns,
    login js (credentials "ALICE" "secret1") env_n1 = (Ok (ok (DLogin "Alice" ns)), env_n1) /\
    length ns = 1.
Proof.
  split; [exact alice_dangling|].
  assert (Hgone : docs (notes env_dangling) !! "n1" = None) by (vm_compute; reflexivity).
  split; [exact Hgone|]. split.
  - destruct (C1_login_resolves_or_fails js _ _ _ _ _ alice_dangling) as [_ Hfails].
    apply (Hfails "n1"); [left | exact Hgone].
  - destruct (C1_login_resolves_or_fails js _ _ _ _ _ alice_authentic) as [Hresolves _].
    destruct Hresolves as (ns & Hlogin & Hall & _).
    + intros id Hid. apply list_elem_of_singleton in Hid. subst id.
      vm_compute. eauto.
    + exists ns. split; [exact Hlogin|]. symmetry. apply (Forall2_length _ _ _ Hall).
Defined.

Lemma C2_witness :
  credentials_of js (credentials "carol" "secret1") "carol" "secret1" /\
  docs (users empty_env) !! toLowerCase js "carol" = None /\
  docs (users env_alice) !! toLowerCase js "Alice"
    = Some (UserRecord.mk "alice" "Alice" (digest "secret1") []) /\
  digest "secret1" <> createHash js "wrong-password" /\
  exists l1 l2,
    login js (credentials "carol" "secret1") empty_env = (Ok l1, empty_env) /\
    login js (credentials "Alice" "wrong-password") env_alice = (Ok l2, env_alice) /\
    error l1 = error l2.
Proof.
  assert (Hc1 : credentials_of js (credentials "carol" "secret1") "carol" "secret1")
    by (repeat split; vm_compute; reflexivity).
  assert (Hc2 : credentials_of js (credentials "Alice" "wrong-password")
                  "Alice" "wrong-password")
    by (repeat split; vm_compute; reflexivity).
  assert (Hnone : docs (users empty_env) !! toLowerCase js "carol" = None)
    by (vm_compute; reflexivity).
  assert (Hrec : docs (users env_alice) !! toLowerCase js "Alice"
                 = Some (UserRecord.mk "alice" "Alice" (digest "secret1") []))
    by (vm_compute; reflexivity).
  assert (Hne : digest "secret1" <> createHash js "wrong-password")
    by (intros H; vm_compute in H; discriminate H).
  split; [exact Hc1|]. split; [exact Hnone|]. split; [exact Hrec|]. split; [exact Hne|].
  destruct (C2_unknown_user_and_wrong_password_same_message js
              empty_env env_alice _ _ _ _ _ _ _ (fun _ => ret (ok DSuccess))
              Hc1 Hnone Hc2 Hrec Hne)
    as (l1 & l2 & a1 & a2 & H1 & H2 & _ & _ & He & _).
  exists l1, l2. auto.
Defined.


Lemma C4_witness :
  docs (users env_alice) !! "alice"
    = Some (UserRecord.mk "alice" "Alice" (digest "secret1") []) /\
  exists rec',
    docs (users (create_notes js three_creations env_alice)) !! "alice" = Some rec' /\
    UserRecord.noteIds rec' = ["n1"; "n2"; "n3"] /\
    length (UserRecord.noteIds rec') = 3.
Proof.
  assert (Hrec : docs (users env_alice) !! "alice"
                 = Some (UserRecord.mk "alice" "Alice" (digest "secret1") []))
    by (vm_compute; reflexivity).
  split; [exact Hrec|].
  destruct C4_noteIds_never_duplicate as (_ & _ & _ & _ & _ & _ & _ & Hroute & _).
  destruct (Hroute js three_creations env_alice "alice" _ Hrec)
    as (rec' & Hrec' & Hids & Hlen & _).
  - apply (bool_decide_unpack _). vm_compute. exact I.
  - intros req Hreq. unfold three_creations in Hreq. rewrite !elem_of_cons in Hreq.
    destruct Hreq as [-> | [-> | [-> | Hnil]]]; [| | | apply elem_of_nil in Hnil; contradiction].
    + split; [vm_compute; reflexivity|].
      exists "alice", "secret1". repeat split; vm_compute; reflexivity.
    + split; [vm_compute; reflexivity|].
      exists "ALICE", "secret1". repeat split; vm_compute; reflexivity.
    + split; [vm_compute; reflexivity|].
      exists "Alice", "secret1". repeat split; vm_compute; reflexivity.
  - exists rec'. split; [exact Hrec'|]. split; [exact Hids | exact Hlen].
Defined.

Lemma C5_witness :
  authentic js env_alice (credentials "ALICE" "secret1") "ALICE" "secret1"
    (UserRecord.mk "alice" "Alice" (digest "secret1") []) /\
  docs (notes env_alice) !! "n1" = None /\
  exists n env',
    post_notes js "n1" "2025-09-28T07:30:08.000Z" (credentials "ALICE" "secret1") env_alice
      = (Ok (ok (DNote n)), env') /\
    Note.title n = "İsimsiz Not" /\ Note.userId n = "alice" /\
    docs (notes env') !! "n1" = Some n /\
    UserRecord.noteIds <$> docs (users env') !! "alice" = Some ["n1"].
Proof.
  assert (Hauth : authentic js env_alice (credentials "ALICE" "secret1") "ALICE" "secret1"
                    (UserRecord.mk "alice" "Alice" (digest "secret1") []))
    by (repeat split; vm_compute; reflexivity).
  assert (Hfresh : docs (notes env_alice) !! "n1" = None) by (vm_compute; reflexivity).
  split; [exact Hauth|]. split; [exact Hfresh|].
  destruct (C5_create_note js _ _ _ _ _ "n1" "2025-09-28T07:30:08.000Z" Hauth Hfresh)
    as (n & env' & Hrun & Hn & _ & Hstored & _ & Huser & _).
  exists n, env'. split; [exact Hrun|].
  split; [rewrite Hn; reflexivity|]. split; [rewrite Hn; reflexivity|].
  split; [exact Hstored|].
  change (toLowerCase js "ALICE") with "alice" in Huser. rewrite Huser. reflexivity.
Defined.

Lemma C6_witness :
  put_note js "n1" "2025-09-28T07:31:08.000Z"
    (<["title" := JStr "Shopping"]> (credentials "ALICE" "secret1")) env_n1
  = (Ok (ok (DNote (Note.mk "n1" "Shopping" "Yeni notunuzu buraya yazın..." "alice"
                            "2025-09-28T07:30:08.000Z" "2025-09-28T07:31:08.000Z"))),
     after (put_note js "n1" "2025-09-28T07:31:08.000Z"
              (<["title" := JStr "Shopping"]> (credentials "ALICE" "secret1"))) env_n1) /\
  exists old new,
    docs (notes env_n1) !! "n1" = Some old /\
    Note.createdAt new = Note.createdAt old /\
    Note.content new = Note.content old /\
    Note.updatedAt new = "2025-09-28T07:31:08.000Z".
Proof.
  assert (Hrun :
    put_note js "n1" "2025-09-28T07:31:08.000Z"
      (<["title" := JStr "Shopping"]> (credentials "ALICE" "secret1")) env_n1
    = (Ok (ok (DNote (Note.mk "n1" "Shopping" "Yeni notunuzu buraya yazın..." "alice"
                              "2025-09-28T07:30:08.000Z" "2025-09-28T07:31:08.000Z"))),
       after (put_note js "n1" "2025-09-28T07:31:08.000Z"
                (<["title" := JStr "Shopping"]> (credentials "ALICE" "secret1"))) env_n1))
    by (vm_compute; reflexivity).
  split; [exact Hrun|].
  destruct (C6_update_frame js _ _ _ _ _ _ Hrun eq_refl)
    as (old & new & Hold & _ & _ & Hcreated & _ & _ & _ & _ & _ & Hcontent & _ & _ & Hnow & _).
  exists old, new. split; [exact Hold|]. split; [exact Hcreated|].
  split; [apply Hcontent; vm_compute; reflexivity | exact Hnow].
Defined.

(** C6, the claim as first stated, fails when the clock of a request reads
    earlier than the stored [updatedAt]: the update goes through and
    [updatedAt] moves back, here to before [createdAt]. *)
Lemma C6_updatedAt_moves_back :
  exists old new,
    docs (notes env_n1) !! "n1" = Some old /\
    put_note js "n1" "2020-01-01T00:00:00.000Z" (credentials "alice" "secret1") env_n1
    = (Ok (ok (DNote new)), updated env_n1 "n1" new) /\
    success (ok (DNote new)) = true /\
    String.leb (Note.updatedAt old) (Note.updatedAt new) = false /\
    String.ltb (Note.updatedAt new) (Note.createdAt new) = true.
Proof.
  exists note_n1,
    (Note.mk "n1" "İsimsiz Not" "Yeni notunuzu buraya yazın..." "alice"
             "2025-09-28T07:30:08.000Z" "2020-01-01T00:00:00.000Z").
  repeat split; vm_compute; reflexivity.
Qed.

Lemma C7_witness :
  authentic js env_bob (credentials "Bob" "hunter22") "Bob" "hunter22"
    (UserRecord.mk "bob" "bob" (digest "hunter22") []) /\
  put_note js "n1" "2025-09-28T07:32:00.000Z" (credentials "Bob" "hunter22") env_bob
    = (Ok forbidden, env_bob) /\
  delete_note js "n1" (credentials "Bob" "hunter22") env_bob = (Ok forbidden, env_bob) /\
  delete_note js "n2" (credentials "Bob" "hunter22") env_bob
    = (Ok (notFound "Not bulunamadı."), env_bob).
Proof.
  assert (Hauth : authentic js env_bob (credentials "Bob" "hunter22") "Bob" "hunter22"
                    (UserRecord.mk "bob" "bob" (digest "hunter22") []))
    by (repeat split; vm_compute; reflexivity).
  split; [exact Hauth|].
  destruct (C7_missing_or_foreign_note js _ _ _ _ _ "n1" "2025-09-28T07:32:00.000Z" Hauth)
    as [_ Hforeign].
  destruct (C7_missing_or_foreign_note js _ _ _ _ _ "n2" "2025-09-28T07:32:00.000Z" Hauth)
    as [Hmissing _].
  destruct (Hforeign (Note.mk "n1" "İsimsiz Not" "Yeni notunuzu buraya yazın..." "alice"
                              "2025-09-28T07:30:08.000Z" "2025-09-28T07:30:08.000Z"))
    as (Hput & Hdel & _).
  - vm_compute. reflexivity.
  - intros H. vm_compute in H. discriminate H.
  - destruct Hmissing as (_ & Hdel2 & _); [vm_compute; reflexivity|].
    split; [exact Hput|]. split; [exact Hdel | exact Hdel2].
Defined.

Lemma C8_witness :
  delete_note js "n1" (credentials "ALICE" "secret1") env_n1
    = (Ok (ok DSuccess), after (delete_note js "n1" (credentials "ALICE" "secret1")) env_n1) /\
  docs (notes (after (delete_note js "n1" (credentials "ALICE" "secret1")) env_n1)) !! "n1"
    = None /\
  exists old u p rec,
    docs (notes env_n1) !! "n1" = Some old /\
    authentic js env_n1 (credentials "ALICE" "secret1") u p rec /\
    ("n1" ∉ UserRecord.noteIds (removeNoteId_tr "n1" rec)) /\
    (linked env_n1 ->
     exists ns,
       login js (credentials "ALICE" "secret1")
         (after (delete_note js "n1" (credentials "ALICE" "secret1")) env_n1)
       = (Ok (ok (DLogin (UserRecord.username rec) ns)),
          after (delete_note js "n1" (credentials "ALICE" "secret1")) env_n1)).
Proof.
  assert (Hrun :
    delete_note js "n1" (credentials "ALICE" "secret1") env_n1
    = (Ok (ok DSuccess), after (delete_note js "n1" (credentials "ALICE" "secret1")) env_n1))
    by (vm_compute; reflexivity).
  split; [exact Hrun|].
  destruct (C8_delete_note js _ _ _ _ _ Hrun eq_refl)
    as (_ & Hgone & _ & old & u & p & rec & Hold & Hauth & _ & _ & Hout & _ & Hauth' & Hlater).
  split; [exact Hgone|].
  exists old, u, p, rec.
  split; [exact Hold|]. split; [exact Hauth|]. split; [exact Hout|].
  destruct (Hlater _ _ _ _ Hauth' eq_refl) as [_ Hlogin]. exact Hlogin.
Defined.

Lemma C10_witness :
  authentic js env_n1
    (<["title" := JNum 42]> (<["content" := JNull]> (credentials "alice" "secret1")))
    "alice" "secret1" (UserRecord.mk "alice" "Alice" (digest "secret1") ["n1"]) /\
  exists new env',
    put_note js "n1" "2025-09-28T07:33:00.000Z"
      (<["title" := JNum 42]> (<["content" := JNull]> (credentials "alice" "secret1")))
      env_n1
    = (Ok (ok (DNote new)), env') /\
    Note.title new = "İsimsiz Not" /\
    Note.content new = "Yeni notunuzu buraya yazın..." /\
    Note.updatedAt new = "2025-09-28T07:33:00.000Z".
Proof.
  assert (Hauth : authentic js env_n1
    (<["title" := JNum 42]> (<["content" := JNull]> (credentials "alice" "secret1")))
    "alice" "secret1" (UserRecord.mk "alice" "Alice" (digest "secret1") ["n1"]))
    by (repeat split; vm_compute; reflexivity).
  split; [exact Hauth|].
  destruct (C10_non_string_fields_ignored js _ _ _ _ _ "n1" "2025-09-28T07:33:00.000Z"
              (Note.mk "n1" "İsimsiz Not" "Yeni notunuzu buraya yazın..." "alice"
                       "2025-09-28T07:30:08.000Z" "2025-09-28T07:30:08.000Z") Hauth)
    as (new & env' & Hrun & _ & _ & Htitle & Hcontent & _ & _ & Hnow & _).
  - vm_compute. reflexivity.
  - reflexivity.
  - exists new, env'. split; [exact Hrun|].
    split; [apply Htitle; intros H; vm_compute in H; discriminate H|].
    split; [apply Hcontent; intros H; vm_compute in H; discriminate H | exact Hnow].
Defined.



(** * What a request can do to the store

    Every route either leaves the store as it was, with a reply that is
    no success, or answers success having made one write. *)

Section Outcomes.

Variable rt : Runtime.

Ltac refused Hrun :=
  inversion Hrun; subst;
  split; [reflexivity | intros ? Hr; inversion Hr; subst; reflexivity].

Lemma authenticateUser_cases env env' body res (next : Ctx -> M Response) :
  authenticateUser rt body next env = (res, env') ->
  (env' = env /\ unsuccessful res) \/
  (exists u p rec,
     authentic rt env body u p rec /\
     next (mkCtx (toLowerCase rt u) (toLowerCase rt u) body) env = (res, env')).
Proof.
  unfold authenticateUser. intros Hrun.
  destruct (isStr rt (prop body "username")) eqn:Hiu; simpl in Hrun;
    [| left; refused Hrun].
  destruct (isStr rt (prop body "password")) eqn:Hip; simpl in Hrun;
    [| left; refused Hrun].
  unfold bind in Hrun.
  destruct (prop body "username") as [| | | | u | |] eqn:Hu; simpl in Hrun;
    try (left; refused Hrun).
  destruct (prop body "password") as [| | | | p | |] eqn:Hp; simpl in Hrun;
    try (left; refused Hrun).
  unfold user_exists, getPasswordHash, bind, user_getState, getState, settled in Hrun.
  simpl in Hrun.
  destruct (exists_ (users env) (toLowerCase rt u)) eqn:Hex; simpl in Hrun;
    [| left; refused Hrun].
  destruct (docs (users env) !! toLowerCase rt u) as [rec|] eqn:Hrec; simpl in Hrun;
    [| left; refused Hrun].
  destruct (decide (UserRecord.passwordHash rec = createHash rt p)) as [Hhash | Hhash].
  - right. exists u, p, rec. split; [repeat split; assumption|].
    rewrite bool_decide_eq_false_2 in Hrun by (intros Hne; exact (Hne Hhash)).
    exact Hrun.
  - left. rewrite bool_decide_eq_true_2 in Hrun by exact Hhash. refused Hrun.
Qed.

Lemma register_outcome env env' body res :
  register rt body env = (res, env') ->
  (env' = env /\ unsuccessful res) \/
  (exists u p,
     credentials_of rt body u p /\
     (3 <= String_length rt u)%nat /\ (6 <= String_length rt p)%nat /\
     docs (users env) !! toLowerCase rt u = None /\
     res = Ok (ok DSuccess) /\ env' = registered rt env u p).
Proof.
  intros Hrun.
  destruct (isStr rt (prop body "username")) eqn:Hiu;
    [| left; unfold register in Hrun; rewrite Hiu in Hrun; refused Hrun].
  destruct (isStr rt (prop body "password")) eqn:Hip;
    [| left; unfold register in Hrun; rewrite Hiu, Hip in Hrun; refused Hrun].
  destruct (prop body "username") as [| | | | u | |] eqn:Hu;
    try (left; unfold register in Hrun; rewrite Hu, Hiu, Hip in Hrun; refused Hrun).
  destruct (prop body "password") as [| | | | p | |] eqn:Hp;
    try (left; unfold register in Hrun; rewrite Hu, Hp, Hiu, Hip in Hrun; refused Hrun).
  assert (Hc : credentials_of rt body u p) by (repeat split; assumption).
  destruct (Nat.lt_ge_cases (String_length rt u) 3) as [Hlu | Hlu];
    [left; rewrite (register_short_username rt _ _ _ _ Hc Hlu) in Hrun; refused Hrun|].
  destruct (Nat.lt_ge_cases (String_length rt p) 6) as [Hlp | Hlp];
    [left; rewrite (register_short_password rt _ _ _ _ Hc Hlu Hlp) in Hrun; refused Hrun|].
  destruct (docs (users env) !! toLowerCase rt u) as [rec|] eqn:Hrec.
  - left. rewrite (register_taken rt _ _ _ _ Hc Hlu Hlp) in Hrun by eauto. refused Hrun.
  - right. rewrite (register_fresh rt _ _ _ _ Hc Hlu Hlp Hrec) in Hrun.
    inversion Hrun; subst. exists u, p. auto 10.
Qed.

Lemma login_outcome env env' body res :
  login rt body env = (res, env') -> env' = env.
Proof.
  unfold login. intros Hrun.
  destruct (isStr rt (prop body "username")) eqn:Hiu; simpl in Hrun;
    [| inversion Hrun; reflexivity].
  destruct (isStr rt (prop body "password")) eqn:Hip; simpl in Hrun;
    [| inversion Hrun; reflexivity].
  unfold bind in Hrun.
  destruct (prop body "username") as [| | | | u | |] eqn:Hu; simpl in Hrun;
    try (inversion Hrun; reflexivity).
  destruct (prop body "password") as [| | | | p | |] eqn:Hp; simpl in Hrun;
    try (inversion Hrun; reflexivity).
  unfold user_exists, getPasswordHash, bind, user_getState, getState, settled in Hrun.
  simpl in Hrun.
  destruct (exists_ (users env) (toLowerCase rt u)) eqn:Hex; simpl in Hrun;
    [| inversion Hrun; reflexivity].
  destruct (docs (users env) !! toLowerCase rt u) as [rec|] eqn:Hrec; simpl in Hrun;
    [| inversion Hrun; reflexivity].
  destruct (bool_decide (UserRecord.passwordHash rec <> createHash rt p)); simpl in Hrun;
    [inversion Hrun; reflexivity|].
  rewrite Hrec in Hrun. simpl in Hrun. rewrite Promise_all_getState in Hrun.
  destruct (mapM _ _); inversion Hrun; reflexivity.
Qed.

Lemma post_notes_outcome env env' body noteId now res :
  post_notes rt noteId now body env = (res, env') ->
  (env' = env /\ unsuccessful res) \/
  (exists u p rec,
     authentic rt env body u p rec /\
     docs (notes env) !! noteId = None /\
     res = Ok (ok (DNote (Note.mk noteId "İsimsiz Not" "Yeni notunuzu buraya yazın..."
                                  (toLowerCase rt u) now now))) /\
     env' = created env (toLowerCase rt u) noteId now rec).
Proof.
  intros Hrun. unfold post_notes in Hrun.
  destruct (authenticateUser_cases _ _ _ _ _ Hrun) as [Hleft | (u & p & rec & Hauth & Hnext)];
    [left; exact Hleft|].
  pose proof Hauth as (_ & Hrec & _).
  destruct (docs (notes env) !! noteId) as [n|] eqn:Hn.
  - left. rewrite (createNote_collision _ _ _ _ n Hn) in Hnext. refused Hnext.
  - right. exists u, p, rec.
    rewrite (createNote_fresh env (mkCtx (toLowerCase rt u) (toLowerCase rt u) body)
               noteId now rec Hrec Hn) in Hnext.
    inversion Hnext; subst. auto.
Qed.

Lemma put_note_outcome env env' body noteId now res :
  put_note rt noteId now body env = (res, env') ->
  (env' = env /\ unsuccessful res) \/
  (exists u p rec old,
     authentic rt env body u p rec /\
     docs (notes env) !! noteId = Some old /\
     Note.userId old = toLowerCase rt u /\
     res = Ok (ok (DNote (touched old body now))) /\
     env' = updated env noteId (touched old body now)).
Proof.
  intros Hrun. unfold put_note in Hrun.
  destruct (authenticateUser_cases _ _ _ _ _ Hrun) as [Hleft | (u & p & rec & Hauth & Hnext)];
    [left; exact Hleft|].
  destruct (docs (notes env) !! noteId) as [old|] eqn:Hold.
  - destruct (decide (Note.userId old = toLowerCase rt u)) as [Hown | Hforeign].
    + right. exists u, p, rec, old.
      rewrite (updateNote_owner env (mkCtx (toLowerCase rt u) (toLowerCase rt u) body)
                 noteId now old Hold Hown) in Hnext.
      inversion Hnext; subst. auto.
    + left.
      rewrite (updateNote_foreign env (mkCtx (toLowerCase rt u) (toLowerCase rt u) body)
                 noteId now old Hold Hforeign) in Hnext.
      refused Hnext.
  - left. rewrite (updateNote_missing _ _ _ _ Hold) in Hnext. refused Hnext.
Qed.

Lemma delete_note_outcome env env' body noteId res :
  delete_note rt noteId body env = (res, env') ->
  (env' = env /\ unsuccessful res) \/
  (exists u p rec old,
     authentic rt env body u p rec /\
     docs (notes env) !! noteId = Some old /\
     Note.userId old = toLowerCase rt u /\
     res = Ok (ok DSuccess) /\
     env' = deleted env (toLowerCase rt u) noteId rec).
Proof.
  intros Hrun. unfold delete_note in Hrun.
  destruct (authenticateUser_cases _ _ _ _ _ Hrun) as [Hleft | (u & p & rec & Hauth & Hnext)];
    [left; exact Hleft|].
  pose proof Hauth as (_ & Hrec & _).
  destruct (docs (notes env) !! noteId) as [old|] eqn:Hold.
  - destruct (decide (Note.userId old = toLowerCase rt u)) as [Hown | Hforeign].
    + right. exists u, p, rec, old.
      rewrite (deleteNote_owner env (mkCtx (toLowerCase rt u) (toLowerCase rt u) body)
                 noteId old rec Hold Hown Hrec) in Hnext.
      inversion Hnext; subst. auto.
    + left.
      rewrite (deleteNote_foreign env (mkCtx (toLowerCase rt u) (toLowerCase rt u) body)
                 noteId old Hold Hforeign) in Hnext.
      refused Hnext.
  - left. rewrite (deleteNote_missing _ _ _ Hold) in Hnext. refused Hnext.
Qed.

Lemma put_password_outcome env env' body res :
  put_password rt body env = (res, env') ->
  (env' = env /\ unsuccessful res) \/
  (exists u p rec np,
     authentic rt env body u p rec /\
     prop body "newPassword" = JStr np /\ (6 <= String_length rt np)%nat /\
     res = Ok (ok DSuccess) /\
     env' = rehashed env (toLowerCase rt u) (createHash rt np) rec).
Proof.
  intros Hrun. unfold put_password in Hrun.
  destruct (authenticateUser_cases _ _ _ _ _ Hrun) as [Hleft | (u & p & rec & Hauth & Hnext)];
    [left; exact Hleft|].
  pose proof Hauth as (_ & Hrec & _).
  destruct (isStr rt (prop body "newPassword")) eqn:Hinp.
  - destruct (prop body "newPassword") as [| | | | np | |] eqn:Hnp;
      try (left; unfold changePassword in Hnext; simpl in Hnext;
           rewrite Hnp, Hinp in Hnext; simpl in Hnext; refused Hnext).
    destruct (Nat.lt_ge_cases (String_length rt np) 6) as [Hshort | Hlong].
    + left.
      rewrite (changePassword_refused_short rt env
                 (mkCtx (toLowerCase rt u) (toLowerCase rt u) body) np Hnp Hshort) in Hnext.
      refused Hnext.
    + right. exists u, p, rec, np.
      rewrite (changePassword_done rt env
                 (mkCtx (toLowerCase rt u) (toLowerCase rt u) body) np rec
                 Hnp Hinp Hlong Hrec) in Hnext.
      inversion Hnext; subst. auto.
  - left.
    rewrite (changePassword_refused_type rt env
               (mkCtx (toLowerCase rt u) (toLowerCase rt u) body) Hinp) in Hnext.
    refused Hnext.
Qed.

End Outcomes.

(** * Beyond the single routes *)

Section Requests.

Variable rt : Runtime.

(** What each kind of request can do, in one statement. *)
Lemma handle_outcome (req : Request) env :
  after (handle rt req) env = env /\
    (is_password_change req = false \/ unsuccessful (reply (handle rt req) env)) \/
  (exists u p, prop (request_body req) "username" = JStr u /\
     isStr rt (JStr u) = true /\
     docs (users env) !! toLowerCase rt u = None /\
     reply (handle rt req) env = Ok (ok DSuccess) /\
     is_password_change req = false /\
     after (handle rt req) env = registered rt env u p) \/
  (exists u rec noteId now, prop (request_body req) "username" = JStr u /\
     docs (users env) !! toLowerCase rt u = Some rec /\
     docs (notes env) !! noteId = None /\
     is_password_change req = false /\
     after (handle rt req) env = created env (toLowerCase rt u) noteId now rec) \/
  (exists u noteId old new, prop (request_body req) "username" = JStr u /\
     docs (notes env) !! noteId = Some old /\
     Note.userId old = toLowerCase rt u /\
     Note.id new = Note.id old /\ Note.userId new = Note.userId old /\
     Note.createdAt new = Note.createdAt old /\
     is_password_change req = false /\
     after (handle rt req) env = updated env noteId new) \/
  (exists u rec noteId old, prop (request_body req) "username" = JStr u /\
     docs (users env) !! toLowerCase rt u = Some rec /\
     docs (notes env) !! noteId = Some old /\
     Note.userId old = toLowerCase rt u /\
     is_password_change req = false /\
     after (handle rt req) env = deleted env (toLowerCase rt u) noteId rec) \/
  (exists u rec h, prop (request_body req) "username" = JStr u /\
     docs (users env) !! toLowerCase rt u = Some rec /\
     is_password_change req = true /\
     after (handle rt req) env = rehashed env (toLowerCase rt u) h rec).
Proof.
  unfold after, reply.
  destruct req as [body | body | noteId now body | noteId now body | noteId body | body];
    cbn [handle request_body is_password_change];
    match goal with |- context [?m env] => destruct (m env) as [res env'] eqn:Hrun end;
    cbn [fst snd].
  - destruct (register_outcome rt _ _ _ _ Hrun)
      as [[-> _] | (u & p & (Hu & _ & Hiu & _) & _ & _ & Hnone & -> & ->)].
    + left. auto.
    + right. left. exists u, p. auto 10.
  - left. rewrite (login_outcome rt _ _ _ _ Hrun). auto.
  - destruct (post_notes_outcome rt _ _ _ _ _ _ Hrun)
      as [[-> _] | (u & p & rec & ((Hu & _) & Hrec & _) & Hfresh & -> & ->)].
    + left. auto.
    + right. right. left. exists u, rec, noteId, now. auto.
  - destruct (put_note_outcome rt _ _ _ _ _ _ Hrun)
      as [[-> _] | (u & p & rec & old & ((Hu & _) & _) & Hold & Hown & -> & ->)].
    + left. auto.
    + right. right. right. left. exists u, noteId, old, (touched old body now).
      repeat split; auto.
  - destruct (delete_note_outcome rt _ _ _ _ _ Hrun)
      as [[-> _] | (u & p & rec & old & ((Hu & _) & Hrec & _) & Hold & Hown & -> & ->)].
    + left. auto.
    + right. right. right. right. left. exists u, rec, noteId, old. auto 10.
  - destruct (put_password_outcome rt _ _ _ _ Hrun)
      as [[-> Hun] | (u & p & rec & np & ((Hu & _) & Hrec & _) & _ & _ & -> & ->)].
    + left. auto.
    + right. right. right. right. right. exists u, rec, (createHash rt np). auto.
Qed.

(** X1: a request that is not answered with a success (a refusal of any
    kind, or an exception) leaves the whole store as it was. *)
Theorem X1_unsuccessful_request_writes_nothing (req : Request) env :
  unsuccessful (reply (handle rt req) env) ->
  after (handle rt req) env = env.
Proof.
  unfold after, reply.
  destruct req as [body | body | noteId now body | noteId now body | noteId body | body];
    cbn [handle];
    match goal with |- context [?m env] => destruct (m env) as [res env'] eqn:Hrun end;
    cbn [fst snd]; intros Hun.
  - destruct (register_outcome rt _ _ _ _ Hrun) as [[-> _] | (u & p & _ & _ & _ & _ & -> & _)];
      [reflexivity | discriminate (Hun _ eq_refl)].
  - apply (login_outcome rt _ _ _ _ Hrun).
  - destruct (post_notes_outcome rt _ _ _ _ _ _ Hrun)
      as [[-> _] | (u & p & rec & _ & _ & -> & _)];
      [reflexivity | discriminate (Hun _ eq_refl)].
  - destruct (put_note_outcome rt _ _ _ _ _ _ Hrun)
      as [[-> _] | (u & p & rec & old & _ & _ & _ & -> & _)];
      [reflexivity | discriminate (Hun _ eq_refl)].
  - destruct (delete_note_outcome rt _ _ _ _ _ Hrun)
      as [[-> _] | (u & p & rec & old & _ & _ & _ & -> & _)];
      [reflexivity | discriminate (Hun _ eq_refl)].
  - destruct (put_password_outcome rt _ _ _ _ Hrun)
      as [[-> _] | (u & p & rec & np & _ & _ & _ & -> & _)];
      [reflexivity | discriminate (Hun _ eq_refl)].
Qed.

(** X2: login reads and never writes: whatever the body and whatever the
    reply, the store after it is the store before it. *)
Theorem X2_login_writes_nothing (body : Body) env :
  after (login rt body) env = env.
Proof.
  unfold after. destruct (login rt body env) as [res env'] eqn:Hrun.
  apply (login_outcome rt _ _ _ _ Hrun).
Qed.

(** X3: a body whose [username] or [password] does not pass the guard
    (absent, or no string) is turned away with status 400 before any
    lookup: by register and login with "Kullanıcı adı ve şifre
    gereklidir.", and by the middleware of the note and password routes
    with "Kimlik bilgileri gereklidir.", whatever the handler behind it;
    the store is left as it was. *)
Theorem X3_missing_credentials_refused (body : Body) env (next : Ctx -> M Response) :
  isStr rt (prop body "username") = false \/ isStr rt (prop body "password") = false ->
  register rt body env = (Ok (bad "Kullanıcı adı ve şifre gereklidir."), env) /\
  login rt body env = (Ok (bad "Kullanıcı adı ve şifre gereklidir."), env) /\
  authenticateUser rt body next env = (Ok (bad "Kimlik bilgileri gereklidir."), env) /\
  status (bad "Kimlik bilgileri gereklidir.") = 400.
Proof.
  intros Hbad.
  assert (Hguard : negb (isStr rt (prop body "username"))
                   || negb (isStr rt (prop body "password")) = true).
  { destruct Hbad as [-> | ->]; [reflexivity | apply orb_true_r]. }
  unfold register, login, authenticateUser. cbv zeta. rewrite Hguard.
  repeat split; reflexivity.
Qed.

(** X4: once a registration has gone through, a login under any casing of
    the username with the same password succeeds: it answers with the
    username exactly as it was typed at registration and with no notes;
    with a password of another digest it is refused. *)
Theorem X4_register_then_login env body u p :
  credentials_of rt body u p ->
  (3 <= String_length rt u)%nat -> (6 <= String_length rt p)%nat ->
  docs (users env) !! toLowerCase rt u = None ->
  reply (register rt body) env = Ok (ok DSuccess) /\
  forall body2 u2 p2,
    credentials_of rt body2 u2 p2 ->
    toLowerCase rt u2 = toLowerCase rt u ->
    (createHash rt p2 = createHash rt p ->
       reply (login rt body2) (after (register rt body) env) = Ok (ok (DLogin u []))) /\
    (createHash rt p2 <> createHash rt p ->
       reply (login rt body2) (after (register rt body) env)
       = Ok (bad "Kullanıcı bulunamadı veya şifre yanlış.")).
Proof.
  intros Hc Hlu Hlp Hnone. unfold reply, after.
  rewrite (register_fresh rt _ _ _ _ Hc Hlu Hlp Hnone). cbn [fst snd].
  split; [reflexivity|]. intros body2 u2 p2 Hc2 Hsame.
  assert (Hrec : docs (users (registered rt env u p)) !! toLowerCase rt u2
                 = Some (UserRecord.mk (toLowerCase rt u) u (createHash rt p) [])).
  { rewrite Hsame. cbn. apply lookup_insert_eq. }
  split.
  - intros Hhash.
    rewrite (login_authentic rt _ body2 u2 p2 _ (conj Hc2 (conj Hrec (eq_sym Hhash)))).
    reflexivity.
  - intros Hhash.
    rewrite (login_wrong_password rt _ body2 u2 p2 _ Hc2 Hrec); [reflexivity|].
    cbn. intros He. apply Hhash. symmetry. exact He.
Qed.

(** ** The users' lists and the notes stay in step *)

Lemma linked_registered env u p :
  linked env ->
  docs (users env) !! toLowerCase rt u = None ->
  linked (registered rt env u p).
Proof.
  intros [Hlist Hown] Hnone. split.
  - intros k s id Hk Hid. cbn in Hk.
    apply lookup_insert_Some in Hk as [[<- <-] | [_ Hk]].
    + cbn in Hid. apply elem_of_nil in Hid. contradiction.
    + apply (Hlist k s id Hk Hid).
  - intros id n Hn. cbn in Hn. destruct (Hown id n Hn) as (s & Hs & Hid).
    exists s. split; [|exact Hid]. cbn.
    rewrite lookup_insert_ne; [exact Hs|]. intros He. rewrite <- He in Hs. congruence.
Qed.

Lemma linked_created env k noteId now rec :
  linked env ->
  docs (users env) !! k = Some rec ->
  docs (notes env) !! noteId = None ->
  linked (created env k noteId now rec).
Proof.
  intros [Hlist Hown] Hrec Hfresh. split.
  - intros k' s id Hk Hid. cbn in Hk.
    apply lookup_insert_Some in Hk as [[<- <-] | [_ Hk]].
    + cbn in Hid. apply new_Set_elem, elem_of_app in Hid as [Hid | Hid].
      * destruct (Hlist k rec id Hrec Hid) as (n & Hn & Hu).
        exists n. split; [|exact Hu]. cbn. rewrite lookup_insert_ne; [exact Hn|].
        intros He. subst id. congruence.
      * apply list_elem_of_singleton in Hid. subst id.
        eexists. split; [cbn; apply lookup_insert_eq | reflexivity].
    + destruct (Hlist k' s id Hk Hid) as (n & Hn & Hu).
      exists n. split; [|exact Hu]. cbn. rewrite lookup_insert_ne; [exact Hn|].
      intros He. subst id. congruence.
  - intros id n Hn. cbn in Hn.
    apply lookup_insert_Some in Hn as [[<- <-] | [_ Hn]].
    + exists (addNoteId_tr noteId rec). cbn. split; [apply lookup_insert_eq|].
      apply new_Set_elem, elem_of_app. right. apply list_elem_of_singleton. reflexivity.
    + destruct (Hown id n Hn) as (s & Hs & Hid).
      destruct (decide (k = Note.userId n)) as [He | Hne].
      * exists (addNoteId_tr noteId rec). cbn. rewrite <- He.
        split; [apply lookup_insert_eq|].
        rewrite <- He, Hrec in Hs. injection Hs as <-.
        apply new_Set_elem, elem_of_app. left. exact Hid.
      * exists s. cbn. rewrite lookup_insert_ne by exact Hne. auto.
Qed.

Lemma linked_updated env noteId old new :
  linked env ->
  docs (notes env) !! noteId = Some old ->
  Note.userId new = Note.userId old ->
  linked (updated env noteId new).
Proof.
  intros [Hlist Hown] Hold Hsame. split.
  - intros k s id Hk Hid. cbn in Hk. destruct (Hlist k s id Hk Hid) as (n & Hn & Hu).
    destruct (decide (noteId = id)) as [<- | Hne].
    + exists new. cbn. split; [apply lookup_insert_eq|]. congruence.
    + exists n. cbn. rewrite lookup_insert_ne by exact Hne. auto.
  - intros id n Hn. cbn in Hn.
    apply lookup_insert_Some in Hn as [[<- <-] | [_ Hn]].
    + rewrite Hsame. apply (Hown noteId old Hold).
    + apply (Hown id n Hn).
Qed.

Lemma linked_deleted env k noteId rec old :
  linked env ->
  docs (users env) !! k = Some rec ->
  docs (notes env) !! noteId = Some old ->
  Note.userId old = k ->
  linked (deleted env k noteId rec).
Proof.
  intros [Hlist Hown] Hrec Hold Howner. split.
  - intros k' s id Hk Hid. cbn in Hk.
    apply lookup_insert_Some in Hk as [[<- <-] | [Hne Hk]].
    + cbn in Hid. apply filter_ne_elem in Hid as [Hid Hneq].
      destruct (Hlist k rec id Hrec Hid) as (n & Hn & Hu).
      exists n. cbn. rewrite lookup_delete_ne by congruence. auto.
    + destruct (Hlist k' s id Hk Hid) as (n & Hn & Hu).
      exists n. cbn. rewrite lookup_delete_ne; [auto|].
      intros He. subst id. congruence.
  - intros id n Hn. cbn in Hn. apply lookup_delete_Some in Hn as [Hneq Hn].
    destruct (Hown id n Hn) as (s & Hs & Hid).
    destruct (decide (k = Note.userId n)) as [He | Hne].
    + exists (removeNoteId_tr noteId rec). cbn. rewrite <- He.
      split; [apply lookup_insert_eq|].
      rewrite <- He, Hrec in Hs. injection Hs as <-.
      apply filter_ne_elem. split; [exact Hid | congruence].
    + exists s. cbn. rewrite lookup_insert_ne by exact Hne. auto.
Qed.

Lemma linked_rehashed env k h rec :
  linked env ->
  docs (users env) !! k = Some rec ->
  linked (rehashed env k h rec).
Proof.
  intros [Hlist Hown] Hrec. split.
  - intros k' s id Hk Hid. cbn in Hk.
    apply lookup_insert_Some in Hk as [[<- <-] | [_ Hk]].
    + apply (Hlist k rec id Hrec Hid).
    + apply (Hlist k' s id Hk Hid).
  - intros id n Hn. cbn in Hn. destruct (Hown id n Hn) as (s & Hs & Hid).
    destruct (decide (k = Note.userId n)) as [He | Hne].
    + exists (updatePasswordHash_tr h rec). cbn. rewrite <- He.
      split; [apply lookup_insert_eq|].
      rewrite <- He, Hrec in Hs. injection Hs as <-. exact Hid.
    + exists s. cbn. rewrite lookup_insert_ne by exact Hne. auto.
Qed.

Lemma linked_empty : linked empty_env.
Proof.
  split.
  - intros k s id Hk. cbn in Hk. rewrite lookup_empty in Hk. discriminate.
  - intros id n Hn. cbn in Hn. rewrite lookup_empty in Hn. discriminate.
Qed.

Lemma handle_keeps_linked (req : Request) env :
  linked env -> linked (after (handle rt req) env).
Proof.
  intros Hl.
  destruct (handle_outcome req env)
    as [[-> _]
       | [(u & p & _ & _ & Hnone & _ & _ & ->)
       | [(u & rec & noteId & now & _ & Hrec & Hfresh & _ & ->)
       | [(u & noteId & old & new & _ & Hold & _ & _ & Hsame & _ & _ & ->)
       | [(u & rec & noteId & old & _ & Hrec & Hold & Hown & _ & ->)
       | (u & rec & h & _ & Hrec & Hpw & ->)]]]]].
  - exact Hl.
  - apply linked_registered; assumption.
  - apply linked_created; assumption.
  - apply (linked_updated _ _ old); assumption.
  - apply (linked_deleted _ _ _ _ old); assumption.
  - apply linked_rehashed; assumption.
Qed.

Lemma handle_keeps_keyed (req : Request) env :
  keyed env -> keyed (after (handle rt req) env).
Proof.
  destruct req as [body | body | noteId now body | noteId now body | noteId body | body];
    cbn [handle].
  - apply (routes_keep_keyed rt body "" "").
  - apply (routes_keep_keyed rt body "" "").
  - apply (routes_keep_keyed rt body noteId now).
  - apply (routes_keep_keyed rt body noteId now).
  - apply (routes_keep_keyed rt body noteId "").
  - apply (routes_keep_keyed rt body "" "").
Qed.

Lemma serve_keeps_consistent (reqs : list Request) env :
  keyed env -> linked env ->
  keyed (serve rt reqs env) /\ linked (serve rt reqs env).
Proof.
  revert env. induction reqs as [|req reqs IH]; intros env Hk Hl; [split; assumption|].
  cbn. apply IH; [apply handle_keeps_keyed | apply handle_keeps_linked]; assumption.
Qed.

(** X5: however many requests are served one after the other, and
    whatever they ask, a store in which the users' lists and the notes
    agree stays so: every id a user lists is the key of a note whose
    [userId] is that user, every note is listed by its owner, every record
    sits under its own id and no list repeats an id.  The empty store is
    such a store. *)
Theorem X5_store_stays_consistent (reqs : list Request) env :
  keyed env -> linked env ->
  keyed (serve rt reqs env) /\ linked (serve rt reqs env) /\
  keyed empty_env /\ linked empty_env.
Proof.
  intros Hk Hl. destruct (serve_keeps_consistent reqs env Hk Hl) as [Hk' Hl'].
  split; [exact Hk'|]. split; [exact Hl'|]. split; [apply keyed_empty | apply linked_empty].
Qed.

Lemma omap_all_resolve (st : Store Note.t) (ids : list string) (k : string) :
  (forall id, id ∈ ids ->
     exists n, docs st !! id = Some n /\ Note.id n = id /\ Note.userId n = k) ->
  map Note.id (omap (getState st) ids) = ids /\
  Forall (fun n => Note.userId n = k) (omap (getState st) ids).
Proof.
  induction ids as [|id ids IH]; intros Hall; [split; [reflexivity | constructor]|].
  destruct (Hall id) as (n & Hn & Hid & Hu); [left|].
  destruct IH as [IHids IHown]; [intros id' Hid'; apply Hall; right; exact Hid'|].
  assert (Hg : getState st id = Some n) by exact Hn.
  cbn. rewrite !Hg. cbn. split.
  - rewrite Hid. f_equal. exact IHids.
  - constructor; assumption.
Qed.

(** X6: in a consistent store, a login with correct credentials returns
    one note for each id the user lists, in the order of the list: the
    ids of the notes returned are the user's [noteIds], and every one of
    them is owned by the user. *)
Theorem X6_login_returns_every_listed_note env body u p rec :
  keyed env -> linked env ->
  authentic rt env body u p rec ->
  exists ns,
    login rt body env = (Ok (ok (DLogin (UserRecord.username rec) ns)), env) /\
    map Note.id ns = UserRecord.noteIds rec /\
    Forall (fun n => Note.userId n = toLowerCase rt u) ns.
Proof.
  intros [Hkeys _] [Hlist _] Hauth. pose proof Hauth as (_ & Hrec & _).
  eexists. split.
  { apply (login_resolved rt _ _ _ _ _ Hauth). intros id Hid.
    destruct (Hlist _ _ _ Hrec Hid) as (n & Hn & _). eauto. }
  apply omap_all_resolve. intros id Hid.
  destruct (Hlist _ _ _ Hrec Hid) as (n & Hn & Hu).
  exists n. split; [exact Hn|]. split; [apply (Hkeys _ _ Hn) | exact Hu].
Qed.

(** X7: a request touches only what belongs to the user it names: the
    records of all other users, and every note whose [userId] is not the
    lowercased username of the request, are the same after it as before
    it, whatever the route and whatever the outcome. *)
Theorem X7_other_users_are_untouched (req : Request) env u :
  prop (request_body req) "username" = JStr u ->
  (forall k, k <> toLowerCase rt u ->
     docs (users (after (handle rt req) env)) !! k = docs (users env) !! k) /\
  (forall id n, docs (notes env) !! id = Some n ->
     Note.userId n <> toLowerCase rt u ->
     docs (notes (after (handle rt req) env)) !! id = Some n).
Proof.
  intros Hu.
  destruct (handle_outcome req env)
    as [[-> _]
       | [(u' & p & Hu' & _ & Hnone & _ & _ & ->)
       | [(u' & rec & noteId & now & Hu' & Hrec & Hfresh & _ & ->)
       | [(u' & noteId & old & new & Hu' & Hold & Hown & _ & _ & _ & _ & ->)
       | [(u' & rec & noteId & old & Hu' & Hrec & Hold & Hown & _ & ->)
       | (u' & rec & h & Hu' & Hrec & _ & ->)]]]]];
    try (rewrite Hu in Hu'; injection Hu' as <-).
  - split; auto.
  - split; [intros k Hk; cbn; apply lookup_insert_ne; congruence | auto].
  - split; [intros k Hk; cbn; apply lookup_insert_ne; congruence|].
    intros id n Hn _. cbn. rewrite lookup_insert_ne; [exact Hn | congruence].
  - split; [auto|]. intros id n Hn Hne. cbn.
    rewrite lookup_insert_ne; [exact Hn | congruence].
  - split; [intros k Hk; cbn; apply lookup_insert_ne; congruence|].
    intros id n Hn Hne. cbn. rewrite lookup_delete_ne; [exact Hn | congruence].
  - split; [intros k Hk; cbn; apply lookup_insert_ne; congruence | auto].
Qed.

(** X8: no request removes a user or changes a user's [id] or [username],
    and only a request to the password route changes a stored digest. *)
Theorem X8_users_persist (req : Request) env k s :
  docs (users env) !! k = Some s ->
  exists s',
    docs (users (after (handle rt req) env)) !! k = Some s' /\
    UserRecord.id s' = UserRecord.id s /\
    UserRecord.username s' = UserRecord.username s /\
    (is_password_change req = false ->
       UserRecord.passwordHash s' = UserRecord.passwordHash s).
Proof.
  intros Hs.
  destruct (handle_outcome req env)
    as [[-> _]
       | [(u & p & _ & _ & Hnone & _ & _ & ->)
       | [(u & rec & noteId & now & _ & Hrec & _ & _ & ->)
       | [(u & noteId & old & new & _ & _ & _ & _ & _ & _ & _ & ->)
       | [(u & rec & noteId & old & _ & Hrec & _ & _ & Hnp & ->)
       | (u & rec & h & _ & Hrec & Hpw & ->)]]]]].
  - exists s. auto.
  - exists s. cbn. rewrite lookup_insert_ne by congruence. auto.
  - destruct (decide (toLowerCase rt u = k)) as [<- | Hne].
    + exists (addNoteId_tr noteId rec). cbn. rewrite lookup_insert_eq.
      assert (rec = s) as -> by congruence. auto.
    + exists s. cbn. rewrite lookup_insert_ne by exact Hne. auto.
  - exists s. auto.
  - destruct (decide (toLowerCase rt u = k)) as [<- | Hne].
    + exists (removeNoteId_tr noteId rec). cbn. rewrite lookup_insert_eq.
      assert (rec = s) as -> by congruence. auto.
    + exists s. cbn. rewrite lookup_insert_ne by exact Hne. auto.
  - destruct (decide (toLowerCase rt u = k)) as [<- | Hne].
    + exists (updatePasswordHash_tr h rec). cbn. rewrite lookup_insert_eq.
      assert (rec = s) as -> by congruence.
      repeat split. intros Hnot. congruence.
    + exists s. cbn. rewrite lookup_insert_ne by exact Hne. auto.
Qed.

(** X9: while a note is stored, no request changes its [id], its [userId]
    or its [createdAt]: whatever the request, a note found under a key
    before and after it has these three fields unchanged. *)
Theorem X9_note_identity_is_fixed (req : Request) env id n n' :
  docs (notes env) !! id = Some n ->
  docs (notes (after (handle rt req) env)) !! id = Some n' ->
  Note.id n' = Note.id n /\ Note.userId n' = Note.userId n /\
  Note.createdAt n' = Note.createdAt n.
Proof.
  intros Hn.
  destruct (handle_outcome req env)
    as [[-> _]
       | [(u & p & _ & _ & _ & _ & _ & ->)
       | [(u & rec & noteId & now & _ & _ & Hfresh & _ & ->)
       | [(u & noteId & old & new & _ & Hold & _ & Hid & Huser & Hcreated & _ & ->)
       | [(u & rec & noteId & old & _ & _ & _ & _ & _ & ->)
       | (u & rec & h & _ & _ & _ & ->)]]]]]; cbn; intros Hn'.
  - assert (n' = n) as -> by congruence. auto.
  - assert (n' = n) as -> by congruence. auto.
  - rewrite lookup_insert_ne in Hn' by congruence.
    assert (n' = n) as -> by congruence. auto.
  - apply lookup_insert_Some in Hn' as [[<- <-] | [_ Hn']].
    + assert (old = n) as -> by congruence. auto.
    + assert (n' = n) as -> by congruence. auto.
  - apply lookup_delete_Some in Hn' as [_ Hn'].
    assert (n' = n) as -> by congruence. auto.
  - assert (n' = n) as -> by congruence. auto.
Qed.

End Requests.

(** ** The two list transforms of [UserEntity] *)

Lemma filter_ne_absent (x : string) (l : list string) :
  x ∉ l -> filter (fun id => id <> x) l = l.
Proof.
  induction l as [|y l IH]; intros Hx; [reflexivity|].
  apply not_elem_of_cons in Hx as [Hne Hx].
  rewrite filter_cons_True by congruence. f_equal. apply IH, Hx.
Qed.

Lemma filter_ne_snoc (x : string) (l : list string) :
  filter (fun id => id <> x) (l ++ [x]) = filter (fun id => id <> x) l.
Proof.
  rewrite filter_app, filter_cons_False by (intros H; apply H; reflexivity).
  rewrite filter_nil. apply app_nil_r.
Qed.

(** X10: on a list without repeats that lacks [x], [removeNoteId x] undoes
    [addNoteId x]; adding an id twice is adding it once, removing it twice
    is removing it once, removing an id that is not listed changes
    nothing, and removing one id does not drop another that was added. *)
Theorem X10_add_and_remove_note_ids :
  (forall x s, NoDup (UserRecord.noteIds s) -> x ∉ UserRecord.noteIds s ->
     removeNoteId_tr x (addNoteId_tr x s) = s) /\
  (forall x s, addNoteId_tr x (addNoteId_tr x s) = addNoteId_tr x s) /\
  (forall x s, removeNoteId_tr x (removeNoteId_tr x s) = removeNoteId_tr x s) /\
  (forall x s, x ∉ UserRecord.noteIds s -> removeNoteId_tr x s = s) /\
  (forall x y s, x <> y ->
     y ∈ UserRecord.noteIds (removeNoteId_tr x (addNoteId_tr y s))).
Proof.
  repeat apply conj.
  - intros x [i u h l] Hnd Hx. unfold removeNoteId_tr, addNoteId_tr.
    cbn [UserRecord.id UserRecord.username UserRecord.passwordHash UserRecord.noteIds] in *.
    rewrite (new_Set_snoc_absent _ _ Hnd Hx), filter_ne_snoc, (filter_ne_absent _ _ Hx).
    reflexivity.
  - intros x [i u h l]. unfold addNoteId_tr.
    cbn [UserRecord.id UserRecord.username UserRecord.passwordHash UserRecord.noteIds].
    f_equal.
    apply new_Set_snoc_present; [apply new_Set_NoDup|].
    apply new_Set_elem, elem_of_app. right. apply list_elem_of_singleton. reflexivity.
  - intros x [i u h l]. unfold removeNoteId_tr.
    cbn [UserRecord.id UserRecord.username UserRecord.passwordHash UserRecord.noteIds].
    f_equal.
    apply filter_ne_absent. rewrite filter_ne_elem. intros [_ Hne]. apply Hne. reflexivity.
  - intros x [i u h l] Hx. unfold removeNoteId_tr.
    cbn [UserRecord.id UserRecord.username UserRecord.passwordHash UserRecord.noteIds] in *.
    f_equal.
    apply filter_ne_absent, Hx.
  - intros x y s Hne. cbn. apply filter_ne_elem. split; [|congruence].
    apply new_Set_elem, elem_of_app. right. apply list_elem_of_singleton. reflexivity.
Qed.

(** ** One request after another *)

Section Sequences.

Variable rt : Runtime.

Lemma omap_agree {A B : Type} (f g : A -> option B) (l : list A) :
  (forall a, a ∈ l -> f a = g a) -> omap f l = omap g l.
Proof.
  induction l as [|a l IH]; intros Hfg; [reflexivity|].
  cbn. rewrite (Hfg a) by left. rewrite IH; [reflexivity|].
  intros b Hb. apply Hfg. right. exact Hb.
Qed.

(** X11: in a consistent store, after an authenticated creation with a
    fresh id the user's next login returns the notes it returned before,
    followed by the new note. *)
Theorem X11_created_note_is_returned_last env body u p rec noteId now :
  keyed env -> linked env ->
  authentic rt env body u p rec ->
  docs (notes env) !! noteId = None ->
  exists before,
    reply (login rt body) env = Ok (ok (DLogin (UserRecord.username rec) before)) /\
    reply (login rt body) (after (post_notes rt noteId now body) env)
    = Ok (ok (DLogin (UserRecord.username rec)
                (before ++ [Note.mk noteId "İsimsiz Not" "Yeni notunuzu buraya yazın..."
                                    (toLowerCase rt u) now now]))).
Proof.
  intros [_ Husers] [Hlist _] Hauth Hfresh.
  pose proof Hauth as (Hc & Hrec & Hhash).
  assert (Hall : forall id, id ∈ UserRecord.noteIds rec -> is_Some (docs (notes env) !! id)).
  { intros id Hid. destruct (Hlist _ _ _ Hrec Hid) as (n & Hn & _). eauto. }
  exists (omap (getState (notes env)) (UserRecord.noteIds rec)).
  unfold reply, after.
  rewrite (login_resolved rt _ _ _ _ _ Hauth Hall). split; [reflexivity|].
  unfold post_notes. rewrite (authenticateUser_authentic rt _ _ _ _ _ _ Hauth).
  rewrite (createNote_fresh env (mkCtx (toLowerCase rt u) (toLowerCase rt u) body)
             noteId now rec Hrec Hfresh).
  cbn [fst snd userEntity userId].
  assert (Hnd : NoDup (UserRecord.noteIds rec)) by apply (Husers _ _ Hrec).
  assert (Hnew : noteId ∉ UserRecord.noteIds rec).
  { intros Hin. destruct (Hlist _ _ _ Hrec Hin) as (n & Hn & _). congruence. }
  match goal with |- fst (login rt body ?e) = _ => set (env' := e) end.
  assert (Hauth' : authentic rt env' body u p (addNoteId_tr noteId rec)).
  { split; [exact Hc|]. split; [apply lookup_insert_eq | exact Hhash]. }
  rewrite (login_resolved rt _ _ _ _ _ Hauth').
  2: { intros id Hid. cbn in Hid. apply new_Set_elem, elem_of_app in Hid as [Hid | Hid].
       - destruct (Hall id Hid) as [n Hn]. exists n. unfold env'. cbn.
         rewrite lookup_insert_ne; [exact Hn|]. intros He. subst id. congruence.
       - apply list_elem_of_singleton in Hid. subst id. unfold env'. cbn.
         rewrite lookup_insert_eq. eauto. }
  cbn [fst].
  do 3 f_equal.
  change (UserRecord.noteIds (addNoteId_tr noteId rec))
    with (new_Set (UserRecord.noteIds rec ++ [noteId])).
  rewrite (new_Set_snoc_absent _ _ Hnd Hnew), omap_app. f_equal.
  - apply omap_agree. intros id Hid. unfold getState, env'. cbn.
    apply lookup_insert_ne. intros He. subst id. exact (Hnew Hid).
  - cbn. unfold getState, env'. cbn. rewrite lookup_insert_eq. reflexivity.
Qed.

(** A note id with no record gets none from a request that is not a
    creation drawing that very id. *)
Lemma handle_keeps_absent (req : Request) env (id : string) :
  docs (notes env) !! id = None ->
  creates id req = false ->
  docs (notes (after (handle rt req) env)) !! id = None.
Proof.
  intros Hnone Hreq. unfold after.
  destruct req as [body | body | noteId now body | noteId now body | noteId body | body];
    cbn [handle creates] in *;
    match goal with |- context [?m env] => destruct (m env) as [res env'] eqn:Hrun end;
    cbn [snd].
  - destruct (register_outcome rt _ _ _ _ Hrun)
      as [[-> _] | (u & p & _ & _ & _ & _ & _ & ->)]; exact Hnone.
  - rewrite (login_outcome rt _ _ _ _ Hrun). exact Hnone.
  - apply bool_decide_eq_false in Hreq.
    destruct (post_notes_outcome rt _ _ _ _ _ _ Hrun)
      as [[-> _] | (u & p & rec & _ & _ & _ & ->)]; [exact Hnone|].
    cbn. rewrite lookup_insert_ne; [exact Hnone | exact Hreq].
  - destruct (put_note_outcome rt _ _ _ _ _ _ Hrun)
      as [[-> _] | (u & p & rec & old & _ & Hold & _ & _ & ->)]; [exact Hnone|].
    cbn. rewrite lookup_insert_ne; [exact Hnone | congruence].
  - destruct (delete_note_outcome rt _ _ _ _ _ Hrun)
      as [[-> _] | (u & p & rec & old & _ & Hold & _ & _ & ->)]; [exact Hnone|].
    cbn. rewrite lookup_delete_ne; [exact Hnone | congruence].
  - destruct (put_password_outcome rt _ _ _ _ Hrun)
      as [[-> _] | (u & p & rec & np & _ & _ & _ & _ & ->)]; exact Hnone.
Qed.

Lemma serve_keeps_absent (reqs : list Request) env (id : string) :
  docs (notes env) !! id = None ->
  Forall (fun req => creates id req = false) reqs ->
  docs (notes (serve rt reqs env)) !! id = None.
Proof.
  revert env. induction reqs as [|req reqs IH]; intros env Hnone Hreqs; [exact Hnone|].
  apply Forall_cons in Hreqs as [Hreq Hreqs].
  cbn. apply IH; [|exact Hreqs]. apply handle_keeps_absent; assumption.
Qed.

(** X12: once a deletion has answered success, the note id is gone for
    everyone and stays gone through whatever requests are served
    afterwards, as long as none of them is a creation for which the id
    generator draws that id again: after them the id has no record, an
    update or deletion of it is answered without success and writes
    nothing, and with correct credentials the answer is 404 "Not
    bulunamadı.". *)
Theorem X12_deleted_note_is_gone env env' body noteId r (later : list Request) :
  delete_note rt noteId body env = (Ok r, env') ->
  success r = true ->
  Forall (fun req => creates noteId req = false) later ->
  docs (notes (serve rt later env')) !! noteId = None /\
  forall body2 now2,
    unsuccessful (reply (put_note rt noteId now2 body2) (serve rt later env')) /\
    unsuccessful (reply (delete_note rt noteId body2) (serve rt later env')) /\
    after (put_note rt noteId now2 body2) (serve rt later env') = serve rt later env' /\
    after (delete_note rt noteId body2) (serve rt later env') = serve rt later env' /\
    (forall u2 p2 rec2, authentic rt (serve rt later env') body2 u2 p2 rec2 ->
       put_note rt noteId now2 body2 (serve rt later env')
       = (Ok (notFound "Not bulunamadı."), serve rt later env') /\
       delete_note rt noteId body2 (serve rt later env')
       = (Ok (notFound "Not bulunamadı."), serve rt later env')).
Proof.
  intros Hrun Hok Hlater.
  assert (Hdeleted : docs (notes env') !! noteId = None).
  { destruct (delete_note_outcome rt _ _ _ _ _ Hrun)
      as [[_ Hun] | (u & p & rec & old & _ & _ & _ & _ & ->)].
    - rewrite (Hun r eq_refl) in Hok. discriminate.
    - cbn. apply lookup_delete_eq. }
  pose proof (serve_keeps_absent later env' noteId Hdeleted Hlater) as Hgone.
  split; [exact Hgone|].
  set (env2 := serve rt later env') in *. clearbody env2.
  intros body2 now2.
  assert (Hput : after (put_note rt noteId now2 body2) env2 = env2
                 /\ unsuccessful (reply (put_note rt noteId now2 body2) env2)).
  { unfold after, reply.
    destruct (put_note rt noteId now2 body2 env2) as [res e] eqn:Hp. cbn [fst snd].
    destruct (put_note_outcome rt _ _ _ _ _ _ Hp)
      as [[-> Hun] | (u & p & rec & old & _ & Hold & _)]; [auto | congruence]. }
  assert (Hdel : after (delete_note rt noteId body2) env2 = env2
                 /\ unsuccessful (reply (delete_note rt noteId body2) env2)).
  { unfold after, reply.
    destruct (delete_note rt noteId body2 env2) as [res e] eqn:Hd. cbn [fst snd].
    destruct (delete_note_outcome rt _ _ _ _ _ Hd)
      as [[-> Hun] | (u & p & rec & old & _ & Hold & _)]; [auto | congruence]. }
  destruct Hput as [Hput1 Hput2]. destruct Hdel as [Hdel1 Hdel2].
  split; [exact Hput2|]. split; [exact Hdel2|]. split; [exact Hput1|].
  split; [exact Hdel1|]. intros u2 p2 rec2 Hauth2. split.
  - unfold put_note. rewrite (authenticateUser_authentic rt _ _ _ _ _ _ Hauth2).
    apply updateNote_missing, Hgone.
  - unfold delete_note. rewrite (authenticateUser_authentic rt _ _ _ _ _ _ Hauth2).
    apply deleteNote_missing, Hgone.
Qed.

(** X13: a password change loses no note: after it has gone through, a
    login of the user with the new password is answered exactly as a
    login with the old password was before; in a consistent store that
    answer is a success with one note for each id the user lists. *)
Theorem X13_password_change_keeps_notes env body u p rec np :
  authentic rt env body u p rec ->
  prop body "newPassword" = JStr np ->
  isStr rt (JStr np) = true ->
  (6 <= String_length rt np)%nat ->
  forall body2 u2,
    credentials_of rt body2 u2 np ->
    toLowerCase rt u2 = toLowerCase rt u ->
    reply (put_password rt body) env = Ok (ok DSuccess) /\
    reply (login rt body2) (after (put_password rt body) env)
    = reply (login rt body) env /\
    (keyed env -> linked env ->
     exists ns,
       reply (login rt body) env = Ok (ok (DLogin (UserRecord.username rec) ns)) /\
       map Note.id ns = UserRecord.noteIds rec).
Proof.
  intros Hauth Hnp Hinp Hlen body2 u2 Hc2 Hsame.
  pose proof Hauth as (_ & Hrec & _).
  unfold reply, after, put_password.
  rewrite (authenticateUser_authentic rt _ _ _ _ _ _ Hauth).
  rewrite (changePassword_done rt env (mkCtx (toLowerCase rt u) (toLowerCase rt u) body)
             np rec Hnp Hinp Hlen Hrec).
  cbn [fst snd userEntity]. split; [reflexivity|]. split.
  - match goal with |- fst (login rt body2 ?e) = _ => set (env' := e) end.
    assert (Hauth' : authentic rt env' body2 u2 np
                       (updatePasswordHash_tr (createHash rt np) rec)).
    { split; [exact Hc2|]. split; [|reflexivity].
      rewrite Hsame. unfold env'. cbn. apply lookup_insert_eq. }
    rewrite (login_authentic rt _ _ _ _ _ Hauth'), (login_authentic rt _ _ _ _ _ Hauth).
    reflexivity.
  - intros [Hkeys _] [Hlist _].
    exists (omap (getState (notes env)) (UserRecord.noteIds rec)). split.
    + rewrite (login_resolved rt _ _ _ _ _ Hauth); [reflexivity|].
      intros id Hid. destruct (Hlist _ _ _ Hrec Hid) as (n & Hn & _). eauto.
    + apply (omap_all_resolve (notes env) _ (toLowerCase rt u)). intros id Hid.
      destruct (Hlist _ _ _ Hrec Hid) as (n & Hn & Hu).
      exists n. split; [exact Hn|]. split; [apply (Hkeys _ _ Hn) | exact Hu].
Qed.

End Sequences.

(** * The client's store *)

Section ClientFacts.

Variable getTime : string -> option Z.

Lemma sort_insert_perm {A : Type} (cmp : A -> A -> Z) (x : A) (l : list A) :
  sort_insert cmp x l ≡ₚ x :: l.
Proof.
  induction l as [|y l IH]; [reflexivity|].
  cbn. destruct (0 <? cmp x y)%Z; [|reflexivity].
  rewrite IH. apply perm_swap.
Qed.

Lemma Array_sort_perm {A : Type} (cmp : A -> A -> Z) (l : list A) :
  Array_sort cmp l ≡ₚ l.
Proof.
  induction l as [|x l IH]; [reflexivity|].
  cbn. rewrite sort_insert_perm. fold (Array_sort cmp l). rewrite IH. reflexivity.
Qed.

Lemma sort_insert_sorted (x : Note.t) (l : list Note.t) :
  dated getTime x -> Forall (dated getTime) l ->
  StronglySorted (not_older getTime) l ->
  StronglySorted (not_older getTime) (sort_insert (Client.newest_first getTime) x l).
Proof.
  intros [tx Hx]. induction l as [|y l IH]; intros Hdated Hl; [repeat constructor|].
  apply Forall_cons in Hdated as [[ty Hy] Hdated].
  apply StronglySorted_inv in Hl as [Hl Hall]. cbn.
  unfold Client.newest_first. rewrite Hx, Hy.
  destruct (Z.ltb_spec 0 (ty - tx)) as [Hlt | Hge].
  - constructor; [apply IH; assumption|].
    rewrite (sort_insert_perm _ x l). constructor; [|exact Hall].
    unfold not_older. rewrite Hx, Hy. lia.
  - constructor; [constructor; assumption|].
    constructor; [unfold not_older; rewrite Hx, Hy; lia|].
    eapply Forall_impl; [exact Hall|]. intros z Hyz.
    unfold not_older in *. rewrite Hx. rewrite Hy in Hyz.
    destruct (getTime (Note.updatedAt z)); [lia | exact Hyz].
Qed.

Lemma Array_sort_sorted (l : list Note.t) :
  Forall (dated getTime) l ->
  StronglySorted (not_older getTime) (Array_sort (Client.newest_first getTime) l).
Proof.
  induction l as [|x l IH]; intros Hdated; [constructor|].
  apply Forall_cons in Hdated as [Hx Hdated].
  cbn. apply sort_insert_sorted; [exact Hx | | apply IH, Hdated].
  fold (Array_sort (Client.newest_first getTime) l).
  rewrite (Array_sort_perm (Client.newest_first getTime) l). exact Hdated.
Qed.

Lemma head_elem {A : Type} (l : list A) (x : A) : head l = Some x -> x ∈ l.
Proof. destruct l; [discriminate|]. intros [= ->]. left. Qed.

Lemma or_null_head_listed (l : list Note.t) (id : string) :
  or_null (Note.id <$> head l) = Some id -> exists n, n ∈ l /\ Note.id n = id.
Proof.
  destruct l as [|n l]; [discriminate|]. cbn.
  case_bool_decide; [discriminate|]. intros [= <-]. exists n. split; [left | reflexivity].
Qed.

(** X14: the active note id never dangles: starting from the initial
    state, after any action other than a selection of an id that is not
    in the list, the active id (when there is one) is the id of a listed
    note. *)
Theorem X14_active_note_stays_listed (a : Client.Action) (st : AppState.t) :
  active_listed st ->
  selects_listed a st ->
  active_listed (Client.act getTime a st).
Proof.
  intros Hst Ha id.
  destruct a as [u p ns m | | sel | note | now noteId title content | noteId | b | b | | np];
    cbn [Client.act].
  - cbn. destruct m; [discriminate|]. apply or_null_head_listed.
  - discriminate.
  - cbn. intros ->. exact Ha.
  - cbn. intros [= <-]. exists note. split; [left | reflexivity].
  - unfold Client.updateNote.
    destruct (find _ (AppState.notes st)) as [old|] eqn:Hfind; [|apply Hst].
    apply find_some in Hfind as [_ Hold]. apply bool_decide_eq_true in Hold.
    cbn. intros Hactive.
    destruct (decide (id = noteId)) as [-> | Hne].
    + eexists. split; [left|]. exact Hold.
    + destruct (Hst id Hactive) as (n & Hn & Hid).
      exists n. split; [|exact Hid]. right. apply list_elem_of_filter.
      split; [congruence | exact Hn].
  - unfold Client.deleteNote. cbn. case_bool_decide as Hact.
    + apply or_null_head_listed.
    + intros Hactive. destruct (Hst id Hactive) as (n & Hn & Hid).
      exists n. split; [|exact Hid]. apply list_elem_of_filter. split; [|exact Hn].
      intros He. apply Hact. congruence.
  - apply Hst.
  - apply Hst.
  - apply Hst.
  - apply Hst.
Qed.

Lemma active_listed_initial : active_listed Client.initial.
Proof. intros id H. discriminate. Qed.

(** X15: [login] stores the notes it is given, all of them and no other.
    On a phone no note is active, and none is when there is no note.
    When the [updatedAt] of every note is a date, the notes are stored
    newest first, every note not older than the ones after it, and
    otherwise the active note is the newest one, when its id is not
    empty. *)
Theorem X15_login_sorts_newest_first (username password : string)
    (notes : list Note.t) (isMobile : bool) (st : AppState.t) :
  AppState.notes (Client.login getTime username password notes isMobile st) ≡ₚ notes /\
  (isMobile = true ->
     AppState.activeNoteId (Client.login getTime username password notes isMobile st)
     = None) /\
  (isMobile = false -> notes = [] ->
     AppState.activeNoteId (Client.login getTime username password notes isMobile st)
     = None) /\
  (Forall (dated getTime) notes ->
   StronglySorted (not_older getTime)
     (AppState.notes (Client.login getTime username password notes isMobile st)) /\
   (isMobile = false ->
    forall n,
      AppState.activeNoteId (Client.login getTime username password notes isMobile st)
      = Some (Note.id n) ->
      n ∈ notes ->
      NoDup (map Note.id notes) ->
      Forall (not_older getTime n) notes)).
Proof.
  cbn. split; [apply Array_sort_perm|].
  split; [intros ->; reflexivity|].
  split; [intros -> ->; reflexivity|].
  intros Hdated. split; [apply Array_sort_sorted, Hdated|].
  intros -> n Hactive Hn Hnd.
  pose proof (Array_sort_sorted notes Hdated) as Hsorted.
  pose proof (Array_sort_perm (Client.newest_first getTime) notes) as Hperm.
  destruct (Array_sort (Client.newest_first getTime) notes) as [|m l] eqn:Hs;
    [discriminate|].
  cbn in Hactive. case_bool_decide; [discriminate|]. injection Hactive as Hid.
  assert (m = n) as ->.
  { assert (Hm : m ∈ notes) by (rewrite <- Hperm; left).
    apply list_elem_of_lookup in Hm as [i Hi]. apply list_elem_of_lookup in Hn as [j Hj].
    assert (i = j).
    { apply (NoDup_lookup (map Note.id notes) i j (Note.id n)); [exact Hnd | |].
      - rewrite list_lookup_fmap, Hi. cbn. congruence.
      - rewrite list_lookup_fmap, Hj. reflexivity. }
    congruence. }
  apply StronglySorted_inv in Hsorted as [_ Hall].
  rewrite <- Hperm. constructor; [|exact Hall].
  rewrite Forall_forall in Hdated. destruct (Hdated n Hn) as [tn Htn].
  unfold not_older. rewrite Htn. lia.
Qed.

End ClientFacts.

Lemma filter_keeps_all {A : Type} (P : A -> Prop) `{forall x, Decision (P x)}
    (l : list A) :
  (forall x, x ∈ l -> P x) -> filter P l = l.
Proof.
  induction l as [|x l IH]; intros Hall; [reflexivity|].
  rewrite filter_cons_True by (apply Hall; left). f_equal.
  apply IH. intros y Hy. apply Hall. right. exact Hy.
Qed.

Lemma find_by_id_unique (l : list Note.t) (old : Note.t) :
  NoDup (map Note.id l) -> old ∈ l ->
  find (fun n => bool_decide (Note.id n = Note.id old)) l = Some old.
Proof.
  induction l as [|m l IH]; intros Hnd Hold; [apply elem_of_nil in Hold; contradiction|].
  cbn in Hnd. apply NoDup_cons in Hnd as [Hm Hnd]. cbn.
  apply elem_of_cons in Hold as [-> | Hold].
  - rewrite bool_decide_eq_true_2 by reflexivity. reflexivity.
  - rewrite bool_decide_eq_false_2; [apply IH; assumption|].
    intros He. apply Hm. rewrite He. apply list_elem_of_fmap. exists old. auto.
Qed.

Lemma filter_other_ids_perm (l : list Note.t) (old : Note.t) :
  NoDup (map Note.id l) -> old ∈ l ->
  l ≡ₚ old :: filter (fun n => Note.id n <> Note.id old) l.
Proof.
  induction l as [|m l IH]; intros Hnd Hold; [apply elem_of_nil in Hold; contradiction|].
  cbn in Hnd. apply NoDup_cons in Hnd as [Hm Hnd].
  apply elem_of_cons in Hold as [-> | Hold].
  - rewrite filter_cons_False by (intros H; apply H; reflexivity).
    apply Permutation_cons; [reflexivity|].
    rewrite filter_keeps_all; [reflexivity|]. intros n Hn He. apply Hm. rewrite <- He.
    apply list_elem_of_fmap. exists n. auto.
  - rewrite filter_cons_True.
    + rewrite (IH Hnd Hold) at 1. apply perm_swap.
    + intros He. apply Hm. rewrite He. apply list_elem_of_fmap. exists old. auto.
Qed.

(** X16: the client's [updateNote] leaves the state alone when no listed
    note has the id.  When the listed ids are distinct and one of them is
    the id, the note comes first with the new title, content and
    [updatedAt] and its [id], [userId] and [createdAt] as before, followed
    by the other notes in their order; the list keeps its length and its
    ids, and the active id is not changed. *)
Theorem X16_client_update_moves_note_to_front
    (now noteId title content : string) (st : AppState.t) :
  ((forall n, n ∈ AppState.notes st -> Note.id n <> noteId) ->
     Client.updateNote now noteId title content st = st) /\
  (forall old, old ∈ AppState.notes st -> Note.id old = noteId ->
     NoDup (map Note.id (AppState.notes st)) ->
     AppState.notes (Client.updateNote now noteId title content st)
     = Note.mk noteId title content (Note.userId old) (Note.createdAt old) now
         :: filter (fun n => Note.id n <> noteId) (AppState.notes st) /\
     length (AppState.notes (Client.updateNote now noteId title content st))
     = length (AppState.notes st) /\
     map Note.id (AppState.notes (Client.updateNote now noteId title content st))
       ≡ₚ map Note.id (AppState.notes st) /\
     AppState.activeNoteId (Client.updateNote now noteId title content st)
     = AppState.activeNoteId st).
Proof.
  split.
  - intros Habsent. unfold Client.updateNote.
    destruct (find _ (AppState.notes st)) as [old|] eqn:Hfind; [|reflexivity].
    apply find_some in Hfind as [Hin Hid]. apply bool_decide_eq_true in Hid.
    exfalso. apply (Habsent old); [apply list_elem_of_In; exact Hin | exact Hid].
  - intros old Hold <- Hnd. unfold Client.updateNote.
    rewrite (find_by_id_unique _ _ Hnd Hold). cbn.
    pose proof (filter_other_ids_perm _ _ Hnd Hold) as Hperm.
    split; [reflexivity|]. split.
    + rewrite Hperm at 2. reflexivity.
    + split; [|reflexivity]. rewrite Hperm at 2. reflexivity.
Qed.

(** X17: the client's [deleteNote] leaves no note with the id in the list
    and never leaves the id active; it keeps the active id when another
    note was active; doing it twice is doing it once; and when the id is
    neither listed nor active it changes nothing. *)
Theorem X17_client_delete (noteId : string) (st : AppState.t) :
  (forall n, n ∈ AppState.notes (Client.deleteNote noteId st) -> Note.id n <> noteId) /\
  AppState.activeNoteId (Client.deleteNote noteId st) <> Some noteId /\
  (AppState.activeNoteId st <> Some noteId ->
     AppState.activeNoteId (Client.deleteNote noteId st) = AppState.activeNoteId st) /\
  Client.deleteNote noteId (Client.deleteNote noteId st) = Client.deleteNote noteId st /\
  ((forall n, n ∈ AppState.notes st -> Note.id n <> noteId) ->
     AppState.activeNoteId st <> Some noteId ->
     Client.deleteNote noteId st = st).
Proof.
  assert (Hgone : forall n,
    n ∈ filter (fun n => Note.id n <> noteId) (AppState.notes st) -> Note.id n <> noteId).
  { intros n Hn. apply list_elem_of_filter in Hn as [Hne _]. exact Hne. }
  assert (Hactive : AppState.activeNoteId (Client.deleteNote noteId st) <> Some noteId).
  { cbn. case_bool_decide as Hact; [|exact Hact].
    intros Hhead. apply or_null_head_listed in Hhead as (n & Hn & Hid).
    exact (Hgone n Hn Hid). }
  split; [exact Hgone|]. split; [exact Hactive|].
  split; [intros Hother; cbn; rewrite bool_decide_eq_false_2 by exact Hother; reflexivity|].
  split.
  - unfold Client.deleteNote at 1. cbn [AppState.notes AppState.activeNoteId
      AppState.isAuthenticated AppState.username AppState.password AppState.isLoading
      AppState.isNotesLoading AppState.isSaving].
    rewrite bool_decide_eq_false_2 by exact Hactive.
    unfold Client.deleteNote. cbn. f_equal.
    apply filter_keeps_all. exact Hgone.
  - intros Habsent Hother. destruct st as [a u p ns act l nl sv]. cbn in *.
    unfold Client.deleteNote. cbn.
    rewrite bool_decide_eq_false_2 by exact Hother. f_equal.
    apply filter_keeps_all. exact Habsent.
Qed.

(** X18: adding a note whose id is not yet listed and then deleting that
    id gives back the list of before; the active id afterwards is that of
    the first note of the list (none if the list is empty or that id is
    the empty string), not the one that was active before. *)
Theorem X18_client_add_then_delete (note : Note.t) (st : AppState.t) :
  (forall n, n ∈ AppState.notes st -> Note.id n <> Note.id note) ->
  AppState.notes (Client.deleteNote (Note.id note) (Client.addNote note st))
  = AppState.notes st /\
  AppState.activeNoteId (Client.deleteNote (Note.id note) (Client.addNote note st))
  = or_null (Note.id <$> head (AppState.notes st)).
Proof.
  intros Habsent.
  assert (Hfilter : filter (fun n => Note.id n <> Note.id note) (note :: AppState.notes st)
                    = AppState.notes st).
  { rewrite filter_cons_False by (intros H; apply H; reflexivity).
    apply filter_keeps_all. exact Habsent. }
  unfold Client.deleteNote, Client.addNote.
  cbn [AppState.notes AppState.activeNoteId]. rewrite Hfilter.
  split; [reflexivity|]. rewrite bool_decide_eq_true_2 by reflexivity. reflexivity.
Qed.

(** * The client and the server together *)

Section Session.

Variable rt : Runtime.

Lemma handle_keeps_named (req : Request) env :
  named rt env -> named rt (after (handle rt req) env).
Proof.
  intros Hnamed.
  destruct (handle_outcome rt req env)
    as [[-> _]
       | [(u & p & _ & Hiu & Hnone & _ & _ & ->)
       | [(u & rec & noteId & now & _ & Hrec & _ & _ & ->)
       | [(u & noteId & old & new & _ & _ & _ & _ & _ & _ & _ & ->)
       | [(u & rec & noteId & old & _ & Hrec & _ & _ & _ & ->)
       | (u & rec & h & _ & Hrec & _ & ->)]]]]].
  - exact Hnamed.
  - intros k s Hk. cbn in Hk.
    apply lookup_insert_Some in Hk as [[<- <-] | [_ Hk]]; [auto | apply Hnamed, Hk].
  - intros k s Hk. cbn in Hk.
    apply lookup_insert_Some in Hk as [[<- <-] | [_ Hk]];
      [apply (Hnamed _ _ Hrec) | apply Hnamed, Hk].
  - exact Hnamed.
  - intros k s Hk. cbn in Hk.
    apply lookup_insert_Some in Hk as [[<- <-] | [_ Hk]];
      [apply (Hnamed _ _ Hrec) | apply Hnamed, Hk].
  - intros k s Hk. cbn in Hk.
    apply lookup_insert_Some in Hk as [[<- <-] | [_ Hk]];
      [apply (Hnamed _ _ Hrec) | apply Hnamed, Hk].
Qed.

Lemma serve_keeps_named (reqs : list Request) env :
  named rt env -> named rt (serve rt reqs env).
Proof.
  revert env. induction reqs as [|req reqs IH]; intros env Hnamed; [exact Hnamed|].
  cbn. apply IH, handle_keeps_named, Hnamed.
Qed.

Lemma named_empty : named rt empty_env.
Proof. intros k s Hk. cbn in Hk. rewrite lookup_empty in Hk. discriminate. Qed.

(** A login that answers with a username and notes had correct
    credentials, and the username is the stored one. *)
Lemma login_success env body u p name ns :
  credentials_of rt body u p ->
  reply (login rt body) env = Ok (ok (DLogin name ns)) ->
  exists rec, authentic rt env body u p rec /\ name = UserRecord.username rec.
Proof.
  intros Hc. unfold reply.
  destruct (docs (users env) !! toLowerCase rt u) as [rec|] eqn:Hrec.
  - destruct (decide (UserRecord.passwordHash rec = createHash rt p)) as [Hhash | Hhash].
    + rewrite (login_authentic rt env body u p rec (conj Hc (conj Hrec Hhash))).
      cbn [fst]. destruct (mapM _ _) as [ns'|]; [|discriminate].
      intros [= Hname _]. exists rec.
      split; [repeat split; try assumption; apply Hc | symmetry; exact Hname].
    + rewrite (login_wrong_password rt _ _ _ _ _ Hc Hrec Hhash). discriminate.
  - rewrite (login_no_user rt _ _ _ _ Hc Hrec). discriminate.
Qed.

(** X19: whatever requests were served since the store was empty, the
    username a successful login returns, sent back with the password of
    that login, is let through by the middleware of every authenticated
    route, as the same user: the credentials the client keeps after
    logging in under any casing keep working. *)
Theorem X19_returned_username_authenticates
    (history : list Request) body u p name ns body2 (next : Ctx -> M Response) :
  credentials_of rt body u p ->
  reply (login rt body) (serve rt history empty_env) = Ok (ok (DLogin name ns)) ->
  prop body2 "username" = JStr name ->
  prop body2 "password" = JStr p ->
  toLowerCase rt name = toLowerCase rt u /\
  authenticateUser rt body2 next (serve rt history empty_env)
  = next (mkCtx (toLowerCase rt u) (toLowerCase rt u) body2) (serve rt history empty_env).
Proof.
  intros Hc Hlogin Hname Hpass.
  destruct (login_success _ _ _ _ _ _ Hc Hlogin) as (rec & Hauth & ->).
  pose proof Hauth as (_ & Hrec & Hhash).
  destruct (serve_keeps_named history empty_env named_empty _ _ Hrec) as [Hlower Hguard].
  split; [exact Hlower|].
  rewrite <- Hlower.
  apply (authenticateUser_authentic rt _ body2 (UserRecord.username rec) p rec next).
  split; [repeat split; try assumption; apply Hc|].
  split; [rewrite Hlower; exact Hrec | exact Hhash].
Qed.

(** X20: the password dialog sends a request exactly when the two
    entries are equal, the new password has at least 6 characters, and
    the store holds a username and a password that are not empty; the
    body it sends holds those two and the new password.  What it sends,
    the server does not turn down for the new password: if the
    credentials are correct (and the guard takes the new password), the
    route answers success, and from then on the same username with the
    new password is let through by the middleware. *)
Theorem X20_password_dialog_request_is_accepted
    (newPassword confirmPassword : string) (st : AppState.t) :
  (forall body,
     handlePasswordChange rt newPassword confirmPassword st = Send body ->
     newPassword = confirmPassword /\
     (6 <= String_length rt newPassword)%nat /\
     (exists username currentPassword,
        AppState.username st = Some username /\ username <> "" /\
        AppState.password st = Some currentPassword /\ currentPassword <> "" /\
        body = <["username" := JStr username]>
                 (<["password" := JStr currentPassword]>
                    (<["newPassword" := JStr newPassword]> ∅))) /\
     prop body "username" = default JUndefined (JStr <$> AppState.username st) /\
     prop body "password" = default JUndefined (JStr <$> AppState.password st) /\
     prop body "newPassword" = JStr newPassword /\
     forall env u p rec,
       authentic rt env body u p rec ->
       isStr rt (JStr newPassword) = true ->
       reply (put_password rt body) env = Ok (ok DSuccess) /\
       forall body2 (next : Ctx -> M Response),
         prop body2 "username" = JStr u ->
         prop body2 "password" = JStr newPassword ->
         authenticateUser rt body2 next (after (put_password rt body) env)
         = next (mkCtx (toLowerCase rt u) (toLowerCase rt u) body2)
                (after (put_password rt body) env)) /\
  (forall username currentPassword,
     newPassword = confirmPassword ->
     (6 <= String_length rt newPassword)%nat ->
     AppState.username st = Some username -> username <> "" ->
     AppState.password st = Some currentPassword -> currentPassword <> "" ->
     handlePasswordChange rt newPassword confirmPassword st
     = Send (<["username" := JStr username]>
               (<["password" := JStr currentPassword]>
                  (<["newPassword" := JStr newPassword]> ∅)))).
Proof.
  split.
  - unfold handlePasswordChange. intros body Hsend.
    case_bool_decide as Hsame; [discriminate|].
    destruct (Nat.ltb_spec (String_length rt newPassword) 6) as [Hshort | Hlong];
      [discriminate|].
    destruct (AppState.username st) as [name|]; [|discriminate]. cbn in Hsend.
    case_bool_decide as Hname; [discriminate|].
    destruct (AppState.password st) as [current|]; [|discriminate]. cbn in Hsend.
    case_bool_decide as Hcurrent; [discriminate|].
    injection Hsend as <-.
    split; [destruct (decide (newPassword = confirmPassword)); [assumption | contradiction]|].
    split; [exact Hlong|].
    split; [exists name, current; auto 10|].
    split; [reflexivity|]. split; [reflexivity|].
    assert (Hnp : prop (<["username" := JStr name]>
                          (<["password" := JStr current]>
                             (<["newPassword" := JStr newPassword]> ∅))) "newPassword"
                  = JStr newPassword) by reflexivity.
    split; [exact Hnp|].
    intros env u p rec Hauth Hguard. pose proof Hauth as ((Hu & Hp & Hiu & _) & Hrec & _).
    unfold reply, after, put_password.
    rewrite (authenticateUser_authentic rt _ _ _ _ _ _ Hauth).
    rewrite (changePassword_done rt env
               (mkCtx (toLowerCase rt u) (toLowerCase rt u) _) newPassword rec
               Hnp Hguard Hlong Hrec).
    cbn [fst snd userEntity]. split; [reflexivity|].
    intros body2 next Hu2 Hp2.
    apply (authenticateUser_authentic rt _ body2 u newPassword
             (updatePasswordHash_tr (createHash rt newPassword) rec) next).
    split; [repeat split; assumption|].
    split; [cbn; apply lookup_insert_eq | reflexivity].
  - intros name current Hsame Hlong Hname Hname' Hcurrent Hcurrent'.
    unfold handlePasswordChange.
    rewrite bool_decide_eq_false_2 by (intros Hne; exact (Hne Hsame)).
    apply Nat.ltb_ge in Hlong. rewrite Hlong, Hname, Hcurrent. cbn.
    rewrite !bool_decide_eq_false_2 by assumption. reflexivity.
Qed.

End Session.

(** * Instances of the further properties *)

Lemma env_n1_served : env_n1 = serve js history_n1 empty_env.
Proof. reflexivity. Defined.

Lemma env_n1_consistent : keyed env_n1 /\ linked env_n1.
Proof.
  rewrite env_n1_served.
  apply serve_keeps_consistent; [apply keyed_empty | apply linked_empty].
Defined.

Lemma X1_witness :
  unsuccessful (reply (handle js (DeleteNote "n1" (credentials "Bob" "hunter22"))) env_bob) /\
  after (handle js (DeleteNote "n1" (credentials "Bob" "hunter22"))) env_bob = env_bob.
Proof.
  assert (Hun : unsuccessful
            (reply (handle js (DeleteNote "n1" (credentials "Bob" "hunter22"))) env_bob)).
  { intros r Hr. vm_compute in Hr. injection Hr as <-. reflexivity. }
  split; [exact Hun|].
  apply (X1_unsuccessful_request_writes_nothing js _ _ Hun).
Defined.

Lemma X3_witness :
  (isStr js (prop (<["username" := JNum 7]> ∅) "username") = false \/
   isStr js (prop (<["username" := JNum 7]> ∅) "password") = false) /\
  login js (<["username" := JNum 7]> ∅) env_alice
  = (Ok (bad "Kullanıcı adı ve şifre gereklidir."), env_alice).
Proof.
  assert (H : isStr js (prop (<["username" := JNum 7]> ∅) "username") = false \/
              isStr js (prop (<["username" := JNum 7]> ∅) "password") = false)
    by (left; vm_compute; reflexivity).
  split; [exact H|].
  apply (X3_missing_credentials_refused js _ env_alice (fun _ => ret (ok DSuccess)) H).
Defined.

Lemma X4_witness :
  credentials_of js (credentials "Alice" "secret1") "Alice" "secret1" /\
  reply (login js (credentials "aLiCe" "secret1"))
        (after (register js (credentials "Alice" "secret1")) empty_env)
  = Ok (ok (DLogin "Alice" [])).
Proof.
  assert (Hc : credentials_of js (credentials "Alice" "secret1") "Alice" "secret1")
    by (repeat split; vm_compute; reflexivity).
  assert (Hc2 : credentials_of js (credentials "aLiCe" "secret1") "aLiCe" "secret1")
    by (repeat split; vm_compute; reflexivity).
  split; [exact Hc|].
  destruct (X4_register_then_login js empty_env _ _ _ Hc) as [_ Hlogin].
  - simpl. lia.
  - simpl. lia.
  - vm_compute. reflexivity.
  - destruct (Hlogin _ _ _ Hc2) as [Hsame _]; [vm_compute; reflexivity|].
    apply Hsame. reflexivity.
Defined.

Lemma X5_witness :
  keyed empty_env /\ linked empty_env /\ keyed env_n1 /\ linked env_n1.
Proof.
  destruct (X5_store_stays_consistent js history_n1 empty_env keyed_empty linked_empty)
    as (Hk & Hl & Hk0 & Hl0).
  split; [exact Hk0|]. split; [exact Hl0|]. split; [exact Hk | exact Hl].
Defined.

Lemma X6_witness :
  keyed env_n1 /\ linked env_n1 /\
  exists ns,
    login js (credentials "ALICE" "secret1") env_n1 = (Ok (ok (DLogin "Alice" ns)), env_n1) /\
    map Note.id ns = ["n1"].
Proof.
  destruct env_n1_consistent as [Hk Hl].
  split; [exact Hk|]. split; [exact Hl|].
  destruct (X6_login_returns_every_listed_note js _ _ _ _ _ Hk Hl alice_authentic)
    as (ns & Hlogin & Hids & _).
  exists ns. split; [exact Hlogin | exact Hids].
Defined.

Lemma X7_witness :
  prop (request_body (PostNotes "n2" "2025-09-28T07:35:00.000Z" (credentials "bob" "hunter22")))
       "username" = JStr "bob" /\
  docs (notes (after (handle js (PostNotes "n2" "2025-09-28T07:35:00.000Z"
                                    (credentials "bob" "hunter22"))) env_bob)) !! "n1"
  = Some note_n1 /\
  docs (users (after (handle js (PostNotes "n2" "2025-09-28T07:35:00.000Z"
                                    (credentials "bob" "hunter22"))) env_bob)) !! "alice"
  = docs (users env_bob) !! "alice".
Proof.
  assert (Hu : prop (request_body (PostNotes "n2" "2025-09-28T07:35:00.000Z"
                                     (credentials "bob" "hunter22"))) "username"
               = JStr "bob") by reflexivity.
  split; [exact Hu|].
  destruct (X7_other_users_are_untouched js _ env_bob _ Hu) as [Husers Hnotes].
  split.
  - apply Hnotes; [vm_compute; reflexivity|]. intros H. vm_compute in H. discriminate H.
  - apply Husers. intros H. vm_compute in H. discriminate H.
Defined.

Lemma X8_witness :
  docs (users env_n1) !! "alice"
    = Some (UserRecord.mk "alice" "Alice" (digest "secret1") ["n1"]) /\
  exists s',
    docs (users (after (handle js (DeleteNote "n1" (credentials "alice" "secret1"))) env_n1))
      !! "alice" = Some s' /\
    UserRecord.username s' = "Alice" /\
    UserRecord.passwordHash s' = digest "secret1".
Proof.
  assert (Hs : docs (users env_n1) !! "alice"
               = Some (UserRecord.mk "alice" "Alice" (digest "secret1") ["n1"]))
    by (vm_compute; reflexivity).
  split; [exact Hs|].
  destruct (X8_users_persist js (DeleteNote "n1" (credentials "alice" "secret1")) _ _ _ Hs)
    as (s' & Hs' & _ & Hname & Hhash).
  exists s'. split; [exact Hs'|]. split; [exact Hname | apply Hhash; reflexivity].
Defined.

Lemma X9_witness :
  docs (notes env_n1) !! "n1" = Some note_n1 /\
  exists n',
    docs (notes (after (handle js (PutNote "n1" "2025-09-28T07:31:08.000Z"
                       (<["title" := JStr "Shopping"]> (credentials "ALICE" "secret1"))))
                  env_n1)) !! "n1" = Some n' /\
    Note.userId n' = "alice" /\ Note.createdAt n' = "2025-09-28T07:30:08.000Z".
Proof.
  assert (Hn : docs (notes env_n1) !! "n1" = Some note_n1) by (vm_compute; reflexivity).
  split; [exact Hn|].
  assert (Hn' :
    docs (notes (after (handle js (PutNote "n1" "2025-09-28T07:31:08.000Z"
                   (<["title" := JStr "Shopping"]> (credentials "ALICE" "secret1"))))
              env_n1)) !! "n1"
    = Some (Note.mk "n1" "Shopping" "Yeni notunuzu buraya yazın..." "alice"
                    "2025-09-28T07:30:08.000Z" "2025-09-28T07:31:08.000Z"))
    by (vm_compute; reflexivity).
  eexists. split; [exact Hn'|].
  destruct (X9_note_identity_is_fixed js _ _ _ _ _ Hn Hn') as (_ & Hu & Hc).
  split; [exact Hu | exact Hc].
Defined.

Lemma X11_witness :
  docs (notes env_n1) !! "n2" = None /\
  reply (login js (credentials "ALICE" "secret1"))
        (after (post_notes js "n2" "2025-09-28T07:40:00.000Z" (credentials "ALICE" "secret1"))
               env_n1)
  = Ok (ok (DLogin "Alice"
              [note_n1;
               Note.mk "n2" "İsimsiz Not" "Yeni notunuzu buraya yazın..." "alice"
                       "2025-09-28T07:40:00.000Z" "2025-09-28T07:40:00.000Z"])).
Proof.
  assert (Hfresh : docs (notes env_n1) !! "n2" = None) by (vm_compute; reflexivity).
  split; [exact Hfresh|].
  destruct env_n1_consistent as [Hk Hl].
  destruct (X11_created_note_is_returned_last js _ _ _ _ _ "n2" "2025-09-28T07:40:00.000Z"
              Hk Hl alice_authentic Hfresh) as (before & Hbefore & Hafter).
  rewrite Hafter. vm_compute in Hbefore. injection Hbefore as <-. reflexivity.
Defined.

Lemma X12_witness :
  delete_note js "n1" (credentials "ALICE" "secret1") env_n1
  = (Ok (ok DSuccess), after (delete_note js "n1" (credentials "ALICE" "secret1")) env_n1) /\
  Forall (fun req => creates "n1" req = false) later_n1 /\
  put_note js "n1" "2025-09-28T07:45:00.000Z"
    (<["title" := JStr "Again"]> (credentials "alice" "secret1"))
    (serve js later_n1 (after (delete_note js "n1" (credentials "ALICE" "secret1")) env_n1))
  = (Ok (notFound "Not bulunamadı."),
     serve js later_n1 (after (delete_note js "n1" (credentials "ALICE" "secret1")) env_n1)).
Proof.
  assert (Hrun :
    delete_note js "n1" (credentials "ALICE" "secret1") env_n1
    = (Ok (ok DSuccess), after (delete_note js "n1" (credentials "ALICE" "secret1")) env_n1))
    by (vm_compute; reflexivity).
  assert (Hlater : Forall (fun req => creates "n1" req = false) later_n1)
    by (repeat constructor).
  split; [exact Hrun|]. split; [exact Hlater|].
  destruct (X12_deleted_note_is_gone js _ _ _ _ _ later_n1 Hrun eq_refl Hlater)
    as [_ Hgone].
  destruct (Hgone (<["title" := JStr "Again"]> (credentials "alice" "secret1"))
              "2025-09-28T07:45:00.000Z") as (_ & _ & _ & _ & Hauth).
  apply (Hauth "alice" "secret1" (UserRecord.mk "alice" "Alice" (digest "secret1") ["n2"])).
  repeat split; vm_compute; reflexivity.
Defined.

Lemma X13_witness :
  authentic js env_n1
    (<["newPassword" := JStr "s3cret-2"]> (credentials "alice" "secret1"))
    "alice" "secret1" (UserRecord.mk "alice" "Alice" (digest "secret1") ["n1"]) /\
  reply (login js (credentials "Alice" "s3cret-2"))
        (after (put_password js
                  (<["newPassword" := JStr "s3cret-2"]> (credentials "alice" "secret1")))
               env_n1)
  = Ok (ok (DLogin "Alice" [note_n1])).
Proof.
  assert (Hauth : authentic js env_n1
    (<["newPassword" := JStr "s3cret-2"]> (credentials "alice" "secret1"))
    "alice" "secret1" (UserRecord.mk "alice" "Alice" (digest "secret1") ["n1"]))
    by (repeat split; vm_compute; reflexivity).
  split; [exact Hauth|].
  destruct (X13_password_change_keeps_notes js _ _ _ _ _ "s3cret-2" Hauth)
    with (body2 := credentials "Alice" "s3cret-2") (u2 := "Alice") as (_ & Hsame & _).
  - vm_compute. reflexivity.
  - vm_compute. reflexivity.
  - vm_compute. lia.
  - repeat split; vm_compute; reflexivity.
  - vm_compute. reflexivity.
  - rewrite Hsame. vm_compute. reflexivity.
Defined.

Lemma X15_witness :
  Forall (dated clock) [note_n1; note_n2] /\
  AppState.notes (Client.login clock "Alice" "secret1" [note_n1; note_n2] false Client.initial)
  = [note_n2; note_n1] /\
  StronglySorted (not_older clock)
    (AppState.notes
       (Client.login clock "Alice" "secret1" [note_n1; note_n2] false Client.initial)).
Proof.
  assert (Hdated : Forall (dated clock) [note_n1; note_n2])
    by (repeat constructor; vm_compute; eauto).
  split; [exact Hdated|]. split; [vm_compute; reflexivity|].
  destruct (X15_login_sorts_newest_first clock "Alice" "secret1" [note_n1; note_n2] false
              Client.initial) as (_ & _ & _ & Hnewest).
  destruct (Hnewest Hdated) as [Hsorted _]. exact Hsorted.
Defined.

Lemma X14_witness :
  active_listed client_n1 /\
  selects_listed (Client.DeleteNote "n1") client_n1 /\
  active_listed (Client.act clock (Client.DeleteNote "n1") client_n1) /\
  AppState.activeNoteId (Client.act clock (Client.DeleteNote "n1") client_n1) = None.
Proof.
  assert (H0 : active_listed client_n1).
  { apply (X14_active_note_stays_listed clock
             (Client.Login "Alice" "secret1" [note_n1] false) Client.initial
             active_listed_initial I). }
  split; [exact H0|]. split; [exact I|].
  split; [|vm_compute; reflexivity].
  apply (X14_active_note_stays_listed clock (Client.DeleteNote "n1") client_n1 H0 I).
Defined.

Lemma X18_witness :
  (forall n, n ∈ AppState.notes client_n1 -> Note.id n <> Note.id note_n2) /\
  AppState.notes (Client.deleteNote "n2" (Client.addNote note_n2 client_n1)) = [note_n1] /\
  AppState.activeNoteId (Client.deleteNote "n2" (Client.addNote note_n2 client_n1))
  = Some "n1".
Proof.
  assert (Habsent : forall n, n ∈ AppState.notes client_n1 -> Note.id n <> Note.id note_n2).
  { intros n Hn. vm_compute in Hn. apply list_elem_of_singleton in Hn. subst n.
    intros H. vm_compute in H. discriminate H. }
  split; [exact Habsent|].
  destruct (X18_client_add_then_delete note_n2 client_n1 Habsent) as [Hnotes Hactive].
  split; [exact Hnotes | exact Hactive].
Defined.

Lemma X19_witness :
  credentials_of js (credentials "ALICE" "secret1") "ALICE" "secret1" /\
  reply (login js (credentials "ALICE" "secret1")) (serve js history_n1 empty_env)
  = Ok (ok (DLogin "Alice" [note_n1])) /\
  authenticateUser js (credentials "Alice" "secret1") (fun c => ret (ok DSuccess))
    (serve js history_n1 empty_env)
  = (Ok (ok DSuccess), serve js history_n1 empty_env).
Proof.
  assert (Hc : credentials_of js (credentials "ALICE" "secret1") "ALICE" "secret1")
    by (repeat split; vm_compute; reflexivity).
  assert (Hlogin :
    reply (login js (credentials "ALICE" "secret1")) (serve js history_n1 empty_env)
    = Ok (ok (DLogin "Alice" [note_n1]))) by (vm_compute; reflexivity).
  split; [exact Hc|]. split; [exact Hlogin|].
  destruct (X19_returned_username_authenticates js history_n1 _ _ _ _ _
              (credentials "Alice" "secret1") (fun c => ret (ok DSuccess))
              Hc Hlogin eq_refl eq_refl) as [_ Hpass].
  rewrite Hpass. reflexivity.
Defined.

Lemma X20_witness :
  handlePasswordChange js "s3cret-2" "s3cret-2" client_n1
  = Send (<["username" := JStr "Alice"]>
            (<["password" := JStr "secret1"]> (<["newPassword" := JStr "s3cret-2"]> ∅))) /\
  handlePasswordChange js "şifre" "şifre" client_n1
  = Toast "Yeni şifre en az 6 karakter olmalıdır." /\
  reply (put_password js
           (<["username" := JStr "Alice"]>
              (<["password" := JStr "secret1"]> (<["newPassword" := JStr "s3cret-2"]> ∅))))
        env_n1
  = Ok (ok DSuccess).
Proof.
  destruct (X20_password_dialog_request_is_accepted js "s3cret-2" "s3cret-2" client_n1)
    as [Hsent Hsends].
  assert (Hsend : handlePasswordChange js "s3cret-2" "s3cret-2" client_n1
    = Send (<["username" := JStr "Alice"]>
              (<["password" := JStr "secret1"]> (<["newPassword" := JStr "s3cret-2"]> ∅)))).
  { apply Hsends; [reflexivity | vm_compute; lia | reflexivity | discriminate
                   | reflexivity | discriminate]. }
  split; [exact Hsend|]. split; [vm_compute; reflexivity|].
  destruct (Hsent _ Hsend) as (_ & _ & _ & _ & _ & _ & Hserver).
  destruct (Hserver env_n1 "Alice" "secret1"
              (UserRecord.mk "alice" "Alice" (digest "secret1") ["n1"])) as [Hok _].
  - repeat split; vm_compute; reflexivity.
  - vm_compute. reflexivity.
  - exact Hok.
Defined.
